(** * IntHR / ATS: the LLM-response recovery pipeline

    A shallow embedding of the response-recovery code of the ATS application
    ([agents/job_matching_agent.py], [agents/decision_feedback_agent.py],
    [agents/resume_parsing_agent.py] and the pydantic models under [models/]),
    and the properties of the specification checked against it.  The code
    around it is embedded as well: the client's [get_completion]
    ([config/openrouter_config.py]), the text cleaner
    ([utils/text_preprocessing.py]) and two consumers of the records
    ([ui/candidate_summary.py], [ui/resume_highlight.py]).

    Conventions of the embedding.
    - A Python [str] is a Rocq [string]; a character is a code point below
      256 (the Latin-1 range), classified as CPython classifies it.
    - A Python [float] is an exact rational, or one of the three non-finite
      values; rounding is not modelled.
    - An exception is a value of [exn]; code that may raise returns
      [result A], and [try]/[except] is a match on that result.
    - [print] is not modelled.
    - Quote characters inside literals are written [$] and turned into the
      double-quote character by [jq]. *)

From Stdlib Require Import String Ascii List ZArith QArith Qreduction Bool Arith Lia.
From Stdlib Require Import DecimalString.
Import ListNotations.

Local Close Scope Q_scope.
Local Open Scope string_scope.
Local Open Scope nat_scope.

(** ** Characters *)

Module Char.

Definition code (c : ascii) : nat := nat_of_ascii c.

Definition dquote : ascii := ascii_of_nat 34.
Definition newline : ascii := ascii_of_nat 10.
Definition backslash : ascii := ascii_of_nat 92.

Definition between (lo hi : nat) (c : ascii) : bool :=
  (lo <=? code c)%nat && (code c <=? hi)%nat.

(** [str.isspace] and the regular-expression class [\s]. *)
Definition isspace (c : ascii) : bool :=
  between 9 13 c || between 28 32 c || (code c =? 133)%nat || (code c =? 160)%nat.

(** The class [\d]: decimal digits. *)
Definition isdigit (c : ascii) : bool := between 48 57 c.

(** The class [\w]: alphanumeric characters and the underscore. *)
Definition isword (c : ascii) : bool :=
  isdigit c || between 65 90 c || between 97 122 c || (code c =? 95)%nat
  || (code c =? 170)%nat || (code c =? 178)%nat || (code c =? 179)%nat
  || (code c =? 181)%nat || (code c =? 185)%nat || (code c =? 186)%nat
  || between 188 190 c || between 192 214 c || between 216 246 c
  || between 248 255 c.

(** The four characters the JSON grammar calls whitespace. *)
Definition is_json_ws (c : ascii) : bool :=
  (code c =? 32)%nat || (code c =? 9)%nat || (code c =? 10)%nat || (code c =? 13)%nat.

Definition digit_value (c : ascii) : Z := Z.of_nat (code c) - 48.

(** [str.lower] on one character. *)
Definition lower (c : ascii) : ascii :=
  if between 65 90 c || (between 192 222 c && negb (code c =? 215)%nat)
  then ascii_of_nat (code c + 32)
  else c.

End Char.

(** ** Python string operations *)

Module Str.

Definition len := String.length.

(** [s.lower()]. *)
Fixpoint lower (s : string) : string :=
  match s with
  | EmptyString => EmptyString
  | String c r => String (Char.lower c) (lower r)
  end.

Fixpoint take (n : nat) (s : string) : string :=
  match n, s with
  | S k, String c s' => String c (take k s')
  | _, _ => EmptyString
  end.

Fixpoint drop (n : nat) (s : string) : string :=
  match n, s with
  | S k, String _ s' => drop k s'
  | _, _ => s
  end.

(** [s[:-n]] for a positive [n]. *)
Definition drop_last (n : nat) (s : string) : string := take (len s - n) s.

Definition startswith (p s : string) : bool := String.prefix p s.

Definition endswith (p s : string) : bool :=
  (len p <=? len s)%nat && String.eqb (drop (len s - len p) s) p.

Fixpoint lstrip (s : string) : string :=
  match s with
  | String c s' => if Char.isspace c then lstrip s' else s
  | EmptyString => EmptyString
  end.

Fixpoint rstrip (s : string) : string :=
  match s with
  | EmptyString => EmptyString
  | String c s' =>
      match rstrip s' with
      | EmptyString => if Char.isspace c then EmptyString else String c EmptyString
      | r => String c r
      end
  end.

Definition strip (s : string) : string := rstrip (lstrip s).

(** [p in s]. *)
Fixpoint contains (p s : string) : bool :=
  String.prefix p s ||
  match s with
  | EmptyString => false
  | String _ s' => contains p s'
  end.

Definition contains_char (c : ascii) (s : string) : bool :=
  contains (String c EmptyString) s.

(** [s.replace(a, b)] for one-character [a]. *)
Fixpoint replace_char (a : ascii) (b : string) (s : string) : string :=
  match s with
  | EmptyString => EmptyString
  | String c s' =>
      if Ascii.eqb c a then b ++ replace_char a b s'
      else String c (replace_char a b s')
  end.

(** [s.count(c)] for a one-character [c]. *)
Fixpoint count (c : ascii) (s : string) : nat :=
  match s with
  | EmptyString => 0
  | String c' s' => (if Ascii.eqb c' c then 1 else 0) + count c s'
  end.

(** [s.split(c)] for a one-character separator: never empty. *)
Fixpoint split (sep : ascii) (s : string) : list string :=
  match s with
  | EmptyString => [EmptyString]
  | String c s' =>
      if Ascii.eqb c sep then EmptyString :: split sep s'
      else match split sep s' with
           | l :: ls => String c l :: ls
           | [] => [String c EmptyString]
           end
  end.

(** [s.split(c, 1)]: the text before the first [c] and the text after it. *)
Fixpoint split_once (sep : ascii) (s : string) : string * option string :=
  match s with
  | EmptyString => (EmptyString, None)
  | String c s' =>
      if Ascii.eqb c sep then (EmptyString, Some s')
      else let '(a, b) := split_once sep s' in (String c a, b)
  end.

Definition join (sep : string) (ls : list string) : string := String.concat sep ls.

Definition lines (s : string) : list string := split Char.newline s.
Definition unlines (ls : list string) : string :=
  join (String Char.newline EmptyString) ls.

(** Literals: [$] stands for the double-quote character. *)
Definition jq (s : string) : string :=
  replace_char "$"%char (String Char.dquote EmptyString) s.

(** [lines[i] = v] on an index known to be in range. *)
Fixpoint set_nth (i : nat) (v : string) (ls : list string) : list string :=
  match ls, i with
  | [], _ => []
  | _ :: r, O => v :: r
  | x :: r, S k => x :: set_nth k v r
  end.

End Str.

Definition jq := Str.jq.

(** ** Exceptions and results *)

(** What [json.JSONDecodeError] carries: the message, the character offset
    and the line and column (both counted from 1) computed from it. *)
Record decode_error : Type := DecodeError {
  de_msg : string;
  de_pos : nat;
  de_lineno : nat;
  de_colno : nat
}.

Inductive exn : Type :=
| JSONDecodeError (e : decode_error)
| ValidationError
| ValueError
| TypeError
| OtherException (what : string).

Inductive result (A : Type) : Type :=
| Ret (a : A)
| Raise (e : exn).

Arguments Ret {A} a.
Arguments Raise {A} e.

Definition bind {A B : Type} (m : result A) (k : A -> result B) : result B :=
  match m with
  | Ret a => k a
  | Raise e => Raise e
  end.

Notation "x <- m ;; k" := (bind m (fun x => k))
  (at level 61, m at next level, right associativity).

(** [try: body  except <class> as e: handler e]; an exception outside the
    class passes through. *)
Definition try_except {A : Type} (body : result A) (catches : exn -> bool)
    (handler : exn -> result A) : result A :=
  match body with
  | Ret a => Ret a
  | Raise e => if catches e then handler e else Raise e
  end.

(** The exception classes the handlers of the source name.  Both
    [json.JSONDecodeError] and pydantic's [ValidationError] derive from
    [ValueError]; everything here derives from [Exception]. *)
Definition is_JSONDecodeError (e : exn) : bool :=
  match e with JSONDecodeError _ => true | _ => false end.

Definition is_ValidationError (e : exn) : bool :=
  match e with ValidationError => true | _ => false end.

Definition is_ValueError_or_TypeError (e : exn) : bool :=
  match e with
  | JSONDecodeError _ | ValidationError | ValueError | TypeError => true
  | OtherException _ => false
  end.

Definition is_Exception (e : exn) : bool := true.

Definition returns {A : Type} (r : result A) : Prop := exists a, r = Ret a.

(** ** JSON values and Python's [json] module *)

Module Json.

Inductive pyfloat : Type :=
| Fin (q : Q)
| PosInf
| NegInf
| NaN.

(** What [json.loads] builds: [None], [bool], [int], [float], [str], [list]
    and [dict] (insertion-ordered, one entry per key). *)
#[warnings="-register-all"]
Inductive value : Type :=
| JNull
| JBool (b : bool)
| JInt (n : Z)
| JFloat (f : pyfloat)
| JStr (s : string)
| JArr (items : list value)
| JObj (fields : list (string * value)).

(** [d.get(k)] and [k in d]. *)
Fixpoint get (k : string) (fields : list (string * value)) : option value :=
  match fields with
  | [] => None
  | (k', v) :: r => if String.eqb k' k then Some v else get k r
  end.

(** [d[k] = v]: an existing key keeps its place. *)
Fixpoint set (k : string) (v : value) (fields : list (string * value))
    : list (string * value) :=
  match fields with
  | [] => [(k, v)]
  | (k', v') :: r =>
      if String.eqb k' k then (k, v) :: r else (k', v') :: set k v r
  end.

(** *** The decoder

    The scanner of CPython's [json] module (the release line before the
    trailing-comma messages were added), followed case by case.  A [\u]
    escape is decoded when its code point is below 256; the model has no
    character for the others and reports them as invalid escapes. *)

Inductive scan (A : Type) : Type :=
| Scanned (v : A) (rest : string) (idx : nat)
| Failed (msg : string) (at_idx : nat).

Arguments Scanned {A} v rest idx.
Arguments Failed {A} msg at_idx.

Definition scan_map {A B : Type} (f : A -> B) (r : scan A) : scan B :=
  match r with
  | Scanned v rest idx => Scanned (f v) rest idx
  | Failed m i => Failed m i
  end.

Fixpoint skip_ws (s : string) (idx : nat) : string * nat :=
  match s with
  | String c s' => if Char.is_json_ws c then skip_ws s' (S idx) else (s, idx)
  | EmptyString => (s, idx)
  end.

Definition hex_value (c : ascii) : option nat :=
  let n := Char.code c in
  if Char.between 48 57 c then Some (n - 48)
  else if Char.between 97 102 c then Some (n - 87)
  else if Char.between 65 70 c then Some (n - 55)
  else None.

Definition hex4 (a b c d : ascii) : option nat :=
  match hex_value a, hex_value b, hex_value c, hex_value d with
  | Some x, Some y, Some z, Some w => Some (((x * 16 + y) * 16 + z) * 16 + w)
  | _, _, _, _ => None
  end.

Definition unescape (c : ascii) : option ascii :=
  if Ascii.eqb c Char.dquote then Some Char.dquote
  else if Ascii.eqb c Char.backslash then Some Char.backslash
  else if Ascii.eqb c "/" then Some "/"%char
  else if Ascii.eqb c "b" then Some (ascii_of_nat 8)
  else if Ascii.eqb c "f" then Some (ascii_of_nat 12)
  else if Ascii.eqb c "n" then Some (ascii_of_nat 10)
  else if Ascii.eqb c "r" then Some (ascii_of_nat 13)
  else if Ascii.eqb c "t" then Some (ascii_of_nat 9)
  else None.

(** [scanstring]: [s] is the text after the opening quote, which stands at
    offset [begin]. *)
Fixpoint scanstring (begin : nat) (s : string) (idx : nat) : scan string :=
  match s with
  | EmptyString => Failed "Unterminated string starting at" begin
  | String c s' =>
      if Ascii.eqb c Char.dquote then Scanned EmptyString s' (S idx)
      else if Ascii.eqb c Char.backslash then
        match s' with
        | EmptyString => Failed "Unterminated string starting at" begin
        | String e s'' =>
            if Ascii.eqb e "u" then
              match s'' with
              | String h1 (String h2 (String h3 (String h4 ((String _ _) as after)))) =>
                  match hex4 h1 h2 h3 h4 with
                  | Some n =>
                      if (n <? 256)%nat then
                        scan_map (String (ascii_of_nat n))
                                 (scanstring begin after (idx + 6))
                      else Failed "Invalid \uXXXX escape" (S idx)
                  | None => Failed "Invalid \uXXXX escape" (S idx)
                  end
              | _ => Failed "Invalid \uXXXX escape" (S idx)
              end
            else
              match unescape e with
              | Some ch => scan_map (String ch) (scanstring begin s'' (idx + 2))
              | None => Failed "Invalid \escape" idx
              end
        end
      else if (Char.code c <=? 31)%nat then Failed "Invalid control character at" idx
      else scan_map (String c) (scanstring begin s' (S idx))
  end.

(** The longest run of decimal digits at the head of [s]. *)
Fixpoint span_digits (s : string) : string * string :=
  match s with
  | String c s' =>
      if Char.isdigit c then let '(d, r) := span_digits s' in (String c d, r)
      else (EmptyString, s)
  | EmptyString => (EmptyString, EmptyString)
  end.

Fixpoint digits_value_from (acc : Z) (s : string) : Z :=
  match s with
  | String c s' => digits_value_from (10 * acc + Char.digit_value c) s'
  | EmptyString => acc
  end.

Definition digits_value (s : string) : Z := digits_value_from 0 s.

(** The integer part of a number: [0] or a run starting with a non-zero
    digit. *)
Definition span_integer (s : string) : option (string * string) :=
  match s with
  | String c s' =>
      if Ascii.eqb c "0" then Some ("0", s')
      else if Char.isdigit c then Some (span_digits s)
      else None
  | EmptyString => None
  end.

Definition span_fraction (s : string) : option (string * string) :=
  match s with
  | String c s' =>
      if Ascii.eqb c "." then
        match span_digits s' with
        | (EmptyString, _) => None
        | (d, r) => Some (d, r)
        end
      else None
  | EmptyString => None
  end.

(** The exponent: its value, the number of characters it spans and the rest. *)
Definition span_exponent (s : string) : option (Z * nat * string) :=
  match s with
  | String c s' =>
      if Ascii.eqb c "e" || Ascii.eqb c "E" then
        let '(neg, signlen, s'') :=
          match s' with
          | String sg t =>
              if Ascii.eqb sg "-" then (true, 1%nat, t)
              else if Ascii.eqb sg "+" then (false, 1%nat, t)
              else (false, 0%nat, s')
          | EmptyString => (false, 0%nat, s')
          end in
        match span_digits s'' with
        | (EmptyString, _) => None
        | (d, r) =>
            Some (if neg then (- digits_value d)%Z else digits_value d,
                  (1 + signlen + String.length d)%nat, r)
        end
      else None
  | EmptyString => None
  end.

Definition pow10 (e : Z) : Q :=
  if (0 <=? e)%Z then inject_Z (10 ^ e) else Qinv (inject_Z (10 ^ (- e))).

(** [NUMBER_RE] and the conversion of its three groups. *)
Definition scan_number (s : string) (idx : nat) : option (scan value) :=
  let '(neg, s1, i1) :=
    match s with
    | String c s' => if Ascii.eqb c "-" then (true, s', S idx) else (false, s, idx)
    | EmptyString => (false, s, idx)
    end in
  match span_integer s1 with
  | None => None
  | Some (int_digits, s2) =>
      let i2 := (i1 + String.length int_digits)%nat in
      let sign (z : Z) := if neg then (- z)%Z else z in
      match span_fraction s2, (fun t => span_exponent t) with
      | None, ex =>
          match ex s2 with
          | None => Some (Scanned (JInt (sign (digits_value int_digits))) s2 i2)
          | Some (e, elen, s3) =>
              Some (Scanned
                      (JFloat (Fin (Qred (Qmult (inject_Z (sign (digits_value int_digits))) (pow10 e)))))
                      s3 (i2 + elen)%nat)
          end
      | Some (frac_digits, s3), ex =>
          let i3 := (i2 + 1 + String.length frac_digits)%nat in
          let mant :=
            Qmult (inject_Z (sign (digits_value (int_digits ++ frac_digits))))
                  (pow10 (- Z.of_nat (String.length frac_digits))) in
          match ex s3 with
          | None => Some (Scanned (JFloat (Fin (Qred mant))) s3 i3)
          | Some (e, elen, s4) =>
              Some (Scanned (JFloat (Fin (Qred (Qmult mant (pow10 e))))) s4 (i3 + elen)%nat)
          end
      end
  end.

Definition scan_literal (s : string) (idx : nat) : scan value :=
  if String.prefix "null" s then Scanned JNull (Str.drop 4 s) (idx + 4)
  else if String.prefix "true" s then Scanned (JBool true) (Str.drop 4 s) (idx + 4)
  else if String.prefix "false" s then Scanned (JBool false) (Str.drop 5 s) (idx + 5)
  else
    match scan_number s idx with
    | Some r => r
    | None =>
        if String.prefix "NaN" s then Scanned (JFloat NaN) (Str.drop 3 s) (idx + 3)
        else if String.prefix "Infinity" s then
          Scanned (JFloat PosInf) (Str.drop 8 s) (idx + 8)
        else if String.prefix "-Infinity" s then
          Scanned (JFloat NegInf) (Str.drop 9 s) (idx + 9)
        else Failed "Expecting value" idx
    end.

(** [scan_once], with the member loops of [JSONObject] and [JSONArray].  The
    fuel bounds the number of values and members read; a document needs at
    most two units for each of its characters. *)
Fixpoint scan_once (fuel : nat) (s : string) (idx : nat) {struct fuel} : scan value :=
  match fuel with
  | O => Failed "fuel" idx
  | S f =>
      match s with
      | EmptyString => Failed "Expecting value" idx
      | String c s' =>
          if Ascii.eqb c Char.dquote then scan_map JStr (scanstring idx s' (S idx))
          else if Ascii.eqb c "{" then
            match skip_ws s' (S idx) with
            | (String c1 s1, i1) =>
                if Ascii.eqb c1 "}" then Scanned (JObj []) s1 (S i1)
                else scan_map JObj (object_members f [] (String c1 s1) i1)
            | (EmptyString, i1) => scan_map JObj (object_members f [] EmptyString i1)
            end
          else if Ascii.eqb c "[" then
            match skip_ws s' (S idx) with
            | (String c1 s1, i1) =>
                if Ascii.eqb c1 "]" then Scanned (JArr []) s1 (S i1)
                else scan_map JArr (array_items f [] (String c1 s1) i1)
            | (EmptyString, i1) => scan_map JArr (array_items f [] EmptyString i1)
            end
          else scan_literal s idx
      end
  end

with object_members (fuel : nat) (acc : list (string * value)) (s : string) (idx : nat)
    {struct fuel} : scan (list (string * value)) :=
  match fuel with
  | O => Failed "fuel" idx
  | S f =>
      match s with
      | String c s' =>
          if Ascii.eqb c Char.dquote then
            match scanstring idx s' (S idx) with
            | Failed m i => Failed m i
            | Scanned key s1 i1 =>
                match skip_ws s1 i1 with
                | (String c2 s2, i2) =>
                    if Ascii.eqb c2 ":" then
                      let '(s3, i3) := skip_ws s2 (S i2) in
                      match scan_once f s3 i3 with
                      | Failed m i => Failed m i
                      | Scanned v s4 i4 =>
                          let acc' := set key v acc in
                          match skip_ws s4 i4 with
                          | (String c5 s5, i5) =>
                              if Ascii.eqb c5 "}" then Scanned acc' s5 (S i5)
                              else if Ascii.eqb c5 "," then
                                let '(s6, i6) := skip_ws s5 (S i5) in
                                object_members f acc' s6 i6
                              else Failed "Expecting ',' delimiter" i5
                          | (EmptyString, i5) => Failed "Expecting ',' delimiter" i5
                          end
                      end
                    else Failed "Expecting ':' delimiter" i2
                | (EmptyString, i2) => Failed "Expecting ':' delimiter" i2
                end
            end
          else Failed "Expecting property name enclosed in double quotes" idx
      | EmptyString => Failed "Expecting property name enclosed in double quotes" idx
      end
  end

with array_items (fuel : nat) (acc : list value) (s : string) (idx : nat)
    {struct fuel} : scan (list value) :=
  match fuel with
  | O => Failed "fuel" idx
  | S f =>
      match scan_once f s idx with
      | Failed m i => Failed m i
      | Scanned v s1 i1 =>
          let acc' := (acc ++ [v])%list in
          match skip_ws s1 i1 with
          | (String c2 s2, i2) =>
              if Ascii.eqb c2 "]" then Scanned acc' s2 (S i2)
              else if Ascii.eqb c2 "," then
                let '(s3, i3) := skip_ws s2 (S i2) in
                array_items f acc' s3 i3
              else Failed "Expecting ',' delimiter" i2
          | (EmptyString, i2) => Failed "Expecting ',' delimiter" i2
          end
      end
  end.

(** Line and column of an offset, as [JSONDecodeError.__init__] computes
    them: [lineno = doc.count(newline, 0, pos) + 1] and [colno] the distance
    from the last newline before [pos]. *)
Fixpoint line_col_from (line col : nat) (pos : nat) (doc : string) : nat * nat :=
  match pos, doc with
  | S p, String c d =>
      if Ascii.eqb c Char.newline then line_col_from (S line) 1 p d
      else line_col_from line (S col) p d
  | _, _ => (line, col)
  end.

Definition mk_decode_error (doc msg : string) (pos : nat) : decode_error :=
  let '(l, c) := line_col_from 1 1 pos doc in DecodeError msg pos l c.

(** [json.loads(doc)]: the value, or the [JSONDecodeError] raised. *)
Definition loads (doc : string) : value + decode_error :=
  let '(s0, i0) := skip_ws doc 0 in
  match scan_once (2 * String.length doc + 2) s0 i0 with
  | Failed m i => inr (mk_decode_error doc m i)
  | Scanned v s1 i1 =>
      match skip_ws s1 i1 with
      | (EmptyString, _) => inl v
      | (String _ _, i2) => inr (mk_decode_error doc "Extra data" i2)
      end
  end.

End Json.

Export Json(pyfloat(..), value(..)).

(** ** Regular expressions

    The patterns of the source, each written as a matcher that tries the
    pattern at the head of a text.  [sub] and [search] then walk the text as
    [re.sub] and [re.search] do: leftmost match first, and after a match the
    walk resumes behind it. *)

Module Re.

(** A matcher answers with what the match is replaced by (or the captured
    group) and the number of characters matched, which is never zero. *)
Definition matcher (A : Type) : Type := string -> option (A * nat).

Fixpoint sub_from (m : matcher string) (skip : nat) (s : string) : string :=
  match s with
  | EmptyString => EmptyString
  | String c s' =>
      match skip with
      | S k => sub_from m k s'
      | O =>
          match m s with
          | Some (repl, n) => repl ++ sub_from m (n - 1) s'
          | None => String c (sub_from m 0 s')
          end
      end
  end.

Definition sub (m : matcher string) (s : string) : string := sub_from m 0 s.

Fixpoint search {A : Type} (m : matcher A) (s : string) : option A :=
  match m s with
  | Some (a, _) => Some a
  | None =>
      match s with
      | EmptyString => None
      | String _ s' => search m s'
      end
  end.

(** [\s*], [\w+] and [\d+] at the head of a text: the run and what follows. *)
Fixpoint span (p : ascii -> bool) (s : string) : string * string :=
  match s with
  | String c s' =>
      if p c then let '(a, b) := span p s' in (String c a, b) else (EmptyString, s)
  | EmptyString => (EmptyString, EmptyString)
  end.

Definition head_is (c : ascii) (s : string) : option string :=
  match s with
  | String c' s' => if Ascii.eqb c' c then Some s' else None
  | EmptyString => None
  end.

Definition literal (p : string) (s : string) : option string :=
  if String.prefix p s then Some (Str.drop (String.length p) s) else None.

(** The pattern [{[\s\S]*}] as one group: from the first opening brace to
    the last closing brace behind it. *)
Fixpoint upto_last_brace (s : string) : option string :=
  match s with
  | EmptyString => None
  | String c s' =>
      match upto_last_brace s' with
      | Some r => Some (String c r)
      | None => if Ascii.eqb c "}" then Some (String c EmptyString) else None
      end
  end.

Fixpoint search_json_object (s : string) : option string :=
  match s with
  | EmptyString => None
  | String c s' =>
      if Ascii.eqb c "{" then
        match upto_last_brace s' with
        | Some r => Some (String c r)
        | None => None
        end
      else search_json_object s'
  end.

(** The pattern [[{,]\s*] (group 1), [\w+] (group 2), [\s*:] (group 3),
    replaced by group 1, the quoted group 2 and group 3. *)
Definition quote_key_at : matcher string := fun s =>
  match s with
  | String c s1 =>
      if Ascii.eqb c "{" || Ascii.eqb c "," then
        let '(ws1, s2) := span Char.isspace s1 in
        match span Char.isword s2 with
        | (EmptyString, _) => None
        | (word, s3) =>
            let '(ws2, s4) := span Char.isspace s3 in
            match head_is ":" s4 with
            | Some _ =>
                Some (String c ws1 ++ String Char.dquote word
                        ++ String Char.dquote ws2 ++ ":",
                      2 + String.length ws1 + String.length word + String.length ws2)
            | None => None
            end
        end
      else None
  | EmptyString => None
  end.

(** The pattern [\s*] (group 1), [\w+] (group 2), [\s*:] (group 3), replaced
    by group 1, the quoted group 2 and group 3. *)
Definition quote_word_at : matcher string := fun s =>
  let '(ws1, s2) := span Char.isspace s in
  match span Char.isword s2 with
  | (EmptyString, _) => None
  | (word, s3) =>
      let '(ws2, s4) := span Char.isspace s3 in
      match head_is ":" s4 with
      | Some _ =>
          Some (ws1 ++ String Char.dquote word ++ String Char.dquote ws2 ++ ":",
                1 + String.length ws1 + String.length word + String.length ws2)
      | None => None
      end
  end.

(** The pattern quote, [\s*], newline, [\s*], quote, replaced by a quote, a
    comma, a newline and a quote. *)
Definition quote_newline_quote_at : matcher string := fun s =>
  match head_is Char.dquote s with
  | Some s1 =>
      let '(ws, s2) := span Char.isspace s1 in
      match head_is Char.dquote s2 with
      | Some _ =>
          if Str.contains_char Char.newline ws then
            Some (String Char.dquote ("," ++ String Char.newline (String Char.dquote EmptyString)),
                  2 + String.length ws)
          else None
      | None => None
      end
  | None => None
  end.

(** The pattern comma, then [\s*[}\]]] as group 1, replaced by group 1. *)
Definition trailing_comma_at : matcher string := fun s =>
  match head_is "," s with
  | Some s1 =>
      let '(ws, s2) := span Char.isspace s1 in
      match s2 with
      | String c _ =>
          if Ascii.eqb c "}" || Ascii.eqb c "]" then
            Some (ws ++ String c EmptyString, 2 + String.length ws)
          else None
      | EmptyString => None
      end
  | None => None
  end.

(** The pattern [<prefix>\s*] followed by the group [\d+]: the digits. *)
Definition prefix_number_at (pre : string) : matcher string := fun s =>
  match literal pre s with
  | Some s1 =>
      let '(ws, s2) := span Char.isspace s1 in
      match span Char.isdigit s2 with
      | (EmptyString, _) => None
      | (digits, _) =>
          Some (digits, String.length pre + String.length ws + String.length digits)
      end
  | None => None
  end.

(** The pattern [<key>\s*:\s*] followed by the group [\d+], where [key] is
    a quoted name: the digits. *)
Definition key_number_at (key : string) : matcher string := fun s =>
  match literal key s with
  | Some s1 =>
      let '(ws1, s2) := span Char.isspace s1 in
      match prefix_number_at ":" s2 with
      | Some (digits, n) => Some (digits, String.length key + String.length ws1 + n)
      | None => None
      end
  | None => None
  end.

(** The pattern [<key>\s*:\s*{\s*] followed by the quoted name [score],
    [\s*:\s*] and the group [\d+]: the digits. *)
Definition section_score_at (key : string) : matcher string := fun s =>
  match literal key s with
  | Some s1 =>
      let '(ws1, s2) := span Char.isspace s1 in
      match head_is ":" s2 with
      | Some s3 =>
          let '(ws2, s4) := span Char.isspace s3 in
          match head_is "{" s4 with
          | Some s5 =>
              let '(ws3, s6) := span Char.isspace s5 in
              match key_number_at (jq "$score$") s6 with
              | Some (digits, n) =>
                  Some (digits,
                        String.length key + String.length ws1 + 1
                        + String.length ws2 + 1 + String.length ws3 + n)
              | None => None
              end
          | None => None
          end
      | None => None
      end
  | None => None
  end.

(** The pattern [line \d+ column \d+] with both runs of digits as groups. *)
Definition line_column_at : matcher (string * string) := fun s =>
  match literal "line " s with
  | Some s1 =>
      match span Char.isdigit s1 with
      | (EmptyString, _) => None
      | (l, s2) =>
          match literal " column " s2 with
          | Some s3 =>
              match span Char.isdigit s3 with
              | (EmptyString, _) => None
              | (c, _) => Some ((l, c), 13 + String.length l + String.length c)
              end
          | None => None
          end
      end
  | None => None
  end.

(** [s.replace(old, new)] for a non-empty [old]. *)
Definition replace (old new : string) (s : string) : string :=
  sub (fun t => if String.prefix old t then Some (new, String.length old) else None) s.

(** The pattern [<key>\s*:\s*{[^}]*}] as one group, [key] being the quoted
    name [hiring_manager_notes]: the text matched. *)
Definition hiring_notes_at : matcher string := fun s =>
  let key := jq "$hiring_manager_notes$" in
  match literal key s with
  | Some s1 =>
      let '(ws1, s2) := span Char.isspace s1 in
      match head_is ":" s2 with
      | Some s3 =>
          let '(ws2, s4) := span Char.isspace s3 in
          match head_is "{" s4 with
          | Some s5 =>
              let '(body, s6) := span (fun c => negb (Ascii.eqb c "}")) s5 in
              match head_is "}" s6 with
              | Some _ =>
                  let text := key ++ ws1 ++ ":" ++ ws2 ++ "{" ++ body ++ "}" in
                  Some (text, String.length text)
              | None => None
              end
          | None => None
          end
      | None => None
      end
  | None => None
  end.

(** A run of whitespace cut at its last newline. *)
Fixpoint cut_at_last_newline (ws : string) : option (string * string) :=
  match ws with
  | EmptyString => None
  | String c r =>
      match cut_at_last_newline r with
      | Some (a, b) => Some (String c a, b)
      | None => if Ascii.eqb c Char.newline then Some (EmptyString, r) else None
      end
  end.

(** The pattern quote and [\s*] (group 1), newline, [\s*] and quote (group
    2), replaced by group 1, a comma, a newline and group 2. *)
Definition comma_before_newline_at : matcher string := fun s =>
  match head_is Char.dquote s with
  | Some s1 =>
      let '(ws, s2) := span Char.isspace s1 in
      match head_is Char.dquote s2, cut_at_last_newline ws with
      | Some _, Some (a, b) =>
          Some (String Char.dquote a ++ "," ++ String Char.newline b
                  ++ String Char.dquote EmptyString,
                2 + String.length ws)
      | _, _ => None
      end
  | None => None
  end.

(** The pattern quote, [\s*], [close], [\s*], [open], replaced by [repl]. *)
Definition quote_close_open_at (close open : ascii) (repl : string) : matcher string :=
  fun s =>
    match head_is Char.dquote s with
    | Some s1 =>
        let '(ws1, s2) := span Char.isspace s1 in
        match head_is close s2 with
        | Some s3 =>
            let '(ws2, s4) := span Char.isspace s3 in
            match head_is open s4 with
            | Some _ => Some (repl, 3 + String.length ws1 + String.length ws2)
            | None => None
            end
        | None => None
        end
    | None => None
    end.

(** The pattern quote, [\s*], [final], replaced by [repl]. *)
Definition quote_then_at (final : ascii) (repl : string) : matcher string := fun s =>
  match head_is Char.dquote s with
  | Some s1 =>
      let '(ws, s2) := span Char.isspace s1 in
      match head_is final s2 with
      | Some _ => Some (repl, 2 + String.length ws)
      | None => None
      end
  | None => None
  end.

(** The pattern comma, [\s*], [close], end of text (or the newline that ends
    the text), replaced by [close]. *)
Definition final_comma_at (close : ascii) : matcher string := fun s =>
  match head_is "," s with
  | Some s1 =>
      let '(ws, s2) := span Char.isspace s1 in
      match head_is close s2 with
      | Some rest =>
          if String.eqb rest EmptyString
             || String.eqb rest (String Char.newline EmptyString)
          then Some (String close EmptyString, 2 + String.length ws)
          else None
      | None => None
      end
  | None => None
  end.

(** The pattern [\s+], replaced by [repl]. *)
Definition space_run_at (repl : string) : matcher string := fun s =>
  match span Char.isspace s with
  | (EmptyString, _) => None
  | (ws, _) => Some (repl, String.length ws)
  end.

(** The pattern newline, [\s*], newline, replaced by two newlines: the
    match ends at the last newline of the run of whitespace. *)
Definition blank_lines_at : matcher string := fun s =>
  match head_is Char.newline s with
  | Some s1 =>
      let '(ws, _) := span Char.isspace s1 in
      match cut_at_last_newline ws with
      | Some (a, _) =>
          Some (String Char.newline (String Char.newline EmptyString),
                2 + String.length a)
      | None => None
      end
  | None => None
  end.

(** The punctuation the class [[^\w\s.,;:!?()-]] names, and all it names. *)
Definition is_punctuation (c : ascii) : bool :=
  existsb (Ascii.eqb c) (list_ascii_of_string ".,;:!?()-").

Definition is_kept (c : ascii) : bool :=
  Char.isword c || Char.isspace c || is_punctuation c.

(** One character of the class [[^\w\s.,;:!?()-]], replaced by nothing. *)
Definition special_char_at : matcher string := fun s =>
  match s with
  | String c _ => if is_kept c then None else Some (EmptyString, 1)
  | EmptyString => None
  end.

(** The pattern [\.+], replaced by one period. *)
Definition period_run_at : matcher string := fun s =>
  match span (fun c => Ascii.eqb c ".") s with
  | (EmptyString, _) => None
  | (dots, _) => Some (".", String.length dots)
  end.

End Re.

(** ** The Python runtime and libraries the code calls

    What the embedding takes from outside the repository.  Every theorem
    below holds for all instances; [Reference.lib] is the instance the closed
    examples run on. *)

Class PyLib : Type := {
  (** [json.loads] on a [str]: the value, or the [JSONDecodeError] it
      raises. *)
  json_loads : string -> value + decode_error;
  (** [float(s)] on a [str]; [None] is [ValueError]. *)
  float_of_str : string -> option pyfloat;
  (** [str(v)] for a value that is not a [str], as an f-string renders it. *)
  format_value : value -> string;
  (** [sys.get_int_max_str_digits()]; [None] when the limit is off. *)
  int_max_str_digits : option nat;
  (** pydantic's lax coercions of a value that is not of the field's type. *)
  lax_int : value -> option Z;
  lax_float : value -> option pyfloat
}.

Definition loads_result `{PyLib} (doc : string) : result value :=
  match json_loads doc with
  | inl v => Ret v
  | inr e => Raise (JSONDecodeError e)
  end.

(** [int(digits)] on a run of decimal digits. *)
Definition py_int `{PyLib} (digits : string) : result Z :=
  match int_max_str_digits with
  | Some limit =>
      if (limit <? String.length digits)%nat then Raise ValueError
      else Ret (Json.digits_value digits)
  | None => Ret (Json.digits_value digits)
  end.

(** ** Floats *)

Module Flt.

Definition of_Z (n : Z) : pyfloat := Fin (inject_Z n).

Definition Qltb (a b : Q) : bool := negb (Qle_bool b a).

(** [a < b]; every comparison with [nan] is false. *)
Definition ltb (a b : pyfloat) : bool :=
  match a, b with
  | NaN, _ | _, NaN => false
  | Fin x, Fin y => Qltb x y
  | NegInf, NegInf => false
  | NegInf, _ => true
  | _, NegInf => false
  | PosInf, _ => false
  | Fin _, PosInf => true
  end.

(** [min(a, b)] and [max(a, b)]: the first argument unless the second is
    strictly smaller (greater). *)
Definition py_min (a b : pyfloat) : pyfloat := if ltb b a then b else a.
Definition py_max (a b : pyfloat) : pyfloat := if ltb a b then b else a.

(** [x / 100.0]. *)
Definition div100 (x : pyfloat) : pyfloat :=
  match x with
  | Fin q => Fin (Qred (Qdiv q (inject_Z 100)))
  | other => other
  end.

Definition zero : pyfloat := Fin (0 # 1).
Definition one : pyfloat := Fin (1 # 1).

(** [lo <= x <= hi] for a finite [x]. *)
Definition within (lo hi : Q) (x : pyfloat) : Prop :=
  match x with
  | Fin q => Qle lo q /\ Qle q hi
  | _ => False
  end.

End Flt.

(** ** The pydantic models *)

(** *** [models/decision_models.py] *)

Record DecisionDetails : Type := {
  status : string;
  confidence_score : Z;
  interview_stage : string
}.

Record RationaleDetails : Type := {
  key_strengths : list string;
  concerns : list string;
  risk_factors : list string
}.

Record RecommendationDetails : Type := {
  interview_focus : list string;
  skill_verification : list string;
  discussion_points : list string
}.

Record HiringManagerNotes : Type := {
  salary_band_fit : string;
  growth_trajectory : string;
  team_fit_considerations : string;
  onboarding_requirements : list string
}.

Record NextStepsDetails : Type := {
  immediate_actions : list string;
  required_approvals : list string;
  timeline_recommendation : string
}.

Record DecisionFeedback : Type := {
  decision : DecisionDetails;
  rationale : RationaleDetails;
  recommendations : RecommendationDetails;
  hiring_manager_notes : HiringManagerNotes;
  next_steps : NextStepsDetails
}.

(** *** [models/job_match_models.py] *)

Record AnalysisBreakdown : Type := {
  score : pyfloat;
  details : list string
}.

Record MatchAnalysis : Type := {
  overall_match_score : pyfloat;
  skills_match : AnalysisBreakdown;
  experience_match : AnalysisBreakdown;
  education_match : AnalysisBreakdown;
  additional_insights : list string;
  recommended_interview_questions : option (list string)
}.

(** *** [models/resume_models.py] *)

Record Education : Type := {
  edu_degree : string;
  edu_institution : string;
  edu_graduation_year : option Z;
  edu_gpa : option pyfloat;
  edu_field : option string;
  edu_graduation_date : option string
}.

Record Experience : Type := {
  exp_title : string;
  exp_company : string;
  exp_duration : string;
  exp_description : list string;
  exp_location : option string;
  exp_start_date : option string;
  exp_end_date : option string;
  exp_responsibilities : option (list string);
  exp_achievements : option (list string)
}.

Record PersonalInfo : Type := {
  name : string;
  email : string;
  phone : option string;
  location : option string
}.

Record Project : Type := {
  proj_name : string;
  proj_description : option string;
  proj_technologies : option (list string);
  proj_url : option string
}.

Record Certification : Type := {
  cert_name : string;
  cert_issuer : option string;
  cert_date : option string
}.

Record ParsedResume : Type := {
  personal_info : PersonalInfo;
  summary : option string;
  education : list Education;
  experience : list Experience;
  skills : list string;
  projects : option (list Project);
  certifications : option (list Certification)
}.

Module Models.

(** The validators. *)

(** [DecisionDetails.validate_confidence]: [max(0, min(100, v))]. *)
Definition validate_confidence (v : Z) : Z := Z.max 0 (Z.min 100 v).

(** [AnalysisBreakdown.validate_score]: [max(0.0, min(1.0, v))]. *)
Definition validate_score (v : pyfloat) : pyfloat :=
  Flt.py_max Flt.zero (Flt.py_min Flt.one v).

(** [MatchAnalysis.validate_overall_score]: [max(0.0, min(1.0, v))]. *)
Definition validate_overall_score (v : pyfloat) : pyfloat :=
  Flt.py_max Flt.zero (Flt.py_min Flt.one v).

(** The declared defaults.  A default is stored as declared: pydantic runs
    no validator on it. *)

Definition DecisionDetails_default : DecisionDetails :=
  {| status := "HOLD"; confidence_score := 30; interview_stage := "SCREENING" |}.

Definition RationaleDetails_default : RationaleDetails :=
  {| key_strengths := ["Pending resume analysis"];
     concerns := ["Resume analysis not yet completed"];
     risk_factors := ["Unable to assess risk factors until analysis is complete"] |}.

Definition RecommendationDetails_default : RecommendationDetails :=
  {| interview_focus :=
       ["Complete resume analysis required before providing interview focus areas"];
     skill_verification := ["Skills verification pending resume processing"];
     discussion_points :=
       ["Discussion points will be generated after resume analysis"] |}.

Definition HiringManagerNotes_default : HiringManagerNotes :=
  {| salary_band_fit := "Pending assessment";
     growth_trajectory := "To be evaluated";
     team_fit_considerations := "Awaiting team fit analysis";
     onboarding_requirements :=
       ["Complete candidate profile required for onboarding assessment"] |}.

Definition NextStepsDetails_default : NextStepsDetails :=
  {| immediate_actions := ["Upload and process resume"; "Add job description"; "Run analysis"];
     required_approvals := ["Initial screening pending"];
     timeline_recommendation := "Analysis required before timeline can be determined" |}.

Definition DecisionFeedback_default : DecisionFeedback :=
  {| decision := DecisionDetails_default;
     rationale := RationaleDetails_default;
     recommendations := RecommendationDetails_default;
     hiring_manager_notes := HiringManagerNotes_default;
     next_steps := NextStepsDetails_default |}.

Definition AnalysisBreakdown_default : AnalysisBreakdown :=
  {| score := Flt.zero; details := ["No analysis available yet"] |}.

Definition MatchAnalysis_default : MatchAnalysis :=
  {| overall_match_score := Flt.zero;
     skills_match :=
       {| score := validate_score Flt.zero;
          details := ["Skills analysis not yet performed"] |};
     experience_match :=
       {| score := validate_score Flt.zero;
          details := ["Experience analysis not yet performed"] |};
     education_match :=
       {| score := validate_score Flt.zero;
          details := ["Education analysis not yet performed"] |};
     additional_insights :=
       ["Analysis pending - please process a resume and job description"];
     recommended_interview_questions := Some ["No interview questions generated yet"] |}.

Section Validation.

Context `{PyLib}.

(** Validation of one keyword argument against the field's type. *)

Definition validate_str (v : value) : result string :=
  match v with
  | JStr s => Ret s
  | _ => Raise ValidationError
  end.

Definition validate_int (v : value) : result Z :=
  match v with
  | JInt n => Ret n
  | other =>
      match lax_int other with
      | Some n => Ret n
      | None => Raise ValidationError
      end
  end.

Definition validate_float (v : value) : result pyfloat :=
  match v with
  | JFloat f => Ret f
  | JInt n => Ret (Flt.of_Z n)
  | other =>
      match lax_float other with
      | Some f => Ret f
      | None => Raise ValidationError
      end
  end.

Fixpoint validate_each {A : Type} (f : value -> result A) (items : list value)
    : result (list A) :=
  match items with
  | [] => Ret []
  | v :: r => a <- f v ;; rest <- validate_each f r ;; Ret (a :: rest)
  end.

Definition validate_list_str (v : value) : result (list string) :=
  match v with
  | JArr items => validate_each validate_str items
  | _ => Raise ValidationError
  end.

Definition validate_optional {A : Type} (f : value -> result A) (v : value)
    : result (option A) :=
  match v with
  | JNull => Ret None
  | other => a <- f other ;; Ret (Some a)
  end.

(** A field of the keyword arguments: validated when given, the declared
    default when absent. *)
Definition field {A : Type} (kwargs : list (string * value)) (key : string)
    (validate : value -> result A) (default : A) : result A :=
  match Json.get key kwargs with
  | Some v => validate v
  | None => Ret default
  end.

(** A model is built from a [dict]; anything else is refused. *)
Definition model {A : Type} (build : list (string * value) -> result A) (v : value)
    : result A :=
  match v with
  | JObj kwargs => build kwargs
  | _ => Raise ValidationError
  end.

Definition DecisionDetails_init (kw : list (string * value)) : result DecisionDetails :=
  s <- field kw "status" validate_str (status DecisionDetails_default) ;;
  c <- field kw "confidence_score"
         (fun v => n <- validate_int v ;; Ret (validate_confidence n))
         (confidence_score DecisionDetails_default) ;;
  i <- field kw "interview_stage" validate_str (interview_stage DecisionDetails_default) ;;
  Ret {| status := s; confidence_score := c; interview_stage := i |}.

Definition RationaleDetails_init (kw : list (string * value)) : result RationaleDetails :=
  a <- field kw "key_strengths" validate_list_str (key_strengths RationaleDetails_default) ;;
  b <- field kw "concerns" validate_list_str (concerns RationaleDetails_default) ;;
  c <- field kw "risk_factors" validate_list_str (risk_factors RationaleDetails_default) ;;
  Ret {| key_strengths := a; concerns := b; risk_factors := c |}.

Definition RecommendationDetails_init (kw : list (string * value))
    : result RecommendationDetails :=
  a <- field kw "interview_focus" validate_list_str
         (interview_focus RecommendationDetails_default) ;;
  b <- field kw "skill_verification" validate_list_str
         (skill_verification RecommendationDetails_default) ;;
  c <- field kw "discussion_points" validate_list_str
         (discussion_points RecommendationDetails_default) ;;
  Ret {| interview_focus := a; skill_verification := b; discussion_points := c |}.

Definition HiringManagerNotes_init (kw : list (string * value))
    : result HiringManagerNotes :=
  a <- field kw "salary_band_fit" validate_str
         (salary_band_fit HiringManagerNotes_default) ;;
  b <- field kw "growth_trajectory" validate_str
         (growth_trajectory HiringManagerNotes_default) ;;
  c <- field kw "team_fit_considerations" validate_str
         (team_fit_considerations HiringManagerNotes_default) ;;
  d <- field kw "onboarding_requirements" validate_list_str
         (onboarding_requirements HiringManagerNotes_default) ;;
  Ret {| salary_band_fit := a; growth_trajectory := b;
         team_fit_considerations := c; onboarding_requirements := d |}.

Definition NextStepsDetails_init (kw : list (string * value)) : result NextStepsDetails :=
  a <- field kw "immediate_actions" validate_list_str
         (immediate_actions NextStepsDetails_default) ;;
  b <- field kw "required_approvals" validate_list_str
         (required_approvals NextStepsDetails_default) ;;
  c <- field kw "timeline_recommendation" validate_str
         (timeline_recommendation NextStepsDetails_default) ;;
  Ret {| immediate_actions := a; required_approvals := b;
         timeline_recommendation := c |}.

(** [DecisionFeedback] called on keyword arguments. *)
Definition DecisionFeedback_init (kw : list (string * value)) : result DecisionFeedback :=
  d <- field kw "decision" (model DecisionDetails_init) DecisionDetails_default ;;
  r <- field kw "rationale" (model RationaleDetails_init) RationaleDetails_default ;;
  c <- field kw "recommendations" (model RecommendationDetails_init)
         RecommendationDetails_default ;;
  h <- field kw "hiring_manager_notes" (model HiringManagerNotes_init)
         HiringManagerNotes_default ;;
  n <- field kw "next_steps" (model NextStepsDetails_init) NextStepsDetails_default ;;
  Ret {| decision := d; rationale := r; recommendations := c;
         hiring_manager_notes := h; next_steps := n |}.

Definition AnalysisBreakdown_init (kw : list (string * value)) : result AnalysisBreakdown :=
  s <- field kw "score" (fun v => f <- validate_float v ;; Ret (validate_score f))
         (score AnalysisBreakdown_default) ;;
  d <- field kw "details" validate_list_str (details AnalysisBreakdown_default) ;;
  Ret {| score := s; details := d |}.

(** [MatchAnalysis] called on keyword arguments. *)
Definition MatchAnalysis_init (kw : list (string * value)) : result MatchAnalysis :=
  o <- field kw "overall_match_score"
         (fun v => f <- validate_float v ;; Ret (validate_overall_score f))
         (overall_match_score MatchAnalysis_default) ;;
  s <- field kw "skills_match" (model AnalysisBreakdown_init)
         (skills_match MatchAnalysis_default) ;;
  e <- field kw "experience_match" (model AnalysisBreakdown_init)
         (experience_match MatchAnalysis_default) ;;
  d <- field kw "education_match" (model AnalysisBreakdown_init)
         (education_match MatchAnalysis_default) ;;
  a <- field kw "additional_insights" validate_list_str
         (additional_insights MatchAnalysis_default) ;;
  q <- field kw "recommended_interview_questions" (validate_optional validate_list_str)
         (recommended_interview_questions MatchAnalysis_default) ;;
  Ret {| overall_match_score := o; skills_match := s; experience_match := e;
         education_match := d; additional_insights := a;
         recommended_interview_questions := q |}.

End Validation.

(** [model.dict()]. *)
Definition strs (l : list string) : value := JArr (map JStr l).

Definition AnalysisBreakdown_dict (b : AnalysisBreakdown) : value :=
  JObj [("score", JFloat (score b)); ("details", strs (details b))].

Definition MatchAnalysis_dict (m : MatchAnalysis) : value :=
  JObj [("overall_match_score", JFloat (overall_match_score m));
        ("skills_match", AnalysisBreakdown_dict (skills_match m));
        ("experience_match", AnalysisBreakdown_dict (experience_match m));
        ("education_match", AnalysisBreakdown_dict (education_match m));
        ("additional_insights", strs (additional_insights m));
        ("recommended_interview_questions",
         match recommended_interview_questions m with
         | Some q => strs q
         | None => JNull
         end)].

End Models.

(** ** [json.dumps] *)

Module Dumps.

Definition decimal (n : Z) : string := NilZero.string_of_int (Z.to_int n).

Definition decimal_nat (n : nat) : string := NilZero.string_of_uint (Nat.to_uint n).

Definition hex_digit (n : nat) : ascii :=
  if n <? 10 then ascii_of_nat (48 + n) else ascii_of_nat (87 + n).

(** One character of a string under [ensure_ascii]. *)
Definition escape_char (c : ascii) : string :=
  let n := Char.code c in
  if Ascii.eqb c Char.dquote then String Char.backslash (String Char.dquote EmptyString)
  else if Ascii.eqb c Char.backslash then String Char.backslash (String Char.backslash EmptyString)
  else if n =? 10 then "\n"
  else if n =? 13 then "\r"
  else if n =? 9 then "\t"
  else if n =? 8 then "\b"
  else if n =? 12 then "\f"
  else if (n <? 32) || (126 <? n) then
    "\u00" ++ String (hex_digit (n / 16)) (String (hex_digit (n mod 16)) EmptyString)
  else String c EmptyString.

Fixpoint escape (s : string) : string :=
  match s with
  | EmptyString => EmptyString
  | String c s' => escape_char c ++ escape s'
  end.

Definition quoted (s : string) : string :=
  String Char.dquote (escape s ++ String Char.dquote EmptyString).

Section WithLib.

Context `{PyLib}.

(** With the default separators: a comma and a space between items, a colon
    and a space after a key. *)
Fixpoint dumps (v : value) : string :=
  match v with
  | JNull => "null"
  | JBool true => "true"
  | JBool false => "false"
  | JInt n => decimal n
  | JFloat NaN => "NaN"
  | JFloat PosInf => "Infinity"
  | JFloat NegInf => "-Infinity"
  | JFloat (Fin q) => format_value (JFloat (Fin q))
  | JStr s => quoted s
  | JArr items =>
      "[" ++ (fix go (l : list value) : string :=
                match l with
                | [] => EmptyString
                | [x] => dumps x
                | x :: r => dumps x ++ ", " ++ go r
                end) items ++ "]"
  | JObj fields =>
      "{" ++ (fix go (l : list (string * value)) : string :=
                match l with
                | [] => EmptyString
                | [(k, x)] => quoted k ++ ": " ++ dumps x
                | (k, x) :: r => quoted k ++ ": " ++ dumps x ++ ", " ++ go r
                end) fields ++ "}"
  end.

End WithLib.

End Dumps.

(** ** Steps both agents share, written twice in the source *)

Module Cleaning.

(** A leading [```json] or [```] and a trailing [```] are cut off. *)
Definition strip_code_fences (cleaned_text : string) : string :=
  let t :=
    if Str.startswith "```json" cleaned_text then Str.drop 7 cleaned_text
    else if Str.startswith "```" cleaned_text then Str.drop 3 cleaned_text
    else cleaned_text in
  if Str.endswith "```" t then Str.drop_last 3 t else t.

(** [re.search(json_pattern, cleaned_text)], and group 1 when it matches. *)
Definition extract_json_object (cleaned_text : string) : string :=
  match Re.search_json_object cleaned_text with
  | Some object => object
  | None => cleaned_text
  end.

(** What both agents do before any repair: strip, cut the fences, keep the
    braces. *)
Definition unwrap (response_text : string) : string :=
  extract_json_object (strip_code_fences (Str.strip response_text)).

Definition quote_keys (t : string) : string := Re.sub Re.quote_key_at t.

Definition single_to_double_quotes (t : string) : string :=
  Str.replace_char "'" (String Char.dquote EmptyString) t.

Definition commas_between_quoted_lines (t : string) : string :=
  Re.sub Re.quote_newline_quote_at t.

Definition remove_trailing_commas (t : string) : string :=
  Re.sub Re.trailing_comma_at t.

(** The four substitutions of the basic fixes, in the order of the source. *)
Definition basic_fixes (cleaned_text : string) : string :=
  remove_trailing_commas
    (commas_between_quoted_lines
       (single_to_double_quotes
          (quote_keys cleaned_text))).

End Cleaning.

(** ** [agents/job_matching_agent.py] *)

Module JobMatchingAgent.

Import Cleaning.

(** The [dict] of [extract_valid_json_scores]. *)
Record Scores : Type := {
  match_score : Z;
  skills_score : Z;
  experience_score : Z;
  education_score : Z;
  additional_score : Z
}.

Definition section (score : Z) (matches gaps : list string) : value :=
  JObj [("score", JInt score);
        ("matches", Models.strs matches);
        ("gaps", Models.strs gaps)].

Definition minimal_json (score skills experience education : Z) : value :=
  JObj
    [("match_score", JInt score);
     ("analysis",
      JObj
        [("skills",
          section skills ["Automatically extracted skill match"]
                  ["Consider checking actual skill gaps"]);
         ("experience",
          section experience ["Automatically extracted experience match"]
                  ["Consider checking actual experience gaps"]);
         ("education",
          section education ["Automatically extracted education match"] []);
         ("additional",
          section 75 ["Automatically generated additional match"] [])]);
     ("recommendation",
      JStr "This is an automatically reconstructed result due to parsing issues with the original response.");
     ("key_strengths",
      Models.strs ["Strength information was not fully recoverable";
                   "Consider re-running analysis for detailed strengths"]);
     ("areas_for_consideration",
      Models.strs ["Areas for consideration were not fully recoverable";
                   "Consider re-running analysis for detailed considerations"])].

Definition default_json : value :=
  JObj
    [("match_score", JInt 80);
     ("analysis",
      JObj
        [("skills", section 80 ["Default skill match"] ["Default skill gap"]);
         ("experience",
          section 75 ["Default experience match"] ["Default experience gap"]);
         ("education", section 85 ["Default education match"] []);
         ("additional",
          section 70 ["Default additional match"] ["Default additional gap"])]);
     ("recommendation",
      JStr "This is a default result due to parsing issues. Consider re-running the analysis.");
     ("key_strengths",
      Models.strs ["Unable to extract actual strengths due to parsing issues"]);
     ("areas_for_consideration",
      Models.strs ["Unable to extract actual considerations due to parsing issues"])].

Definition fallback_json : value :=
  JObj
    [("match_score", JInt 75);
     ("analysis",
      JObj
        [("skills", section 75 [] []);
         ("experience", section 75 [] []);
         ("education", section 75 [] []);
         ("additional", section 75 [] [])])].

Definition match_pattern : Re.matcher string := Re.key_number_at (jq "$match_score$").
Definition skills_pattern : Re.matcher string := Re.section_score_at (jq "$skills$").
Definition experience_pattern : Re.matcher string := Re.section_score_at (jq "$experience$").
Definition education_pattern : Re.matcher string := Re.section_score_at (jq "$education$").
Definition additional_pattern : Re.matcher string := Re.section_score_at (jq "$additional$").

(** One line of the aggressive cleaning; [last] says that no line follows. *)
Definition aggressive_line (last : bool) (line : string) : string :=
  let line1 :=
    if Str.contains_char ":" line && negb (Str.startswith (jq "$") line) then
      match Str.split_once ":" line with
      | (key, Some val) =>
          String Char.dquote (Str.strip key)
            ++ String Char.dquote (": " ++ Str.strip val)
      | (_, None) => line
      end
    else line in
  if negb last && negb (Str.endswith "," line1) && negb (Str.endswith "{" line1)
     && negb (Str.endswith "[" line1) then
    if negb (Str.endswith "}" line1) && negb (Str.endswith "]" line1) then line1 ++ ","
    else line1
  else line1.

Fixpoint aggressive_lines (lines : list string) : list string :=
  match lines with
  | [] => []
  | line :: rest =>
      let line := Str.strip line in
      if String.eqb line EmptyString then aggressive_lines rest
      else aggressive_line (match rest with [] => true | _ => false end) line
             :: aggressive_lines rest
  end.

Definition aggressive_cleaning (cleaned_text : string) : string :=
  Str.unlines (aggressive_lines (Str.lines cleaned_text)).

Section WithLib.

Context `{PyLib}.

(** [int(m.group(1)) if m else default]. *)
Definition int_group_or (m : option string) (default : Z) : result Z :=
  match m with
  | Some digits => py_int digits
  | None => Ret default
  end.

(** The body of the [try] headed [More advanced fixes]. *)
Definition advanced_fixes (cleaned_text : string) : result string :=
  let match_score := Re.search match_pattern cleaned_text in
  let skills_score := Re.search skills_pattern cleaned_text in
  let experience_score := Re.search experience_pattern cleaned_text in
  let education_score := Re.search education_pattern cleaned_text in
  match match_score with
  | Some digits =>
      score <- py_int digits ;;
      skills <- int_group_or skills_score score ;;
      experience <- int_group_or experience_score score ;;
      education <- int_group_or education_score score ;;
      Ret (Dumps.dumps (minimal_json score skills experience education))
  | None =>
      let cleaned_text := aggressive_cleaning cleaned_text in
      match json_loads cleaned_text with
      | inl _ => Ret cleaned_text
      | inr _ => Ret (Dumps.dumps default_json)
      end
  end.

Definition clean_json_response (response_text : string) : result string :=
  match json_loads response_text with
  | inl _ => Ret response_text
  | inr _ =>
      let cleaned_text := unwrap response_text in
      let cleaned_text := basic_fixes cleaned_text in
      match json_loads cleaned_text with
      | inl _ => Ret cleaned_text
      | inr _ =>
          try_except (advanced_fixes cleaned_text) is_Exception
            (fun cleaning_error => Ret (Dumps.dumps fallback_json))
      end
  end.

(** [create_default_analysis]: the one breakdown is passed three times. *)
Definition create_default_analysis : result MatchAnalysis :=
  empty_breakdown <-
    Models.AnalysisBreakdown_init
      [("score", JFloat (Fin (3 # 4)));
       ("details", Models.strs ["Analysis estimated - Please check results manually"])] ;;
  Models.MatchAnalysis_init
    [("overall_match_score", JFloat (Fin (4 # 5)));
     ("skills_match", Models.AnalysisBreakdown_dict empty_breakdown);
     ("experience_match", Models.AnalysisBreakdown_dict empty_breakdown);
     ("education_match", Models.AnalysisBreakdown_dict empty_breakdown);
     ("additional_insights",
      Models.strs ["Analysis was estimated due to processing limitations - Results may not be fully accurate"])].

Definition default_scores : Scores :=
  {| match_score := 80; skills_score := 80; experience_score := 75;
     education_score := 85; additional_score := 70 |}.

(** One [re.search] of [extract_valid_json_scores] and the assignment it
    guards.  [inr] is the exception that ends the [try]: the [dict] is
    returned as it stands. *)
Definition extract_one (pattern : Re.matcher string) (assign : Z -> Scores -> Scores)
    (json_text : string) (scores : Scores) : Scores + Scores :=
  match Re.search pattern json_text with
  | Some digits =>
      match py_int digits with
      | Ret n => inl (assign n scores)
      | Raise _ => inr scores
      end
  | None => inl scores
  end.

Definition and_then (r : Scores + Scores) (k : Scores -> Scores + Scores)
    : Scores + Scores :=
  match r with
  | inl scores => k scores
  | inr scores => inr scores
  end.

Definition either (r : Scores + Scores) : Scores :=
  match r with
  | inl scores => scores
  | inr scores => scores
  end.

(** [json_text] is [None] when the completion is not a [str]: the first
    [re.search] raises and the defaults are returned. *)
Definition extract_valid_json_scores (json_text : option string) : Scores :=
  match json_text with
  | None => default_scores
  | Some text =>
      either
        (and_then
           (and_then
              (and_then
                 (and_then
                    (extract_one match_pattern
                       (fun n s =>
                          {| match_score := n; skills_score := skills_score s;
                             experience_score := experience_score s;
                             education_score := education_score s;
                             additional_score := additional_score s |})
                       text default_scores)
                    (extract_one skills_pattern
                       (fun n s =>
                          {| match_score := match_score s; skills_score := n;
                             experience_score := experience_score s;
                             education_score := education_score s;
                             additional_score := additional_score s |})
                       text))
                 (extract_one experience_pattern
                    (fun n s =>
                       {| match_score := match_score s; skills_score := skills_score s;
                          experience_score := n;
                          education_score := education_score s;
                          additional_score := additional_score s |})
                    text))
              (extract_one education_pattern
                 (fun n s =>
                    {| match_score := match_score s; skills_score := skills_score s;
                       experience_score := experience_score s;
                       education_score := n;
                       additional_score := additional_score s |})
                 text))
           (extract_one additional_pattern
              (fun n s =>
                 {| match_score := match_score s; skills_score := skills_score s;
                    experience_score := experience_score s;
                    education_score := education_score s;
                    additional_score := n |})
              text))
  end.

(** Truth value of a value, as [if v:] takes it. *)
Definition truthy (v : value) : bool :=
  match v with
  | JNull => false
  | JBool b => b
  | JInt n => negb (n =? 0)%Z
  | JFloat (Fin q) => negb (Qeq_bool q (0 # 1))
  | JFloat _ => true
  | JStr s => negb (String.eqb s EmptyString)
  | JArr items => match items with [] => false | _ => true end
  | JObj fields => match fields with [] => false | _ => true end
  end.

(** [for x in v]: the items of a list, the characters of a string, the keys
    of a dict; [TypeError] otherwise. *)
Definition iterate (v : value) : result (list value) :=
  match v with
  | JArr items => Ret items
  | JStr s => Ret (map (fun c => JStr (String c EmptyString)) (list_ascii_of_string s))
  | JObj fields => Ret (map (fun kv => JStr (fst kv)) fields)
  | _ => Raise TypeError
  end.

(** A value inside an f-string. *)
Definition format (v : value) : string :=
  match v with
  | JStr s => s
  | other => format_value other
  end.

(** [float(v)]. *)
Definition py_float (v : value) : result pyfloat :=
  match v with
  | JInt n => Ret (Flt.of_Z n)
  | JFloat f => Ret f
  | JBool b => Ret (Flt.of_Z (if b then 1 else 0))
  | JStr s =>
      match float_of_str s with
      | Some f => Ret f
      | None => Raise ValueError
      end
  | _ => Raise TypeError
  end.

(** [v / 100.0]. *)
Definition div_100 (v : value) : result pyfloat :=
  match v with
  | JInt n => Ret (Flt.div100 (Flt.of_Z n))
  | JFloat f => Ret (Flt.div100 f)
  | JBool b => Ret (Flt.div100 (Flt.of_Z (if b then 1 else 0)))
  | _ => Raise TypeError
  end.

Definition get_or (key : string) (d : list (string * value)) (default : value) : value :=
  match Json.get key d with
  | Some v => v
  | None => default
  end.

(** The lines a list contributes: a heading and one marked line per item. *)
Definition marked (heading mark : string) (v : value) : result (list string) :=
  if truthy v then
    items <- iterate v ;;
    Ret (heading :: map (fun x => mark ++ format x) items)
  else Ret [].

Definition _combine_matches_gaps (matches gaps : value) : result (list string) :=
  m <- marked "Matches:" "+ " matches ;;
  g <- marked "Gaps:" "- " gaps ;;
  match (m ++ g)%list with
  | [] => Ret ["No specific details available"]
  | result => Ret result
  end.

Definition breakdown (score : pyfloat) (details : list string) : value :=
  JObj [("score", JFloat score); ("details", Models.strs details)].

(** One of the three sections of [transformed_data]. *)
Definition transform_section (sec : list (string * value)) : result value :=
  s <- div_100 (get_or "score" sec (JInt 0)) ;;
  d <- _combine_matches_gaps (get_or "matches" sec (JArr [])) (get_or "gaps" sec (JArr [])) ;;
  Ret (breakdown s d).

Definition as_dict_or (v : value) (default : list (string * value))
    : list (string * value) :=
  match v with
  | JObj fields => fields
  | _ => default
  end.

(** The body of the [try] of [_transform_api_response] on a non-empty
    [dict].  The section [additional] is read and never used. *)
Definition transform_dict (raw_data : list (string * value)) : result value :=
  match_score <-
    match Json.get "match_score" raw_data with
    | Some v =>
        try_except (f <- py_float v ;; Ret (Flt.div100 f)) is_ValueError_or_TypeError
          (fun _ => Ret (Fin (4 # 5)))
    | None => Ret Flt.zero
    end ;;
  let analysis := as_dict_or (get_or "analysis" raw_data (JObj [])) [] in
  let skills :=
    as_dict_or (get_or "skills" analysis (JObj []))
               [("score", JInt 80); ("matches", JArr []); ("gaps", JArr [])] in
  let experience :=
    as_dict_or (get_or "experience" analysis (JObj []))
               [("score", JInt 75); ("matches", JArr []); ("gaps", JArr [])] in
  let education :=
    as_dict_or (get_or "education" analysis (JObj []))
               [("score", JInt 70); ("matches", JArr []); ("gaps", JArr [])] in
  skills_match <- transform_section skills ;;
  experience_match <- transform_section experience ;;
  education_match <- transform_section education ;;
  let recommendation := get_or "recommendation" raw_data (JStr EmptyString) in
  let insights0 := if truthy recommendation then [recommendation] else [] in
  strengths <- marked "Key Strengths:" "+ " (get_or "key_strengths" raw_data (JArr [])) ;;
  considerations <-
    marked "Areas for Consideration:" "- "
           (get_or "areas_for_consideration" raw_data (JArr [])) ;;
  let insights :=
    (insights0 ++ map JStr strengths ++ map JStr considerations)%list in
  Ret (JObj [("overall_match_score", JFloat match_score);
             ("skills_match", skills_match);
             ("experience_match", experience_match);
             ("education_match", education_match);
             ("additional_insights",
              JArr (match insights with
                    | [] => [JStr "No additional insights available"]
                    | _ => insights
                    end))]).

Definition _transform_api_response (raw_data : value) : result value :=
  try_except
    (match raw_data with
     | JObj (kv :: more) => transform_dict (kv :: more)
     | JStr text =>
         let overall_score :=
           match Re.search (Re.prefix_number_at (jq "$match_score$:")) text with
           | Some digits => Flt.div100 (Flt.of_Z (Json.digits_value digits))
           | None => Fin (4 # 5)
           end in
         Ret (JObj [("overall_match_score", JFloat overall_score);
                    ("skills_match", breakdown overall_score ["Partial results extracted"]);
                    ("experience_match", breakdown overall_score ["Partial results extracted"]);
                    ("education_match", breakdown overall_score ["Partial results extracted"]);
                    ("additional_insights",
                     Models.strs ["Partial analysis completed - some details may be missing"])])
     | _ =>
         default <- create_default_analysis ;;
         Ret (Models.MatchAnalysis_dict default)
     end)
    is_Exception
    (fun e =>
       Ret (JObj [("overall_match_score", JFloat (Fin (4 # 5)));
                  ("skills_match",
                   breakdown (Fin (4 # 5)) ["Error occurred. Using estimated values."]);
                  ("experience_match",
                   breakdown (Fin (4 # 5)) ["Error occurred. Using estimated values."]);
                  ("education_match",
                   breakdown (Fin (4 # 5)) ["Error occurred. Using estimated values."]);
                  ("additional_insights",
                   Models.strs ["Note: Error occurred while processing. Results are estimated."])])).

(** [MatchAnalysis] called on the entries of a value; a value that is no
    mapping cannot be unpacked. *)
Definition MatchAnalysis_of (data : value) : result MatchAnalysis :=
  match data with
  | JObj kwargs => Models.MatchAnalysis_init kwargs
  | _ => Raise TypeError
  end.

(** [fallback_data], built alike in three handlers of [match_job]. *)
Definition fallback_data (extracted_scores : Scores) : value :=
  JObj [("overall_match_score", JFloat (Flt.div100 (Flt.of_Z (match_score extracted_scores))));
        ("skills_match",
         breakdown (Flt.div100 (Flt.of_Z (skills_score extracted_scores)))
                   ["Estimated skill match"]);
        ("experience_match",
         breakdown (Flt.div100 (Flt.of_Z (experience_score extracted_scores)))
                   ["Estimated experience match"]);
        ("education_match",
         breakdown (Flt.div100 (Flt.of_Z (education_score extracted_scores)))
                   ["Estimated education match"]);
        ("additional_insights", Models.strs ["Analysis was reconstructed from partial data"])].

(** The record the outermost handler of [match_job] builds. *)
Definition error_analysis : result MatchAnalysis :=
  empty_breakdown <-
    Models.AnalysisBreakdown_init
      [("score", JFloat (Fin (3 # 4)));
       ("details", Models.strs ["Analysis estimated due to processing error"])] ;;
  Models.MatchAnalysis_init
    [("overall_match_score", JFloat (Fin (4 # 5)));
     ("skills_match", Models.AnalysisBreakdown_dict empty_breakdown);
     ("experience_match", Models.AnalysisBreakdown_dict empty_breakdown);
     ("education_match", Models.AnalysisBreakdown_dict empty_breakdown);
     ("additional_insights",
      Models.strs ["Analysis was estimated due to an error - Results may not be fully accurate"])].

(** [clean_json_response] on the completion, which need not be a [str]:
    [len(None)] raises. *)
Definition clean_completion (completion : option string) : result string :=
  match completion with
  | Some text => clean_json_response text
  | None => Raise TypeError
  end.

(** [match_job].  [formatted] is the outcome of building the request text
    from the profile and the job description; [complete] is the exchange
    with the provider ([make_request] then [get_completion]), which raises
    or answers with the completion. *)
Definition match_job (formatted : result string)
    (complete : string -> result (option string)) : result MatchAnalysis :=
  try_except
    (formatted_content <- formatted ;;
     completion <- complete formatted_content ;;
     let extracted_scores := extract_valid_json_scores completion in
     try_except
       (cleaned_json <- clean_completion completion ;;
        try_except
          (raw_analysis_data <- loads_result cleaned_json ;;
           transformed_data <- _transform_api_response raw_analysis_data ;;
           MatchAnalysis_of transformed_data)
          (fun e => is_JSONDecodeError e || is_ValidationError e)
          (fun _ => MatchAnalysis_of (fallback_data extracted_scores)))
       is_Exception
       (fun cleaning_error => MatchAnalysis_of (fallback_data extracted_scores)))
    is_Exception
    (fun e => error_analysis).

End WithLib.

End JobMatchingAgent.

(** ** [agents/decision_feedback_agent.py] *)

Module DecisionFeedbackAgent.

Import Cleaning.

(** [str(e)] of a [JSONDecodeError]. *)
Definition error_str (e : decode_error) : string :=
  de_msg e ++ ": line " ++ Dumps.decimal_nat (de_lineno e)
    ++ " column " ++ Dumps.decimal_nat (de_colno e)
    ++ " (char " ++ Dumps.decimal_nat (de_pos e) ++ ")".

(** Line and column found in the text of an error.  The two numbers were
    printed by the decoder and are converted without a limit on their
    length. *)
Definition reported_position (text : string) : option (nat * nat) :=
  match Re.search Re.line_column_at text with
  | Some (l, c) =>
      Some (Z.to_nat (Json.digits_value l), Z.to_nat (Json.digits_value c))
  | None => None
  end.

(** [line[:k] + piece + line[k:]]. *)
Definition insert_at (k : nat) (piece line : string) : string :=
  Str.take k line ++ piece ++ Str.drop k line.

(** The structural fix of [clean_json_response] for an error whose text
    holds [marker]: [piece] is put in front of the reported column of the
    reported line, when both lie inside the text. *)
Definition patch_at_reported (marker piece error_text cleaned_text : string) : string :=
  if Str.contains marker error_text then
    match reported_position error_text with
    | Some (line_no, col_no) =>
        let lines := Str.lines cleaned_text in
        if (0 <? line_no) && (line_no <=? List.length lines) then
          let problem_line := nth (line_no - 1) lines EmptyString in
          if (0 <? col_no) && (col_no <=? String.length problem_line + 1) then
            Str.unlines
              (Str.set_nth (line_no - 1) (insert_at (col_no - 1) piece problem_line) lines)
          else cleaned_text
        else cleaned_text
    | None => cleaned_text
    end
  else cleaned_text.

Definition ends_open (line : string) : bool :=
  let t := Str.strip line in
  Str.endswith "," t || Str.endswith "{" t || Str.endswith "[" t.

Definition ends_closed (line : string) : bool :=
  let t := Str.strip line in
  Str.endswith "}" t || Str.endswith "]" t.

(** One line of the structural pass; [next] is the line after it. *)
Definition structural_line (line : string) (next : option string) : string :=
  let processed_line :=
    if Str.contains_char ":" line then
      let key_part := Str.strip (fst (Str.split_once ":" line)) in
      if negb (Str.startswith (jq "$") key_part && Str.endswith (jq "$") key_part)
      then Re.sub Re.quote_word_at line
      else line
    else line in
  match next with
  | Some following =>
      let next_line := Str.strip following in
      if (Str.contains_char ":" next_line || Str.startswith (jq "$") next_line)
         && negb (ends_open processed_line)
      then
        if negb (ends_closed processed_line) then Str.rstrip processed_line ++ ","
        else processed_line
      else processed_line
  | None => processed_line
  end.

Fixpoint structural_lines (lines : list string) : list string :=
  match lines with
  | [] => []
  | line :: rest =>
      if String.eqb (Str.strip line) EmptyString then structural_lines rest
      else structural_line line (match rest with [] => None | n :: _ => Some n end)
             :: structural_lines rest
  end.

Definition structural_parsing (cleaned_text : string) : string :=
  Str.unlines (structural_lines (Str.lines cleaned_text)).

(** [lines[i]] and [lines[i] = v] with Python's index [-1] for the last
    line. *)
Definition index_of_line (line_no : nat) (lines : list string) : nat :=
  match line_no with
  | O => List.length lines - 1
  | S k => k
  end.

Section WithLib.

Context `{PyLib}.

Definition parses (text : string) : bool :=
  match json_loads text with
  | inl _ => true
  | inr _ => false
  end.

Definition fix_decision_delimiter_error (json_str : string) : string :=
  let lines := Str.lines json_str in
  let by_position :=
    if 26 <=? List.length lines then
      let problem_line := nth 25 lines EmptyString in
      if 32 <=? String.length problem_line then
        let fixed_json := Str.unlines (Str.set_nth 25 (insert_at 32 "," problem_line) lines) in
        if parses fixed_json then Some fixed_json else None
      else None
    else None in
  match by_position with
  | Some fixed_json => fixed_json
  | None =>
      match Re.search Re.hiring_notes_at json_str with
      | Some hiring_notes_section =>
          let fixed_section := Re.sub Re.comma_before_newline_at hiring_notes_section in
          let fixed_json := Re.replace hiring_notes_section fixed_section json_str in
          if parses fixed_json then fixed_json else json_str
      | None => json_str
      end
  end.

(** The comma branch of [fix_json_at_error]: the line it rebuilds. *)
Definition comma_fixed_line (problem_line : string) (col_no : nat) : string :=
  if col_no <? String.length problem_line then insert_at col_no "," problem_line
  else problem_line ++ ",".

(** The substitutions [fix_json_at_error] ends with. *)
Definition aggressive_patterns (json_str : string) : string :=
  let s1 := Re.sub (Re.quote_close_open_at "}" "{" (jq "$},{$")) json_str in
  let s2 := Re.sub (Re.quote_close_open_at "]" "[" (jq "$],[$")) s1 in
  let s3 := Re.sub (Re.quote_then_at Char.dquote (jq "$,$")) s2 in
  let s4 := Re.sub (Re.quote_then_at "}" (jq "$}")) s3 in
  let s5 := Re.sub (Re.quote_then_at "]" (jq "$]")) s4 in
  let s6 := Re.sub (Re.final_comma_at "}") s5 in
  Re.sub (Re.final_comma_at "]") s6.

Definition position_of (error_msg : string) : result (option (nat * nat)) :=
  match Re.search Re.line_column_at error_msg with
  | Some (l, c) =>
      line_no <- py_int l ;;
      col_no <- py_int c ;;
      Ret (Some (Z.to_nat line_no, Z.to_nat col_no))
  | None => Ret None
  end.

(** The branch for unterminated strings: the text it returns, if it
    returns. *)
Definition close_string (json_str error_msg : string) : result (option string) :=
  if Str.contains "Unterminated string" error_msg then
    p <- position_of error_msg ;;
    match p with
    | Some (line_no, col_no) =>
        let lines := Str.lines json_str in
        if line_no <=? List.length lines then
          let i := index_of_line line_no lines in
          let problem_line := nth i lines EmptyString in
          Ret (Some (Str.unlines
                       (Str.set_nth i (insert_at col_no (jq "$") problem_line) lines)))
        else Ret None
    | None => Ret None
    end
  else Ret None.

(** The branch for missing commas: the text it returns, if it returns. *)
Definition insert_comma (json_str error_msg : string) : result (option string) :=
  if Str.contains "Expecting ',' delimiter" error_msg || Str.contains "delimiter" error_msg
  then
    p <- position_of error_msg ;;
    match p with
    | Some (line_no, col_no) =>
        let lines := Str.lines json_str in
        if (0 <? line_no) && (line_no <=? List.length lines) then
          let problem_line := nth (line_no - 1) lines EmptyString in
          if col_no <=? String.length problem_line then
            let fixed_json :=
              Str.unlines
                (Str.set_nth (line_no - 1) (comma_fixed_line problem_line col_no) lines) in
            Ret (if parses fixed_json then Some fixed_json else None)
          else Ret None
        else Ret None
    | None => Ret None
    end
  else Ret None.

Definition fix_json_at_error (json_str error_msg : string) : result string :=
  try_except
    (closed <- close_string json_str error_msg ;;
     match closed with
     | Some fixed => Ret fixed
     | None =>
         patched <- insert_comma json_str error_msg ;;
         match patched with
         | Some fixed_json => Ret fixed_json
         | None => Ret (aggressive_patterns json_str)
         end
     end)
    is_Exception
    (fun _ => Ret json_str).

Definition clean_json_response (response_text : string) : result string :=
  let cleaned_text := unwrap response_text in
  match json_loads cleaned_text with
  | inl _ => Ret cleaned_text
  | inr _ =>
      let cleaned_text := basic_fixes cleaned_text in
      match json_loads cleaned_text with
      | inl _ => Ret cleaned_text
      | inr e2 =>
          let cleaned_text :=
            patch_at_reported "Unterminated string" (jq "$") (error_str e2) cleaned_text in
          let cleaned_text :=
            patch_at_reported "Expecting ',' delimiter" "," (error_str e2) cleaned_text in
          let cleaned_text := structural_parsing cleaned_text in
          if parses cleaned_text then Ret cleaned_text
          else
            let fixed_json := fix_decision_delimiter_error cleaned_text in
            if parses fixed_json then Ret fixed_json else Ret cleaned_text
      end
  end.

(** [create_default_decision]: four sections are given as [dict]s, the
    section [decision] is not given. *)
Definition create_default_decision : result DecisionFeedback :=
  Models.DecisionFeedback_init
    [("rationale",
      JObj [("key_strengths", Models.strs ["Unable to determine due to processing error"]);
            ("concerns", Models.strs ["Unable to process candidate data completely"]);
            ("risk_factors", Models.strs ["Decision based on incomplete information"])]);
     ("recommendations",
      JObj [("interview_focus", Models.strs ["Verify resume contents manually"]);
            ("skill_verification", Models.strs ["Conduct thorough technical assessment"]);
            ("discussion_points", Models.strs ["Discuss areas mentioned in resume"])]);
     ("hiring_manager_notes",
      JObj [("salary_band_fit", JStr "Unable to determine");
            ("growth_trajectory", JStr "Unable to determine");
            ("team_fit_considerations", JStr "Manual assessment required");
            ("onboarding_requirements", Models.strs ["Standard onboarding process"])]);
     ("next_steps",
      JObj [("immediate_actions", Models.strs ["Re-run analysis or manually review"]);
            ("required_approvals", Models.strs ["Hiring manager approval needed"]);
            ("timeline_recommendation",
             JStr "Proceed with caution due to data processing issues")])].

(** [DecisionFeedback] called on the entries of a value; a value that is no
    mapping cannot be unpacked. *)
Definition DecisionFeedback_of (data : value) : result DecisionFeedback :=
  match data with
  | JObj kwargs => Models.DecisionFeedback_init kwargs
  | _ => Raise TypeError
  end.

(** [json.loads] on the completion, which need not be a [str]. *)
Definition loads_completion (completion : option string) : result value :=
  match completion with
  | Some text => loads_result text
  | None => Raise TypeError
  end.

Definition clean_completion (completion : option string) : result string :=
  match completion with
  | Some text => clean_json_response text
  | None => Raise TypeError
  end.

(** [generate_decision].  [formatted] is the outcome of building the request
    text; [complete] is the exchange with the provider, which raises or
    answers with the completion. *)
Definition generate_decision (formatted : result string)
    (complete : string -> result (option string)) : result DecisionFeedback :=
  try_except
    (formatted_content <- formatted ;;
     match complete formatted_content with
     | Raise api_error => create_default_decision
     | Ret completion =>
         first <-
           try_except
             (raw_decision_data <- loads_completion completion ;;
              decision_data <- DecisionFeedback_of raw_decision_data ;;
              Ret (inl decision_data))
             (fun e => is_JSONDecodeError e || is_ValidationError e)
             (fun initial_parse_error =>
                cleaned_json <- clean_completion completion ;;
                Ret (inr cleaned_json)) ;;
         match first with
         | inl decision_data => Ret decision_data
         | inr cleaned_json =>
             try_except
               (raw_decision_data <- loads_result cleaned_json ;;
                DecisionFeedback_of raw_decision_data)
               (fun e => is_JSONDecodeError e || is_ValidationError e)
               (fun _ => create_default_decision)
         end
     end)
    is_Exception
    (fun e => create_default_decision).

End WithLib.

End DecisionFeedbackAgent.

(** ** [agents/resume_parsing_agent.py] *)

Module ResumeParsingAgent.

Definition create_empty_structure : ParsedResume :=
  {| personal_info :=
       {| name := EmptyString; email := EmptyString; phone := None; location := None |};
     summary := Some "Resume summary pending";
     education := [];
     experience := [];
     skills := [];
     projects := Some [];
     certifications := Some [] |}.

(** [parse_resume].  [complete] is the exchange with the provider and
    [convert_template_to_json] the conversion of its answer; whatever either
    one does, the two handlers return the empty structure. *)
Definition parse_resume (complete : string -> result (option string))
    (convert_template_to_json : string -> result ParsedResume)
    (resume_text : string) : result ParsedResume :=
  try_except
    (if String.eqb resume_text EmptyString
        || String.eqb (Str.strip resume_text) EmptyString
     then Raise ValueError
     else
       completion <- complete resume_text ;;
       match completion with
       | Some template_output => convert_template_to_json template_output
       | None => Raise TypeError
       end)
    is_Exception
    (fun e => Ret create_empty_structure).

End ResumeParsingAgent.

(** ** [utils/text_preprocessing.py] *)

Module TextPreprocessor.

(** [clean_text]: four substitutions and a [strip]. *)
Definition clean_text (text : string) : string :=
  let text := Re.sub (Re.space_run_at " ") text in
  let text := Re.sub Re.blank_lines_at text in
  let text := Re.sub Re.special_char_at text in
  let text := Re.sub Re.period_run_at text in
  Str.strip text.

End TextPreprocessor.

(** ** [config/openrouter_config.py] *)

Module OpenRouterConfig.

(** [key in v]: a key of a [dict], an item of a [list], a part of a
    [str]. *)
Definition contains_key (key : string) (v : value) : result bool :=
  match v with
  | JObj fields =>
      Ret (match Json.get key fields with Some _ => true | None => false end)
  | JArr items =>
      Ret (existsb (fun x => match x with JStr s => String.eqb s key | _ => false end)
             items)
  | JStr s => Ret (Str.contains key s)
  | _ => Raise TypeError
  end.

(** [len(v)]. *)
Definition py_len (v : value) : result nat :=
  match v with
  | JObj fields => Ret (List.length fields)
  | JArr items => Ret (List.length items)
  | JStr s => Ret (String.length s)
  | _ => Raise TypeError
  end.

(** [v[0]]; the keys of a decoded [dict] are strings. *)
Definition first_item (v : value) : result value :=
  match v with
  | JArr (x :: _) => Ret x
  | JArr [] => Raise (OtherException "IndexError")
  | JStr (String c _) => Ret (JStr (String c EmptyString))
  | JStr EmptyString => Raise (OtherException "IndexError")
  | JObj _ => Raise (OtherException "KeyError")
  | _ => Raise TypeError
  end.

(** [v[key]] for a [str] key. *)
Definition item (key : string) (v : value) : result value :=
  match v with
  | JObj fields =>
      match Json.get key fields with
      | Some x => Ret x
      | None => Raise (OtherException "KeyError")
      end
  | _ => Raise TypeError
  end.

(** The exception [get_completion] raises; the text it appends to this
    prefix is not modelled. *)
Definition extraction_error : exn :=
  OtherException "Error extracting completion from response".

(** [get_completion] on a decoded response. *)
Definition get_completion (response : value) : result value :=
  try_except
    (match response with
     | JObj _ =>
         found <-
           (has_choices <- contains_key "choices" response ;;
            if has_choices then
              choices <- item "choices" response ;;
              n <- py_len choices ;;
              if 0 <? n then
                choice <- first_item choices ;;
                has_message <- contains_key "message" choice ;;
                has_content <-
                  (if has_message then
                     message <- item "message" choice ;;
                     contains_key "content" message
                   else Ret false) ;;
                if has_content then
                  message <- item "message" choice ;;
                  content <- item "content" message ;;
                  Ret (Some content)
                else
                  has_text <- contains_key "text" choice ;;
                  if has_text then
                    text <- item "text" choice ;;
                    Ret (Some text)
                  else Ret None
              else Ret None
            else Ret None) ;;
         match found with
         | Some completion => Ret completion
         | None => Raise ValueError
         end
     | _ => Raise ValueError
     end)
    is_Exception
    (fun e => Raise extraction_error).

(** The exchange the three agents run: [make_request], then
    [get_completion].  The agents tell a completion that is a [str] from
    one that is not. *)
Definition complete (make_request : string -> result value) (content : string)
    : result (option string) :=
  response <- make_request content ;;
  completion <- get_completion response ;;
  Ret (match completion with
       | JStr text => Some text
       | _ => None
       end).

End OpenRouterConfig.

(** ** [ui/candidate_summary.py] *)

Module CandidateSummary.



Definition len {A : Type} (l : list A) : Z := Z.of_nat (List.length l).


End CandidateSummary.

(** ** [ui/resume_highlight.py] *)

Module ResumeHighlight.

(** The text of a detail behind its mark: [detail[2:].lower()], cut at its
    first colon and stripped when it holds one. *)
Definition marked_text (detail : string) : string :=
  let text := Str.lower (Str.drop 2 detail) in
  if Str.contains_char ":" text then Str.strip (fst (Str.split_once ":" text))
  else text.

Definition matched_skills (details : list string) : list string :=
  map marked_text (filter (fun detail => Str.startswith "+" detail) details).

Definition missing_skills (details : list string) : list string :=
  map marked_text
    (filter (fun detail => negb (Str.startswith "+" detail) && Str.startswith "-" detail)
       details).

(** [skill_lower in other or other in skill_lower]. *)
Definition related (skill_lower other : string) : bool :=
  Str.contains skill_lower other || Str.contains other skill_lower.

(** The label of one skill. *)
Definition rate (matched missing : list string) (skill : string) : string :=
  let skill_lower := Str.lower skill in
  if existsb (related skill_lower) matched then "good"
  else if existsb (related skill_lower) missing then "needs_improvement"
  else "average".

(** [result[key] = label] on a [dict] of labels. *)
Fixpoint assign (key label : string) (result : list (string * string))
    : list (string * string) :=
  match result with
  | [] => [(key, label)]
  | (k, v) :: r =>
      if String.eqb k key then (key, label) :: r else (k, v) :: assign key label r
  end.

(** [result.get(key)]. *)
Fixpoint label_of (key : string) (result : list (string * string)) : option string :=
  match result with
  | [] => None
  | (k, v) :: r => if String.eqb k key then Some v else label_of key r
  end.

Definition analyze_skills (skills : list string) (match_analysis : option MatchAnalysis)
    : list (string * string) :=
  match match_analysis, skills with
  | Some analysis, _ :: _ =>
      let matched_skills := matched_skills (details (skills_match analysis)) in
      let missing_skills := missing_skills (details (skills_match analysis)) in
      fold_left
        (fun result skill => assign skill (rate matched_skills missing_skills skill) result)
        skills []
  | _, _ => fold_left (fun result skill => assign skill "neutral" result) skills []
  end.

End ResumeHighlight.

(** ** A reference instance of the runtime

    CPython 3.11 with its default settings, as far as the examples below
    need it: the decoder of [Json], the integer limit of 4300 digits,
    [float] on numerals of the JSON grammar, and the string forms of [None],
    booleans and integers. *)

Module Reference.

Definition float_of_str (s : string) : option pyfloat :=
  match Json.loads (Str.strip s) with
  | inl (JInt n) => Some (Flt.of_Z n)
  | inl (JFloat f) => Some f
  | _ => None
  end.

Definition format_value (v : value) : string :=
  match v with
  | JNull => "None"
  | JBool true => "True"
  | JBool false => "False"
  | JInt n => Dumps.decimal n
  | _ => EmptyString
  end.

Definition lax_int (v : value) : option Z :=
  match v with
  | JBool b => Some (if b then 1 else 0)%Z
  | JFloat (Fin q) =>
      if (Qden q =? 1)%positive then Some (Qnum q) else None
  | JStr s =>
      match Json.loads (Str.strip s) with
      | inl (JInt n) => Some n
      | _ => None
      end
  | _ => None
  end.

Definition lax_float (v : value) : option pyfloat :=
  match v with
  | JBool b => Some (Flt.of_Z (if b then 1 else 0))
  | JStr s => float_of_str s
  | _ => None
  end.

Definition lib : PyLib :=
  Build_PyLib Json.loads float_of_str format_value (Some 4300) lax_int lax_float.

End Reference.

(** ** Inputs and records named in the properties *)

(** A completion as a model writes it: a fenced JSON object with an
    apostrophe inside a string. *)
Definition fenced_completion : string :=
  jq "```json
{$match_score$: 85, $recommendation$: $Candidate's profile fits$}
```".

(** A bare key, a trailing comma and fences. *)
Definition fenced_bare_key : string :=
  jq "```json
{score: 85, $name$: $Ann$,}
```".

(** A bare key and an apostrophe inside a string. *)
Definition bare_key_apostrophe : string := jq "{a: $it's$}".

(** Prose without any structure. *)
Definition prose : string := "The candidate seems strong overall.".


(** An object with one comma missing, and the error the decoder reports on
    it. *)
Definition one_comma_missing : string := jq "{$a$: $b$ $c$: 1}".
Definition one_comma_missing_error : string :=
  "Expecting ',' delimiter: line 1 column 11 (char 10)".

(** A sub-score written as a string, and an overall score written as a
    string. *)
Definition string_sub_score : string :=
  jq "{$match_score$: 90, $analysis$: {$skills$: {$score$: $92$}}}".
Definition string_match_score : string := jq "{$match_score$: $92$}".

(** A score of 4301 digits inside prose. *)
Definition endless_score : string :=
  jq "score $match_score$: " ++ String.concat EmptyString (repeat "1" 4301).

(** The text on which the job matcher tries its last fixes. *)
Definition repaired (response_text : string) : string :=
  Cleaning.basic_fixes (Cleaning.unwrap response_text).

(** Nothing is salvaged from [cleaned_text]: no overall score is found and
    the aggressively cleaned text does not decode, or the block raises. *)
Definition salvage_fails `{PyLib} (cleaned_text : string) : Prop :=
  (Re.search JobMatchingAgent.match_pattern cleaned_text = None
   /\ exists e, json_loads (JobMatchingAgent.aggressive_cleaning cleaned_text) = inr e)
  \/ (exists e, JobMatchingAgent.advanced_fixes cleaned_text = Raise e).

(** What [match_job] reports when the default document, or the last-resort
    document, comes back from the cleaning. *)
Definition default_report : MatchAnalysis :=
  {| overall_match_score := Fin (4 # 5);
     skills_match :=
       {| score := Fin (4 # 5);
          details := ["Matches:"; "+ Default skill match"; "Gaps:"; "- Default skill gap"] |};
     experience_match :=
       {| score := Fin (3 # 4);
          details := ["Matches:"; "+ Default experience match";
                      "Gaps:"; "- Default experience gap"] |};
     education_match :=
       {| score := Fin (17 # 20);
          details := ["Matches:"; "+ Default education match"] |};
     additional_insights :=
       ["This is a default result due to parsing issues. Consider re-running the analysis.";
        "Key Strengths:";
        "+ Unable to extract actual strengths due to parsing issues";
        "Areas for Consideration:";
        "- Unable to extract actual considerations due to parsing issues"];
     recommended_interview_questions := Some ["No interview questions generated yet"] |}.

Definition fallback_report : MatchAnalysis :=
  {| overall_match_score := Fin (3 # 4);
     skills_match := {| score := Fin (3 # 4); details := ["No specific details available"] |};
     experience_match :=
       {| score := Fin (3 # 4); details := ["No specific details available"] |};
     education_match :=
       {| score := Fin (3 # 4); details := ["No specific details available"] |};
     additional_insights := ["No additional insights available"];
     recommended_interview_questions := Some ["No interview questions generated yet"] |}.


(** ** Records named in the properties *)

(** The record [create_default_decision] builds. *)
Definition default_decision : DecisionFeedback :=
  {| decision := Models.DecisionDetails_default;
     rationale :=
       {| key_strengths := ["Unable to determine due to processing error"];
          concerns := ["Unable to process candidate data completely"];
          risk_factors := ["Decision based on incomplete information"] |};
     recommendations :=
       {| interview_focus := ["Verify resume contents manually"];
          skill_verification := ["Conduct thorough technical assessment"];
          discussion_points := ["Discuss areas mentioned in resume"] |};
     hiring_manager_notes :=
       {| salary_band_fit := "Unable to determine";
          growth_trajectory := "Unable to determine";
          team_fit_considerations := "Manual assessment required";
          onboarding_requirements := ["Standard onboarding process"] |};
     next_steps :=
       {| immediate_actions := ["Re-run analysis or manually review"];
          required_approvals := ["Hiring manager approval needed"];
          timeline_recommendation :=
            "Proceed with caution due to data processing issues" |} |}.

(** A [MatchAnalysis] with one overall score, one score and one line of
    detail for the three breakdowns, and one insight. *)
Definition estimated_analysis (overall each : Q) (detail insight : string)
    : MatchAnalysis :=
  let b := {| score := Fin each; details := [detail] |} in
  {| overall_match_score := Fin overall;
     skills_match := b;
     experience_match := b;
     education_match := b;
     additional_insights := [insight];
     recommended_interview_questions := Some ["No interview questions generated yet"] |}.

(** The record the outermost handler of [match_job] builds. *)
Definition error_match_analysis : MatchAnalysis :=
  estimated_analysis (4 # 5) (3 # 4)
    "Analysis estimated due to processing error"
    "Analysis was estimated due to an error - Results may not be fully accurate".

(** ** Predicates named in the properties of the surrounding code *)

(** Every character of a text satisfies [p]. *)
Fixpoint all_chars (p : ascii -> bool) (s : string) : bool :=
  match s with
  | EmptyString => true
  | String c r => p c && all_chars p r
  end.

(** Whitespace other than the space is ruled out. *)
Definition one_space_only (c : ascii) : bool :=
  negb (Char.isspace c) || Ascii.eqb c " ".

Definition starts_with_period (s : string) : bool :=
  match s with
  | String c _ => Ascii.eqb c "."
  | EmptyString => false
  end.

(** A detail that carries neither of the two marks. *)
Definition unmarked (detail : string) : bool :=
  negb (Str.startswith "+" detail) && negb (Str.startswith "-" detail).

(** The characters [clean_text] lets through: word characters, the space
    and nine punctuation marks. *)
Definition is_clean (c : ascii) : bool :=
  Char.isword c || Ascii.eqb c " " || Re.is_punctuation c.

(** The four scores of a [MatchAnalysis] lie between 0 and 1. *)
Definition scores_in_range (m : MatchAnalysis) : Prop :=
  Flt.within (0 # 1) (1 # 1) (overall_match_score m)
  /\ Flt.within (0 # 1) (1 # 1) (score (skills_match m))
  /\ Flt.within (0 # 1) (1 # 1) (score (experience_match m))
  /\ Flt.within (0 # 1) (1 # 1) (score (education_match m)).

(** The number [pattern] finds in [text], or [default]. *)
Definition found_or (pattern : Re.matcher string) (text : string) (default : Z) : Z :=
  match Re.search pattern text with
  | Some digits => Json.digits_value digits
  | None => default
  end.

(** The lines one list of a section contributes to the details. *)
Definition listed (heading mark : string) (items : list string) : list string :=
  match items with
  | [] => []
  | _ => heading :: map (fun x => mark ++ x) items
  end.

(** The overall score [_transform_api_response] reads from a [dict]: 0
    without the key, a hundredth of the number under it, and 0.8 when what
    is under it is no number. *)
Definition overall_of `{PyLib} (raw_data : list (string * value)) : pyfloat :=
  match Json.get "match_score" raw_data with
  | None => Flt.zero
  | Some v =>
      match JobMatchingAgent.py_float v with
      | Ret f => Flt.div100 f
      | Raise _ => Fin (4 # 5)
      end
  end.

(** The [dict] the handler of [_transform_api_response] returns. *)
Definition estimated_on_error : value :=
  JObj [("overall_match_score", JFloat (Fin (4 # 5)));
        ("skills_match",
         JobMatchingAgent.breakdown (Fin (4 # 5)) ["Error occurred. Using estimated values."]);
        ("experience_match",
         JobMatchingAgent.breakdown (Fin (4 # 5)) ["Error occurred. Using estimated values."]);
        ("education_match",
         JobMatchingAgent.breakdown (Fin (4 # 5)) ["Error occurred. Using estimated values."]);
        ("additional_insights",
         Models.strs ["Note: Error occurred while processing. Results are estimated."])].

(** The section [_transform_api_response] builds from a section that is
    missing. *)
Definition empty_section : value :=
  JobMatchingAgent.breakdown Flt.zero ["No specific details available"].

(** A decoded reply that is neither a [str] nor a [dict] with an entry. *)
Definition no_dict_no_str (raw_data : value) : bool :=
  match raw_data with
  | JObj (_ :: _) | JStr _ => false
  | _ => true
  end.

(** The text is no longer than the longest number [int] converts. *)
Definition within_int_limit `{PyLib} (text : string) : Prop :=
  match int_max_str_digits with
  | Some limit => String.length text <= limit
  | None => True
  end.

(** The first choice of a response carries [message.content]. *)
Definition message_content (choice : list (string * value)) : option value :=
  match Json.get "message" choice with
  | Some (JObj message) => Json.get "content" message
  | _ => None
  end.

(** The first choice of a response has no [message.content] and testing
    for it does not raise. *)
Definition no_message_content (choice : list (string * value)) : bool :=
  match Json.get "message" choice with
  | None => true
  | Some (JObj message) =>
      match Json.get "content" message with
      | Some _ => false
      | None => true
      end
  | Some (JArr items) =>
      negb (existsb (fun x => match x with
                              | JStr s => String.eqb s "content"
                              | _ => false
                              end) items)
  | Some (JStr s) => negb (Str.contains "content" s)
  | Some _ => false
  end.

(** What [get_completion] answers with, for the responses it answers. *)
Definition completion_of (response : value) : option value :=
  match response with
  | JObj fields =>
      match Json.get "choices" fields with
      | Some (JArr (JObj choice :: _)) =>
          match message_content choice with
          | Some content => Some content
          | None =>
              if no_message_content choice then Json.get "text" choice else None
          end
      | _ => None
      end
  | _ => None
  end.

(** * Properties *)

(** ** Handlers *)

Lemma returns_Ret {A : Type} (a : A) : returns (Ret a).
Proof. exists a; reflexivity. Qed.

(** A [try] whose handler takes every exception and returns, returns. *)
Lemma try_except_Exception_returns {A : Type} (body : result A)
    (handler : exn -> result A) :
  (forall e, returns (handler e)) ->
  returns (try_except body is_Exception handler).
Proof.
  intros Hh. destruct body as [a | e]; simpl.
  - apply returns_Ret.
  - apply Hh.
Qed.

Lemma try_except_Ret {A : Type} (a : A) catches (handler : exn -> result A) :
  try_except (Ret a) catches handler = Ret a.
Proof. reflexivity. Qed.

Lemma try_except_Raise_Exception {A : Type} (e : exn) (handler : exn -> result A) :
  try_except (Raise e) is_Exception handler = handler e.
Proof. reflexivity. Qed.

#[local] Hint Resolve returns_Ret : core.

(** ** The default records *)

Section Defaults.

Context `{PyLib}.

Lemma create_default_decision_eq :
  DecisionFeedbackAgent.create_default_decision = Ret default_decision.
Proof. reflexivity. Qed.

Lemma error_analysis_eq :
  JobMatchingAgent.error_analysis = Ret error_match_analysis.
Proof. reflexivity. Qed.

Lemma create_default_analysis_eq :
  JobMatchingAgent.create_default_analysis =
  Ret (estimated_analysis (4 # 5) (3 # 4)
         "Analysis estimated - Please check results manually"
         "Analysis was estimated due to processing limitations - Results may not be fully accurate").
Proof. reflexivity. Qed.

End Defaults.

(** ** Totality of the extraction *)

Section Totality.

Context `{PyLib}.



Lemma fix_json_at_error_returns (json_str error_msg : string) :
  returns (DecisionFeedbackAgent.fix_json_at_error json_str error_msg).
Proof. apply try_except_Exception_returns; auto. Qed.

Lemma transform_api_response_returns (raw_data : value) :
  returns (JobMatchingAgent._transform_api_response raw_data).
Proof. apply try_except_Exception_returns; auto. Qed.

Lemma parse_resume_returns complete convert_template_to_json (resume_text : string) :
  returns (ResumeParsingAgent.parse_resume complete convert_template_to_json resume_text).
Proof. apply try_except_Exception_returns; auto. Qed.

End Totality.


(** ** No exception reaches the user *)

Section Orchestrators.

Context `{PyLib}.

Lemma generate_decision_returns formatted complete :
  returns (DecisionFeedbackAgent.generate_decision formatted complete).
Proof.
  apply try_except_Exception_returns. intros e.
  rewrite create_default_decision_eq; auto.
Qed.

Lemma match_job_returns formatted complete :
  returns (JobMatchingAgent.match_job formatted complete).
Proof.
  apply try_except_Exception_returns. intros e.
  rewrite error_analysis_eq; auto.
Qed.

(** An exception while the request is built, or raised by the provider,
    ends in the default decision. *)
Lemma generate_decision_request_error (e : exn) complete :
  DecisionFeedbackAgent.generate_decision (Raise e) complete = Ret default_decision.
Proof. reflexivity. Qed.

Lemma generate_decision_api_error (content : string) (e : exn) :
  DecisionFeedbackAgent.generate_decision (Ret content) (fun _ => Raise e)
  = Ret default_decision.
Proof. reflexivity. Qed.

(** A completion that is not a [str] ends in the default decision. *)
Lemma generate_decision_no_text (content : string) :
  DecisionFeedbackAgent.generate_decision (Ret content) (fun _ => Ret None)
  = Ret default_decision.
Proof. reflexivity. Qed.

(** A completion that decodes neither as it is nor after cleaning ends in
    the default decision. *)
Lemma generate_decision_undecodable (content text cleaned : string) e1 e2 :
  json_loads text = inr e1 ->
  DecisionFeedbackAgent.clean_json_response text = Ret cleaned ->
  json_loads cleaned = inr e2 ->
  DecisionFeedbackAgent.generate_decision (Ret content) (fun _ => Ret (Some text))
  = Ret default_decision.
Proof.
  intros H1 Hc H2.
  unfold DecisionFeedbackAgent.generate_decision; simpl.
  unfold loads_result. rewrite H1; simpl. rewrite Hc; simpl.
  unfold loads_result. rewrite H2; simpl. reflexivity.
Qed.

Lemma match_job_request_error (e : exn) complete :
  JobMatchingAgent.match_job (Raise e) complete = Ret error_match_analysis.
Proof. reflexivity. Qed.

Lemma match_job_api_error (content : string) (e : exn) :
  JobMatchingAgent.match_job (Ret content) (fun _ => Raise e) = Ret error_match_analysis.
Proof. reflexivity. Qed.

End Orchestrators.

(** C2.  Whatever the request building, the provider and the completion
    do, [generate_decision] and [match_job] return a record and raise
    nothing; when the request or the provider raises, the record is the
    default one, whose fields say that it is a placeholder. *)
Theorem no_unhandled_exception `{PyLib}
    (formatted : result string) (complete : string -> result (option string))
    (content : string) (e : exn) :
  returns (DecisionFeedbackAgent.generate_decision formatted complete)
  /\ returns (JobMatchingAgent.match_job formatted complete)
  /\ DecisionFeedbackAgent.generate_decision (Raise e) complete = Ret default_decision
  /\ DecisionFeedbackAgent.generate_decision (Ret content) (fun _ => Raise e)
     = Ret default_decision
  /\ JobMatchingAgent.match_job (Raise e) complete = Ret error_match_analysis
  /\ JobMatchingAgent.match_job (Ret content) (fun _ => Raise e)
     = Ret error_match_analysis
  /\ key_strengths (rationale default_decision)
     = ["Unable to determine due to processing error"]
  /\ salary_band_fit (hiring_manager_notes default_decision) = "Unable to determine"
  /\ details (skills_match error_match_analysis)
     = ["Analysis estimated due to processing error"].
Proof.
  repeat split.
  - apply generate_decision_returns.
  - apply match_job_returns.
Qed.

(** ** The clamping validators *)

Lemma validate_confidence_range (v : Z) :
  (0 <= Models.validate_confidence v <= 100)%Z.
Proof. unfold Models.validate_confidence; lia. Qed.


Lemma Qltb_true (a b : Q) : Flt.Qltb a b = true -> Qlt a b.
Proof.
  unfold Flt.Qltb; intros Hn.
  apply negb_true_iff in Hn.
  apply Qnot_le_lt; intros Hle.
  apply Qle_bool_iff in Hle; congruence.
Qed.

Lemma Qltb_false (a b : Q) : Flt.Qltb a b = false -> Qle b a.
Proof.
  unfold Flt.Qltb; intros Hn.
  apply negb_false_iff in Hn.
  apply Qle_bool_iff; assumption.
Qed.

Lemma validate_score_cases (q : Q) :
  Models.validate_score (Fin q)
  = if Flt.Qltb q (1 # 1) then (if Flt.Qltb (0 # 1) q then Fin q else Fin (0 # 1))
    else Fin (1 # 1).
Proof.
  unfold Models.validate_score, Flt.py_max, Flt.py_min, Flt.one, Flt.zero; simpl.
  destruct (Flt.Qltb q (1 # 1)); simpl; reflexivity.
Qed.

(** Every float, the non-finite ones included, ends between 0 and 1. *)
Lemma validate_score_range (f : pyfloat) :
  Flt.within (0 # 1) (1 # 1) (Models.validate_score f).
Proof.
  destruct f as [q | | | ]; try (vm_compute; split; discriminate).
  rewrite validate_score_cases.
  destruct (Flt.Qltb q (1 # 1)) eqn:H1.
  - destruct (Flt.Qltb (0 # 1) q) eqn:H0; simpl.
    + split; [apply Qlt_le_weak, Qltb_true | apply Qlt_le_weak, Qltb_true]; assumption.
    + split; [apply Qle_refl | discriminate].
  - simpl; split; [discriminate | apply Qle_refl].
Qed.

Lemma validate_overall_score_eq (f : pyfloat) :
  Models.validate_overall_score f = Models.validate_score f.
Proof. reflexivity. Qed.

(** A value inside the range is stored as it is. *)
Lemma validate_confidence_in_range (v : Z) :
  (0 <= v <= 100)%Z -> Models.validate_confidence v = v.
Proof. unfold Models.validate_confidence; lia. Qed.

Lemma validate_score_in_range (q : Q) :
  Qlt (0 # 1) q -> Qlt q (1 # 1) -> Models.validate_score (Fin q) = Fin q.
Proof.
  intros H0 H1. rewrite validate_score_cases.
  destruct (Flt.Qltb q (1 # 1)) eqn:E1.
  - destruct (Flt.Qltb (0 # 1) q) eqn:E0; [reflexivity|].
    apply Qltb_false in E0. exfalso; exact (Qlt_not_le _ _ H0 E0).
  - apply Qltb_false in E1. exfalso; exact (Qlt_not_le _ _ H1 E1).
Qed.


(** ** The default-value providers *)

(** C10, as stated, fails: [create_default_decision] does not fill the
    record from the declared defaults.  The rationale it stores differs from
    the default [RationaleDetails] declares, and the scores of
    [create_default_analysis] are 0.8 and 0.75 where the models declare
    0.0. *)
Lemma default_providers_override_declared_defaults :
  @DecisionFeedbackAgent.create_default_decision Reference.lib = Ret default_decision
  /\ key_strengths (rationale default_decision)
     = ["Unable to determine due to processing error"]
  /\ key_strengths Models.RationaleDetails_default = ["Pending resume analysis"]
  /\ rationale default_decision <> Models.RationaleDetails_default
  /\ (exists m,
        @JobMatchingAgent.create_default_analysis Reference.lib = Ret m
        /\ overall_match_score m = Fin (4 # 5)
        /\ score (skills_match m) = Fin (3 # 4)
        /\ overall_match_score Models.MatchAnalysis_default = Fin (0 # 1)
        /\ score (skills_match Models.MatchAnalysis_default) = Fin (0 # 1)).
Proof.
  split; [reflexivity|].
  split; [reflexivity|].
  split; [reflexivity|].
  split; [discriminate|].
  eexists; split; [reflexivity|].
  repeat split.
Qed.

(** C10, amended.  The default-value providers return a record with every
    field present that its own validators leave unchanged, and the result
    depends on nothing: two runtimes give the same record.  The fields are
    filled from the placeholder values the constructor passes; the fields it
    does not pass ([decision], [recommended_interview_questions]) take their
    declared defaults, as every field does when a model is built from no
    argument at all. *)
Theorem default_providers_complete (lib1 lib2 : PyLib) :
  @DecisionFeedbackAgent.create_default_decision lib1 = Ret default_decision
  /\ @DecisionFeedbackAgent.create_default_decision lib2
     = @DecisionFeedbackAgent.create_default_decision lib1
  /\ decision default_decision = Models.DecisionDetails_default
  /\ Models.validate_confidence (confidence_score (decision default_decision))
     = confidence_score (decision default_decision)
  /\ @JobMatchingAgent.create_default_analysis lib1
     = Ret (estimated_analysis (4 # 5) (3 # 4)
              "Analysis estimated - Please check results manually"
              "Analysis was estimated due to processing limitations - Results may not be fully accurate")
  /\ @JobMatchingAgent.create_default_analysis lib2
     = @JobMatchingAgent.create_default_analysis lib1
  /\ Models.validate_overall_score (Fin (4 # 5)) = Fin (4 # 5)
  /\ Models.validate_score (Fin (3 # 4)) = Fin (3 # 4)
  /\ @Models.DecisionFeedback_init lib1 [] = Ret Models.DecisionFeedback_default
  /\ @Models.MatchAnalysis_init lib1 [] = Ret Models.MatchAnalysis_default.
Proof. repeat split. Qed.

(** ** Lines, and what an insertion adds *)

Lemma split_nonempty (sep : ascii) (s : string) : Str.split sep s <> [].
Proof.
  destruct s as [|c s]; simpl; [discriminate|].
  destruct (Ascii.eqb c sep); [discriminate|].
  destruct (Str.split sep s); discriminate.
Qed.

Lemma concat_two (sep x y : string) (l : list string) :
  String.concat sep (x :: y :: l) = x ++ sep ++ String.concat sep (y :: l).
Proof. reflexivity. Qed.

(** Splitting into lines and joining again gives the text back. *)
Lemma unlines_lines (s : string) : Str.unlines (Str.lines s) = s.
Proof.
  unfold Str.unlines, Str.lines, Str.join.
  induction s as [|c s IH]; simpl; [reflexivity|].
  destruct (Ascii.eqb c Char.newline) eqn:E.
  - apply Ascii.eqb_eq in E; subst c.
    destruct (Str.split Char.newline s) as [|y l] eqn:Es.
    + exfalso; eapply split_nonempty; eauto.
    + rewrite concat_two. simpl. f_equal. exact IH.
  - destruct (Str.split Char.newline s) as [|y l] eqn:Es.
    + exfalso; eapply split_nonempty; eauto.
    + destruct l as [|z l]; simpl in *; f_equal; exact IH.
Qed.

Lemma take_drop (k : nat) (s : string) : Str.take k s ++ Str.drop k s = s.
Proof.
  revert s; induction k; intros [|c s]; simpl; try reflexivity.
  f_equal; apply IHk.
Qed.

Section Additive.

(** A measure of texts that adds up over concatenation: the length, or the
    number of occurrences of a character. *)
Variable f : string -> nat.
Hypothesis f_app : forall a b, f (a ++ b) = f a + f b.




End Additive.


Lemma count_app (c : ascii) (a b : string) :
  Str.count c (a ++ b) = Str.count c a + Str.count c b.
Proof. induction a as [|x a IH]; simpl; [reflexivity|]. rewrite IH; lia. Qed.

(** ** What the substitutions cannot bring back *)

Lemma count_replaced (c : ascii) (b s : string) :
  Str.count c b = 0 -> Str.count c (Str.replace_char c b s) = 0.
Proof.
  intros Hb. induction s as [|x s IH]; simpl; [reflexivity|].
  destruct (Ascii.eqb x c) eqn:E.
  - rewrite count_app, Hb, IH; reflexivity.
  - simpl. rewrite E, IH; reflexivity.
Qed.

Lemma count_tail_zero (c x : ascii) (s : string) :
  Str.count c (String x s) = 0 -> Str.count c s = 0.
Proof. simpl; lia. Qed.

(** A substitution whose replacements are free of [c] keeps a text free of
    [c]. *)
Lemma count_sub_from_zero (c : ascii) (m : Re.matcher string) :
  (forall t repl n, Str.count c t = 0 -> m t = Some (repl, n) -> Str.count c repl = 0) ->
  forall s skip, Str.count c s = 0 -> Str.count c (Re.sub_from m skip s) = 0.
Proof.
  intros Hm s.
  induction s as [|x s IH]; intros skip Hs; simpl; [reflexivity|].
  pose proof (count_tail_zero _ _ _ Hs) as Hs'.
  destruct skip as [|k]; [|apply IH; exact Hs'].
  destruct (m (String x s)) as [[repl n]|] eqn:Em.
  - rewrite count_app, (Hm _ _ _ Hs Em), IH; auto.
  - simpl in *. rewrite IH; auto. lia.
Qed.

Lemma count_sub_zero (c : ascii) (m : Re.matcher string) :
  (forall t repl n, Str.count c t = 0 -> m t = Some (repl, n) -> Str.count c repl = 0) ->
  forall s, Str.count c s = 0 -> Str.count c (Re.sub m s) = 0.
Proof. intros Hm s Hs. apply count_sub_from_zero; assumption. Qed.

Lemma count_span (c : ascii) (p : ascii -> bool) (s : string) :
  Str.count c (fst (Re.span p s)) + Str.count c (snd (Re.span p s)) = Str.count c s.
Proof.
  induction s as [|x s IH]; simpl; [reflexivity|].
  destruct (p x); simpl; [|lia].
  destruct (Re.span p s) as [a b]; simpl in *. lia.
Qed.

Lemma head_is_some (c : ascii) (s rest : string) :
  Re.head_is c s = Some rest -> s = String c rest.
Proof.
  destruct s as [|x s]; simpl; [discriminate|].
  destruct (Ascii.eqb x c) eqn:E; [|discriminate].
  apply Ascii.eqb_eq in E; subst x. intros [= ->]; reflexivity.
Qed.

Lemma trailing_comma_keeps_free (c : ascii) (t repl : string) (n : nat) :
  Str.count c t = 0 -> Re.trailing_comma_at t = Some (repl, n) -> Str.count c repl = 0.
Proof.
  unfold Re.trailing_comma_at. intros Ht.
  destruct (Re.head_is "," t) as [s1|] eqn:E1; [|discriminate].
  apply head_is_some in E1; subst t.
  pose proof (count_span c Char.isspace s1) as Hsp.
  destruct (Re.span Char.isspace s1) as [ws s2]; simpl in Hsp.
  destruct s2 as [|x s2]; [discriminate|].
  destruct (Ascii.eqb x "}" || Ascii.eqb x "]"); [|discriminate].
  intros [= <- _]. rewrite count_app. simpl in *. lia.
Qed.

Lemma quote_newline_quote_keeps_free (t repl : string) (n : nat) :
  Re.quote_newline_quote_at t = Some (repl, n) -> Str.count "'" repl = 0.
Proof.
  unfold Re.quote_newline_quote_at.
  destruct (Re.head_is Char.dquote t) as [s1|]; [|discriminate].
  destruct (Re.span Char.isspace s1) as [ws s2].
  destruct (Re.head_is Char.dquote s2); [|discriminate].
  destruct (Str.contains_char Char.newline ws); [|discriminate].
  intros [= <- _]. reflexivity.
Qed.

(** After the basic fixes no single quote is left. *)
Lemma basic_fixes_no_single_quote (t : string) :
  Str.count "'" (Cleaning.basic_fixes t) = 0.
Proof.
  unfold Cleaning.basic_fixes, Cleaning.remove_trailing_commas,
    Cleaning.commas_between_quoted_lines, Cleaning.single_to_double_quotes.
  apply count_sub_zero; [apply trailing_comma_keeps_free|].
  apply count_sub_zero; [intros ? ? ? _; apply quote_newline_quote_keeps_free|].
  apply count_replaced. reflexivity.
Qed.

(** ** Text that is valid already *)

Section AlreadyValid.

Context `{PyLib}.

(** The job matcher returns a response that decodes as it is, unchanged. *)
Lemma job_valid_response_unchanged (response_text : string) (v : value) :
  json_loads response_text = inl v ->
  JobMatchingAgent.clean_json_response response_text = Ret response_text.
Proof.
  intros Hv. unfold JobMatchingAgent.clean_json_response. rewrite Hv. reflexivity.
Qed.

(** The decision agent returns the unwrapped text unchanged when it
    decodes. *)
Lemma decision_valid_unwrapped_unchanged (response_text : string) (v : value) :
  json_loads (Cleaning.unwrap response_text) = inl v ->
  DecisionFeedbackAgent.clean_json_response response_text
  = Ret (Cleaning.unwrap response_text).
Proof.
  intros Hv. unfold DecisionFeedbackAgent.clean_json_response. rewrite Hv. reflexivity.
Qed.

End AlreadyValid.

(** C9, on the code.  [fenced_completion] is valid JSON once its fences are
    stripped, and the decision agent passes the stripped text through
    unchanged.  The job matcher tests the response before it strips the
    fences, so it runs the repairs: the apostrophe is turned into a quote,
    the text stops being valid, and a record rebuilt from the score 85 comes
    back in place of the text. *)
Theorem job_matcher_repairs_valid_fenced_json :
  Cleaning.unwrap fenced_completion
  = jq "{$match_score$: 85, $recommendation$: $Candidate's profile fits$}"
  /\ Json.loads (Cleaning.unwrap fenced_completion)
     = inl (JObj [("match_score", JInt 85);
                  ("recommendation", JStr "Candidate's profile fits")])
  /\ @DecisionFeedbackAgent.clean_json_response Reference.lib fenced_completion
     = Ret (Cleaning.unwrap fenced_completion)
  /\ repaired fenced_completion
     = jq "{$match_score$: 85, $recommendation$: $Candidate$s profile fits$}"
  /\ @JobMatchingAgent.clean_json_response Reference.lib fenced_completion
     = Ret (@Dumps.dumps Reference.lib (JobMatchingAgent.minimal_json 85 85 85 85)).
Proof. repeat split; vm_compute; reflexivity. Qed.

(** ** The order of the repairs *)

(** C7, as stated, fails.  On [bare_key_apostrophe] the first repair alone,
    the quoting of bare keys, gives a text that decodes; neither agent
    returns it, because both go on to the next substitutions without a
    parse in between. *)
Lemma repairs_not_parsed_one_by_one :
  Cleaning.quote_keys (Cleaning.unwrap bare_key_apostrophe) = jq "{$a$: $it's$}"
  /\ Json.loads (Cleaning.quote_keys (Cleaning.unwrap bare_key_apostrophe))
     = inl (JObj [("a", JStr "it's")])
  /\ @JobMatchingAgent.clean_json_response Reference.lib bare_key_apostrophe
     = Ret (@Dumps.dumps Reference.lib JobMatchingAgent.default_json)
  /\ @DecisionFeedbackAgent.clean_json_response Reference.lib bare_key_apostrophe
     = Ret (jq "{$a$: $it$,s$}")
  /\ @JobMatchingAgent.clean_json_response Reference.lib bare_key_apostrophe
     <> Ret (Cleaning.quote_keys (Cleaning.unwrap bare_key_apostrophe))
  /\ @DecisionFeedbackAgent.clean_json_response Reference.lib bare_key_apostrophe
     <> Ret (Cleaning.quote_keys (Cleaning.unwrap bare_key_apostrophe)).
Proof.
  split; [vm_compute; reflexivity|].
  split; [vm_compute; reflexivity|].
  split; [vm_compute; reflexivity|].
  split; [vm_compute; reflexivity|].
  split; vm_compute; discriminate.
Qed.

(** C7, amended.  When the response needs a repair, the four substitutions
    are applied as one batch, in the order: quote the bare keys, turn single
    quotes into double quotes, put a comma between two quoted strings
    parted by a line break, remove the trailing commas.  The parse is tried
    once, after the batch; when it succeeds both agents return the repaired
    text, in which no single quote is left.  No list of repairs is kept. *)
Theorem repairs_applied_as_one_batch `{PyLib} (text : string)
    (e1 e2 : decode_error) (v : value) :
  json_loads text = inr e1 ->
  json_loads (Cleaning.unwrap text) = inr e2 ->
  json_loads (repaired text) = inl v ->
  repaired text
  = Cleaning.remove_trailing_commas
      (Cleaning.commas_between_quoted_lines
         (Cleaning.single_to_double_quotes
            (Cleaning.quote_keys (Cleaning.unwrap text))))
  /\ JobMatchingAgent.clean_json_response text = Ret (repaired text)
  /\ DecisionFeedbackAgent.clean_json_response text = Ret (repaired text)
  /\ Str.count "'" (repaired text) = 0.
Proof.
  intros H1 H2 H3.
  split; [reflexivity|].
  split.
  - unfold JobMatchingAgent.clean_json_response. rewrite H1.
    fold (repaired text). rewrite H3. reflexivity.
  - split.
    + unfold DecisionFeedbackAgent.clean_json_response. rewrite H2.
      fold (repaired text). rewrite H3. reflexivity.
    + apply basic_fixes_no_single_quote.
Qed.

Lemma repairs_applied_as_one_batch_witness :
  (exists e, Json.loads fenced_bare_key = inr e)
  /\ (exists v, Json.loads (repaired fenced_bare_key) = inl v)
  /\ repaired fenced_bare_key = jq "{$score$: 85, $name$: $Ann$}"
  /\ @JobMatchingAgent.clean_json_response Reference.lib fenced_bare_key
     = Ret (repaired fenced_bare_key)
  /\ @DecisionFeedbackAgent.clean_json_response Reference.lib fenced_bare_key
     = Ret (repaired fenced_bare_key).
Proof.
  split; [eexists; vm_compute; reflexivity|].
  split; [eexists; vm_compute; reflexivity|].
  split; [vm_compute; reflexivity|].
  edestruct (@repairs_applied_as_one_batch Reference.lib fenced_bare_key)
    as (_ & Hj & Hd & _);
    [vm_compute; reflexivity | vm_compute; reflexivity | vm_compute; reflexivity |].
  split; assumption.
Defined.

(** ** The comma put at the reported position *)


(** The unused [fix_json_at_error] cuts the line behind the reported column,
    one character late: on [one_comma_missing] its comma lands inside the
    next key, the text it builds does not decode, and the function falls
    back on its substitutions.  [clean_json_response] cuts in front of the
    column. *)
Lemma fix_json_at_error_cuts_behind_column :
  DecisionFeedbackAgent.reported_position one_comma_missing_error = Some (1, 11)
  /\ DecisionFeedbackAgent.comma_fixed_line one_comma_missing 11 = jq "{$a$: $b$ $,c$: 1}"
  /\ @DecisionFeedbackAgent.insert_comma Reference.lib one_comma_missing
       one_comma_missing_error = Ret None
  /\ @DecisionFeedbackAgent.fix_json_at_error Reference.lib one_comma_missing
       one_comma_missing_error = Ret (jq "{$a$: $b$,$c$: 1}")
  /\ DecisionFeedbackAgent.insert_at 10 "," one_comma_missing = jq "{$a$: $b$ ,$c$: 1}".
Proof. repeat split; vm_compute; reflexivity. Qed.






(** ** When nothing is found *)

Section NothingFound.

Context `{PyLib}.



End NothingFound.




(** ** Scores reported for a text that cannot be read *)

Section Unreadable.

Context `{PyLib}.

Lemma job_clean_default (text : string) (e1 e2 e3 : decode_error) :
  json_loads text = inr e1 ->
  json_loads (repaired text) = inr e2 ->
  Re.search JobMatchingAgent.match_pattern (repaired text) = None ->
  json_loads (JobMatchingAgent.aggressive_cleaning (repaired text)) = inr e3 ->
  JobMatchingAgent.clean_json_response text
  = Ret (Dumps.dumps JobMatchingAgent.default_json).
Proof.
  intros H1 H2 Hn H3. unfold JobMatchingAgent.clean_json_response.
  rewrite H1. fold (repaired text). rewrite H2.
  unfold JobMatchingAgent.advanced_fixes. rewrite Hn, H3. reflexivity.
Qed.

Lemma job_clean_fallback (text : string) (e1 e2 : decode_error) (e : exn) :
  json_loads text = inr e1 ->
  json_loads (repaired text) = inr e2 ->
  JobMatchingAgent.advanced_fixes (repaired text) = Raise e ->
  JobMatchingAgent.clean_json_response text
  = Ret (Dumps.dumps JobMatchingAgent.fallback_json).
Proof.
  intros H1 H2 Hr. unfold JobMatchingAgent.clean_json_response.
  rewrite H1. fold (repaired text). rewrite H2, Hr. reflexivity.
Qed.

(** [match_job] on a completion whose cleaning comes back with a document
    the decoder reads as [doc]. *)
Lemma match_job_after_cleaning (content text : string) (doc : value) :
  JobMatchingAgent.clean_json_response text = Ret (Dumps.dumps doc) ->
  json_loads (Dumps.dumps doc) = inl doc ->
  JobMatchingAgent.match_job (Ret content) (fun _ => Ret (Some text))
  = try_except
      (try_except
         (try_except
            (transformed_data <- JobMatchingAgent._transform_api_response doc ;;
             JobMatchingAgent.MatchAnalysis_of transformed_data)
            (fun e => is_JSONDecodeError e || is_ValidationError e)
            (fun _ =>
               JobMatchingAgent.MatchAnalysis_of
                 (JobMatchingAgent.fallback_data
                    (JobMatchingAgent.extract_valid_json_scores (Some text)))))
         is_Exception
         (fun _ =>
            JobMatchingAgent.MatchAnalysis_of
              (JobMatchingAgent.fallback_data
                 (JobMatchingAgent.extract_valid_json_scores (Some text)))))
      is_Exception
      (fun _ => JobMatchingAgent.error_analysis).
Proof.
  intros Hc Hd. unfold JobMatchingAgent.match_job. simpl bind.
  unfold JobMatchingAgent.clean_completion. rewrite Hc. simpl bind.
  unfold loads_result. rewrite Hd. reflexivity.
Qed.

End Unreadable.

(** C4.  When the response does not decode, the repaired text does not
    decode either, and nothing is salvaged from it, the job matcher still
    returns a valid document with fixed scores: the default document (80,
    and 80, 75, 85, 70 for the sections) or, after an exception in the last
    fixes, the last-resort document (75 throughout).  [match_job] then
    reports a match between 70 and 85 percent, never zero. *)
Theorem unreadable_text_reports_fixed_scores `{PyLib} (content text : string)
    (e1 e2 : decode_error) :
  json_loads text = inr e1 ->
  json_loads (repaired text) = inr e2 ->
  salvage_fails (repaired text) ->
  json_loads (Dumps.dumps JobMatchingAgent.default_json) = inl JobMatchingAgent.default_json ->
  json_loads (Dumps.dumps JobMatchingAgent.fallback_json) = inl JobMatchingAgent.fallback_json ->
  exists (doc : value) (m : MatchAnalysis),
    JobMatchingAgent.clean_json_response text = Ret (Dumps.dumps doc)
    /\ JobMatchingAgent.match_job (Ret content) (fun _ => Ret (Some text)) = Ret m
    /\ ((doc = JobMatchingAgent.default_json /\ m = default_report)
        \/ (doc = JobMatchingAgent.fallback_json /\ m = fallback_report))
    /\ Flt.within (7 # 10) (17 # 20) (overall_match_score m)
    /\ Flt.within (7 # 10) (17 # 20) (score (skills_match m))
    /\ Flt.within (7 # 10) (17 # 20) (score (experience_match m))
    /\ Flt.within (7 # 10) (17 # 20) (score (education_match m)).
Proof.
  intros H1 H2 Hs Hd Hf.
  destruct Hs as [[Hn [e3 H3]] | [e Hr]].
  - pose proof (job_clean_default text e1 e2 e3 H1 H2 Hn H3) as Hc.
    exists JobMatchingAgent.default_json, default_report.
    split; [exact Hc|].
    split; [rewrite (match_job_after_cleaning content text _ Hc Hd); reflexivity|].
    split; [left; split; reflexivity|].
    repeat split; discriminate.
  - pose proof (job_clean_fallback text e1 e2 e H1 H2 Hr) as Hc.
    exists JobMatchingAgent.fallback_json, fallback_report.
    split; [exact Hc|].
    split; [rewrite (match_job_after_cleaning content text _ Hc Hf); reflexivity|].
    split; [right; split; reflexivity|].
    repeat split; discriminate.
Qed.

Lemma unreadable_text_reports_fixed_scores_witness :
  (exists e, Json.loads prose = inr e)
  /\ exists (doc : value) (m : MatchAnalysis),
       @JobMatchingAgent.clean_json_response Reference.lib prose
       = Ret (@Dumps.dumps Reference.lib doc)
       /\ @JobMatchingAgent.match_job Reference.lib (Ret EmptyString)
            (fun _ => Ret (Some prose)) = Ret m
       /\ Flt.within (7 # 10) (17 # 20) (overall_match_score m).
Proof.
  split; [eexists; vm_compute; reflexivity|].
  destruct (@unreadable_text_reports_fixed_scores Reference.lib EmptyString prose
              (DecodeError "Expecting value" 0 1 1)
              (DecodeError "Expecting value" 0 1 1)
              ltac:(vm_compute; reflexivity)
              ltac:(vm_compute; reflexivity)
              ltac:(left; split; [vm_compute; reflexivity | eexists; vm_compute; reflexivity])
              ltac:(vm_compute; reflexivity)
              ltac:(vm_compute; reflexivity))
    as (doc & m & Hc & Hm & _ & Ho & _).
  exists doc, m. split; [exact Hc|]. split; [exact Hm | exact Ho].
Defined.

(** The last-resort document at work: the digits of [endless_score] are
    more than [int] converts, the last fixes raise, and 75 percent is
    reported. *)
Lemma endless_score_reports_75 :
  @JobMatchingAgent.advanced_fixes Reference.lib (repaired endless_score) = Raise ValueError
  /\ @JobMatchingAgent.clean_json_response Reference.lib endless_score
     = Ret (@Dumps.dumps Reference.lib JobMatchingAgent.fallback_json)
  /\ @JobMatchingAgent.match_job Reference.lib (Ret EmptyString)
       (fun _ => Ret (Some endless_score)) = Ret fallback_report.
Proof. repeat split; vm_compute; reflexivity. Qed.

(** ** Percentages stored as fractions *)

Section Percentages.

Context `{PyLib}.

(** An overall score and a skills score given as JSON integers are divided
    by 100, and the validators of the model clamp the quotients. *)
Lemma integer_scores_divided_and_clamped (n s : Z) :
  bind (JobMatchingAgent._transform_api_response
          (JObj [("match_score", JInt n);
                 ("analysis", JObj [("skills", JObj [("score", JInt s)])])]))
       JobMatchingAgent.MatchAnalysis_of
  = Ret {| overall_match_score :=
             Models.validate_overall_score (Fin (Qred (Qdiv (inject_Z n) (inject_Z 100))));
           skills_match :=
             {| score := Models.validate_score (Fin (Qred (Qdiv (inject_Z s) (inject_Z 100))));
                details := ["No specific details available"] |};
           experience_match :=
             {| score := Fin (0 # 1); details := ["No specific details available"] |};
           education_match :=
             {| score := Fin (0 # 1); details := ["No specific details available"] |};
           additional_insights := ["No additional insights available"];
           recommended_interview_questions :=
             Some ["No interview questions generated yet"] |}.
Proof. reflexivity. Qed.

(** An overall score given as a string is converted by [float] first. *)
Lemma string_match_score_converted (text : string) (f : pyfloat) :
  float_of_str text = Some f ->
  bind (JobMatchingAgent._transform_api_response (JObj [("match_score", JStr text)]))
       JobMatchingAgent.MatchAnalysis_of
  = Ret {| overall_match_score := Models.validate_overall_score (Flt.div100 f);
           skills_match :=
             {| score := Fin (0 # 1); details := ["No specific details available"] |};
           experience_match :=
             {| score := Fin (0 # 1); details := ["No specific details available"] |};
           education_match :=
             {| score := Fin (0 # 1); details := ["No specific details available"] |};
           additional_insights := ["No additional insights available"];
           recommended_interview_questions :=
             Some ["No interview questions generated yet"] |}.
Proof.
  intros Hf.
  unfold JobMatchingAgent._transform_api_response, JobMatchingAgent.transform_dict.
  simpl Json.get. unfold JobMatchingAgent.py_float. rewrite Hf. reflexivity.
Qed.

(** A section score given as a string cannot be divided: the [TypeError]
    ends the transformation, and 0.8 is stored everywhere, whatever the
    other scores were. *)
Lemma string_section_score_discards_all (n : value) (text : string) :
  JobMatchingAgent._transform_api_response
    (JObj [("match_score", n);
           ("analysis", JObj [("skills", JObj [("score", JStr text)])])])
  = Ret (JObj [("overall_match_score", JFloat (Fin (4 # 5)));
               ("skills_match",
                JobMatchingAgent.breakdown (Fin (4 # 5))
                  ["Error occurred. Using estimated values."]);
               ("experience_match",
                JobMatchingAgent.breakdown (Fin (4 # 5))
                  ["Error occurred. Using estimated values."]);
               ("education_match",
                JobMatchingAgent.breakdown (Fin (4 # 5))
                  ["Error occurred. Using estimated values."]);
               ("additional_insights",
                Models.strs ["Note: Error occurred while processing. Results are estimated."])]).
Proof.
  unfold JobMatchingAgent._transform_api_response, JobMatchingAgent.transform_dict.
  cbn -[JobMatchingAgent.py_float].
  destruct (JobMatchingAgent.py_float n) as [f | e]; [reflexivity|].
  destruct e; reflexivity.
Qed.

End Percentages.

(** C5, on the code.  The completion [string_sub_score] gives the overall
    score as the number 90 and the skills score as the string 92.  Dividing
    the string raises, the handler of the transformation discards every
    score, and 0.8 is stored for the overall score and for the three
    breakdowns, where the claim has 0.92 for the skills score (and 0.9 for
    the overall one).  The overall score takes the other path: given as the
    string 92 in [string_match_score], it is stored as 0.92. *)
Theorem string_sub_score_stored_as_estimate :
  Json.loads string_sub_score
  = inl (JObj [("match_score", JInt 90);
               ("analysis", JObj [("skills", JObj [("score", JStr "92")])])])
  /\ @JobMatchingAgent.match_job Reference.lib (Ret EmptyString)
       (fun _ => Ret (Some string_sub_score))
     = Ret (estimated_analysis (4 # 5) (4 # 5)
              "Error occurred. Using estimated values."
              "Note: Error occurred while processing. Results are estimated.")
  /\ (exists m,
        @JobMatchingAgent.match_job Reference.lib (Ret EmptyString)
          (fun _ => Ret (Some string_match_score)) = Ret m
        /\ overall_match_score m = Fin (23 # 25)).
Proof.
  split; [vm_compute; reflexivity|].
  split; [vm_compute; reflexivity|].
  eexists; split; vm_compute; reflexivity.
Qed.

(** * Properties of the surrounding code *)

(** ** Reading a result backwards *)

Lemma bind_Ret_inv {A B : Type} (m : result A) (k : A -> result B) (b : B) :
  bind m k = Ret b -> exists a, m = Ret a /\ k a = Ret b.
Proof. destruct m as [a|e]; simpl; [eauto | discriminate]. Qed.

Lemma try_except_Ret_inv {A : Type} (body : result A) catches handler (a : A) :
  try_except body catches handler = Ret a ->
  body = Ret a \/ exists e, body = Raise e /\ handler e = Ret a.
Proof.
  destruct body as [x|e]; simpl; auto.
  destruct (catches e); [eauto | discriminate].
Qed.

Lemma field_inv `{PyLib} {A : Type} kw key (validate : value -> result A) default (a : A) :
  Models.field kw key validate default = Ret a ->
  (exists v, Json.get key kw = Some v /\ validate v = Ret a)
  \/ (Json.get key kw = None /\ a = default).
Proof.
  unfold Models.field. destruct (Json.get key kw) as [v|]; [eauto|].
  intros E; injection E as <-; auto.
Qed.

Lemma model_inv `{PyLib} {A : Type} (build : list (string * value) -> result A) v (a : A) :
  Models.model build v = Ret a -> exists kw, v = JObj kw /\ build kw = Ret a.
Proof. destruct v; simpl; try discriminate; eauto. Qed.

(** ** Scores and confidence of every record the agents return *)

Section Ranges.

Context `{PyLib}.

Lemma within_zero : Flt.within (0 # 1) (1 # 1) Flt.zero.
Proof. simpl; split; discriminate. Qed.

Lemma breakdown_init_in_range kw (b : AnalysisBreakdown) :
  Models.AnalysisBreakdown_init kw = Ret b -> Flt.within (0 # 1) (1 # 1) (score b).
Proof.
  unfold Models.AnalysisBreakdown_init. intros E.
  apply bind_Ret_inv in E as (s & Es & E).
  apply bind_Ret_inv in E as (d & _ & E).
  injection E as <-; simpl.
  apply field_inv in Es as [(v & _ & Ev) | (_ & ->)].
  - apply bind_Ret_inv in Ev as (f & _ & Ef). injection Ef as <-.
    apply validate_score_range.
  - apply within_zero.
Qed.

Lemma breakdown_field_in_range kw key (d b : AnalysisBreakdown) :
  Flt.within (0 # 1) (1 # 1) (score d) ->
  Models.field kw key (Models.model Models.AnalysisBreakdown_init) d = Ret b ->
  Flt.within (0 # 1) (1 # 1) (score b).
Proof.
  intros D E. apply field_inv in E as [(v & _ & Ev) | (_ & ->)]; auto.
  apply model_inv in Ev as (kw' & _ & Ev). eapply breakdown_init_in_range; eauto.
Qed.

Lemma MatchAnalysis_init_in_range kw (m : MatchAnalysis) :
  Models.MatchAnalysis_init kw = Ret m -> scores_in_range m.
Proof.
  unfold Models.MatchAnalysis_init. intros E.
  apply bind_Ret_inv in E as (o & Eo & E).
  apply bind_Ret_inv in E as (s & Es & E).
  apply bind_Ret_inv in E as (x & Ex & E).
  apply bind_Ret_inv in E as (d & Ed & E).
  apply bind_Ret_inv in E as (a & _ & E).
  apply bind_Ret_inv in E as (q & _ & E).
  injection E as <-. unfold scores_in_range; simpl.
  split; [|split; [|split]].
  - apply field_inv in Eo as [(v & _ & Ev) | (_ & ->)].
    + apply bind_Ret_inv in Ev as (f & _ & Ef). injection Ef as <-.
      rewrite validate_overall_score_eq. apply validate_score_range.
    + apply within_zero.
  - eapply breakdown_field_in_range; [|exact Es]. apply validate_score_range.
  - eapply breakdown_field_in_range; [|exact Ex]. apply validate_score_range.
  - eapply breakdown_field_in_range; [|exact Ed]. apply validate_score_range.
Qed.

Lemma MatchAnalysis_of_in_range data (m : MatchAnalysis) :
  JobMatchingAgent.MatchAnalysis_of data = Ret m -> scores_in_range m.
Proof.
  destruct data; simpl; try discriminate. apply MatchAnalysis_init_in_range.
Qed.

Lemma error_match_analysis_in_range : scores_in_range error_match_analysis.
Proof. unfold scores_in_range; simpl. repeat split; discriminate. Qed.

(** X1.  Whatever the provider answers, and whatever fails on the way, the
    record [match_job] returns has its overall score and its three section
    scores between 0 and 1. *)
Theorem match_job_scores_in_range (formatted : result string)
    (complete : string -> result (option string)) :
  exists m,
    JobMatchingAgent.match_job formatted complete = Ret m /\ scores_in_range m.
Proof.
  destruct (match_job_returns formatted complete) as [m E].
  exists m; split; [exact E|].
  unfold JobMatchingAgent.match_job in E.
  apply try_except_Ret_inv in E as [E | (e & _ & E)].
  - apply bind_Ret_inv in E as (content & _ & E).
    apply bind_Ret_inv in E as (completion & _ & E).
    apply try_except_Ret_inv in E as [E | (e & _ & E)].
    + apply bind_Ret_inv in E as (cleaned & _ & E).
      apply try_except_Ret_inv in E as [E | (e & _ & E)].
      * apply bind_Ret_inv in E as (raw & _ & E).
        apply bind_Ret_inv in E as (transformed & _ & E).
        eapply MatchAnalysis_of_in_range; eauto.
      * eapply MatchAnalysis_of_in_range; eauto.
    + eapply MatchAnalysis_of_in_range; eauto.
  - rewrite error_analysis_eq in E. injection E as <-.
    apply error_match_analysis_in_range.
Qed.

Lemma DecisionDetails_init_in_range kw (d : DecisionDetails) :
  Models.DecisionDetails_init kw = Ret d -> (0 <= confidence_score d <= 100)%Z.
Proof.
  unfold Models.DecisionDetails_init. intros E.
  apply bind_Ret_inv in E as (s & _ & E).
  apply bind_Ret_inv in E as (c & Ec & E).
  apply bind_Ret_inv in E as (i & _ & E).
  injection E as <-; simpl.
  apply field_inv in Ec as [(v & _ & Ev) | (_ & ->)].
  - apply bind_Ret_inv in Ev as (n & _ & En). injection En as <-.
    apply validate_confidence_range.
  - simpl; lia.
Qed.

Lemma DecisionFeedback_init_in_range kw (d : DecisionFeedback) :
  Models.DecisionFeedback_init kw = Ret d ->
  (0 <= confidence_score (decision d) <= 100)%Z.
Proof.
  unfold Models.DecisionFeedback_init. intros E.
  apply bind_Ret_inv in E as (x & Ex & E).
  apply bind_Ret_inv in E as (r & _ & E).
  apply bind_Ret_inv in E as (c & _ & E).
  apply bind_Ret_inv in E as (h & _ & E).
  apply bind_Ret_inv in E as (n & _ & E).
  injection E as <-; simpl.
  apply field_inv in Ex as [(v & _ & Ev) | (_ & ->)].
  - apply model_inv in Ev as (kw' & _ & Ev).
    eapply DecisionDetails_init_in_range; eauto.
  - simpl; lia.
Qed.

Lemma DecisionFeedback_of_in_range data (d : DecisionFeedback) :
  DecisionFeedbackAgent.DecisionFeedback_of data = Ret d ->
  (0 <= confidence_score (decision d) <= 100)%Z.
Proof.
  destruct data; simpl; try discriminate. apply DecisionFeedback_init_in_range.
Qed.

Lemma create_default_decision_in_range (d : DecisionFeedback) :
  DecisionFeedbackAgent.create_default_decision = Ret d ->
  (0 <= confidence_score (decision d) <= 100)%Z.
Proof.
  rewrite create_default_decision_eq. intros E; injection E as <-. simpl; lia.
Qed.

(** X2.  Whatever the provider answers, the decision [generate_decision]
    returns has a confidence between 0 and 100. *)
Theorem generate_decision_confidence_in_range (formatted : result string)
    (complete : string -> result (option string)) :
  exists d,
    DecisionFeedbackAgent.generate_decision formatted complete = Ret d
    /\ (0 <= confidence_score (decision d) <= 100)%Z.
Proof.
  destruct (generate_decision_returns formatted complete) as [d E].
  exists d; split; [exact E|].
  unfold DecisionFeedbackAgent.generate_decision in E.
  apply try_except_Ret_inv in E as [E | (e & _ & E)];
    [|eapply create_default_decision_in_range; eauto].
  apply bind_Ret_inv in E as (content & _ & E).
  destruct (complete content) as [completion|api_error];
    [|eapply create_default_decision_in_range; eauto].
  apply bind_Ret_inv in E as (first & Ef & E).
  destruct first as [decision_data|cleaned_json].
  - injection E as <-.
    apply try_except_Ret_inv in Ef as [Ef | (e & _ & Ef)].
    + apply bind_Ret_inv in Ef as (raw & _ & Ef).
      apply bind_Ret_inv in Ef as (data & Ed & Ef).
      injection Ef as <-. eapply DecisionFeedback_of_in_range; eauto.
    + apply bind_Ret_inv in Ef as (cleaned & _ & Ef). discriminate.
  - apply try_except_Ret_inv in E as [E | (e & _ & E)];
      [|eapply create_default_decision_in_range; eauto].
    apply bind_Ret_inv in E as (raw & _ & E).
    eapply DecisionFeedback_of_in_range; eauto.
Qed.

End Ranges.

(** ** What the cleaning hands back *)

Section CleaningResults.

Context `{PyLib}.



(** X4.  [fix_decision_delimiter_error] returns its argument as it is, or
    a text it has seen to decode. *)
Theorem fix_decision_delimiter_error_unchanged_or_decodes (json_str : string) :
  DecisionFeedbackAgent.fix_decision_delimiter_error json_str = json_str
  \/ DecisionFeedbackAgent.parses
       (DecisionFeedbackAgent.fix_decision_delimiter_error json_str) = true.
Proof.
  unfold DecisionFeedbackAgent.fix_decision_delimiter_error.
  set (lines := Str.lines json_str).
  assert (Tail :
    match Re.search Re.hiring_notes_at json_str with
    | Some section =>
        (if DecisionFeedbackAgent.parses
              (Re.replace section (Re.sub Re.comma_before_newline_at section) json_str)
         then Re.replace section (Re.sub Re.comma_before_newline_at section) json_str
         else json_str) = json_str
        \/ DecisionFeedbackAgent.parses
             (if DecisionFeedbackAgent.parses
                   (Re.replace section (Re.sub Re.comma_before_newline_at section) json_str)
              then Re.replace section (Re.sub Re.comma_before_newline_at section) json_str
              else json_str) = true
    | None => True
    end).
  { destruct (Re.search Re.hiring_notes_at json_str) as [section|]; [|exact I].
    destruct (DecisionFeedbackAgent.parses _) eqn:P; auto. }
  destruct (26 <=? List.length lines).
  - destruct (32 <=? String.length (nth 25 lines EmptyString)).
    + destruct (DecisionFeedbackAgent.parses
                  (Str.unlines
                     (Str.set_nth 25
                        (DecisionFeedbackAgent.insert_at 32 "," (nth 25 lines EmptyString))
                        lines))) eqn:P.
      * right; exact P.
      * destruct (Re.search Re.hiring_notes_at json_str); auto.
    + destruct (Re.search Re.hiring_notes_at json_str); auto.
  - destruct (Re.search Re.hiring_notes_at json_str); auto.
Qed.

End CleaningResults.

(** ** The patch at the reported position *)

Lemma append_assoc (a b c : string) : (a ++ b) ++ c = a ++ b ++ c.
Proof. induction a as [|x a IH]; simpl; [reflexivity | now rewrite IH]. Qed.

Lemma unlines_cons (x y : string) (r : list string) :
  Str.unlines (x :: y :: r)
  = x ++ String Char.newline EmptyString ++ Str.unlines (y :: r).
Proof. reflexivity. Qed.

Lemma set_nth_cons (i : nat) (v x : string) (r : list string) :
  exists y r', Str.set_nth i v (x :: r) = y :: r'.
Proof. destruct i; simpl; eauto. Qed.

Lemma unlines_set_nth_inserted (piece : string) (k : nat) (ls : list string) (i : nat) :
  i < List.length ls ->
  exists a b,
    Str.unlines ls = a ++ b
    /\ Str.unlines
         (Str.set_nth i (DecisionFeedbackAgent.insert_at k piece (nth i ls EmptyString)) ls)
       = a ++ piece ++ b.
Proof.
  revert i. induction ls as [|x r IH]; intros i L; simpl in L; [lia|].
  destruct i as [|j].
  - simpl Str.set_nth. simpl nth. unfold DecisionFeedbackAgent.insert_at.
    destruct r as [|y r].
    + exists (Str.take k x), (Str.drop k x). split.
      * unfold Str.unlines, Str.join; simpl. symmetry; apply take_drop.
      * unfold Str.unlines, Str.join; simpl. reflexivity.
    + exists (Str.take k x),
        (Str.drop k x ++ String Char.newline EmptyString ++ Str.unlines (y :: r)).
      rewrite !unlines_cons. split.
      * rewrite <- (append_assoc (Str.take k x)), take_drop. reflexivity.
      * rewrite !append_assoc. reflexivity.
  - destruct r as [|y r]; [simpl in L; lia|].
    assert (L' : j < List.length (y :: r)) by (simpl in *; lia).
    destruct (IH j L') as (a & b & E1 & E2).
    exists (x ++ String Char.newline EmptyString ++ a), b.
    rewrite unlines_cons. split.
    + rewrite E1. rewrite !append_assoc. reflexivity.
    + change (nth (S j) (x :: y :: r) EmptyString) with (nth j (y :: r) EmptyString).
      change (Str.set_nth (S j) ?v (x :: y :: r)) with (x :: Str.set_nth j v (y :: r)).
      destruct (set_nth_cons j
                  (DecisionFeedbackAgent.insert_at k piece (nth j (y :: r) EmptyString)) y r)
        as (y' & r' & S').
      rewrite S' in *. rewrite unlines_cons, E2. rewrite !append_assoc. reflexivity.
Qed.

(** X5.  The patch [clean_json_response] makes at the position the decoder
    reported only inserts: the text is left as it is, or [piece] is put
    between two parts of it; nothing is removed or changed. *)
Theorem patch_at_reported_only_inserts (marker piece error_text cleaned_text : string) :
  exists a b,
    cleaned_text = a ++ b
    /\ (DecisionFeedbackAgent.patch_at_reported marker piece error_text cleaned_text
        = a ++ b
        \/ DecisionFeedbackAgent.patch_at_reported marker piece error_text cleaned_text
           = a ++ piece ++ b).
Proof.
  assert (Same : exists a b, cleaned_text = a ++ b
                             /\ (cleaned_text = a ++ b \/ cleaned_text = a ++ piece ++ b)).
  { exists EmptyString, cleaned_text; simpl; auto. }
  unfold DecisionFeedbackAgent.patch_at_reported.
  destruct (Str.contains marker error_text); [|exact Same].
  destruct (DecisionFeedbackAgent.reported_position error_text) as [[line_no col_no]|];
    [|exact Same].
  destruct ((0 <? line_no) && (line_no <=? List.length (Str.lines cleaned_text))) eqn:L;
    [|exact Same].
  destruct ((0 <? col_no) && _); [|exact Same].
  apply andb_true_iff in L as [L0 L1].
  apply Nat.ltb_lt in L0. apply Nat.leb_le in L1.
  destruct (unlines_set_nth_inserted piece (col_no - 1) (Str.lines cleaned_text)
              (line_no - 1)) as (a & b & E1 & E2); [lia|].
  rewrite unlines_lines in E1.
  exists a, b; split; [exact E1 | right; exact E2].
Qed.

(** ** The details of a section *)

Section Combine.

Context `{PyLib}.

Lemma marked_strs (heading mark : string) (items : list string) :
  JobMatchingAgent.marked heading mark (Models.strs items)
  = Ret (listed heading mark items).
Proof.
  unfold JobMatchingAgent.marked, Models.strs, listed.
  destruct items as [|x r]; [reflexivity|].
  simpl. rewrite map_map. reflexivity.
Qed.

Lemma marked_cases (heading mark : string) (v : value) :
  match JobMatchingAgent.marked heading mark v with
  | Ret l => l = [] \/ exists r, l = heading :: r
  | Raise e => e = TypeError
  end.
Proof.
  unfold JobMatchingAgent.marked.
  destruct (JobMatchingAgent.truthy v); [|left; reflexivity].
  destruct v; simpl; eauto.
Qed.

(** X6.  [_combine_matches_gaps] never returns an empty list and raises
    nothing but [TypeError]; on two lists of strings it returns the two
    headed and marked lists one after the other, each left out when empty,
    and the one placeholder line when both are. *)
Theorem combine_matches_gaps_lines (matches gaps : value) (ms gs : list string) :
  match JobMatchingAgent._combine_matches_gaps matches gaps with
  | Ret l => l <> []
  | Raise e => e = TypeError
  end
  /\ JobMatchingAgent._combine_matches_gaps (Models.strs ms) (Models.strs gs)
     = Ret (match ms, gs with
            | [], [] => ["No specific details available"]
            | _, _ => listed "Matches:" "+ " ms ++ listed "Gaps:" "- " gs
            end)%list.
Proof.
  split.
  - unfold JobMatchingAgent._combine_matches_gaps.
    pose proof (marked_cases "Matches:" "+ " matches) as M.
    pose proof (marked_cases "Gaps:" "- " gaps) as G.
    destruct (JobMatchingAgent.marked "Matches:" "+ " matches) as [m|e]; [|exact M].
    destruct (JobMatchingAgent.marked "Gaps:" "- " gaps) as [g|e]; [|exact G].
    simpl. destruct M as [-> | (r & ->)]; destruct G as [-> | (r' & ->)]; simpl;
      discriminate.
  - unfold JobMatchingAgent._combine_matches_gaps.
    rewrite !marked_strs. simpl.
    destruct ms as [|m ms]; destruct gs as [|g gs]; reflexivity.
Qed.

End Combine.

(** ** The transformation of a decoded reply *)

Section Transform.

Context `{PyLib}.

Lemma read_match_score (raw_data : list (string * value)) :
  match Json.get "match_score" raw_data with
  | Some v =>
      try_except (f <- JobMatchingAgent.py_float v ;; Ret (Flt.div100 f))
        is_ValueError_or_TypeError (fun _ => Ret (Fin (4 # 5)))
  | None => Ret Flt.zero
  end = Ret (overall_of raw_data).
Proof.
  unfold overall_of. destruct (Json.get "match_score" raw_data) as [v|]; [|reflexivity].
  destruct v; simpl; try reflexivity. destruct (float_of_str s); reflexivity.
Qed.

Lemma transform_section_empty :
  JobMatchingAgent.transform_section [] = Ret empty_section.
Proof. reflexivity. Qed.

Lemma transform_dict_inv (raw_data : list (string * value)) (out : value) :
  JobMatchingAgent.transform_dict raw_data = Ret out ->
  exists skills experience education insights,
    out = JObj [("overall_match_score", JFloat (overall_of raw_data));
                ("skills_match", skills);
                ("experience_match", experience);
                ("education_match", education);
                ("additional_insights", JArr insights)]
    /\ insights <> []
    /\ (Json.get "analysis" raw_data = None ->
        skills = empty_section /\ experience = empty_section
        /\ education = empty_section).
Proof.
  unfold JobMatchingAgent.transform_dict. rewrite read_match_score. cbn [bind].
  intros E.
  apply bind_Ret_inv in E as (skills & Es & E).
  apply bind_Ret_inv in E as (experience & Ex & E).
  apply bind_Ret_inv in E as (education & Ed & E).
  apply bind_Ret_inv in E as (strengths & _ & E).
  apply bind_Ret_inv in E as (considerations & _ & E).
  injection E as <-.
  exists skills, experience, education. eexists. split; [reflexivity|]. split.
  - destruct (_ ++ _)%list; discriminate.
  - intros A. unfold JobMatchingAgent.get_or in Es, Ex, Ed. rewrite A in Es, Ex, Ed.
    cbn [JobMatchingAgent.as_dict_or Json.get] in Es, Ex, Ed.
    rewrite transform_section_empty in Es, Ex, Ed.
    injection Es as <-. injection Ex as <-. injection Ed as <-. auto.
Qed.

(** X7.  On a decoded reply that is a [dict] with an entry,
    [_transform_api_response] answers with the estimate of its handler, or
    with a [dict] whose overall score is 0 when the reply has no
    [match_score], a hundredth of that number when it is one and 0.8 when
    it is not; the insights are never empty, and the three sections of a
    reply without [analysis] score 0. *)
Theorem transform_api_response_of_dict (raw_data : list (string * value)) (out : value) :
  raw_data <> [] ->
  JobMatchingAgent._transform_api_response (JObj raw_data) = Ret out ->
  out = estimated_on_error
  \/ exists skills experience education insights,
       out = JObj [("overall_match_score", JFloat (overall_of raw_data));
                   ("skills_match", skills);
                   ("experience_match", experience);
                   ("education_match", education);
                   ("additional_insights", JArr insights)]
       /\ insights <> []
       /\ (Json.get "analysis" raw_data = None ->
           skills = empty_section /\ experience = empty_section
           /\ education = empty_section).
Proof.
  intros N E. destruct raw_data as [|kv more]; [contradiction|].
  unfold JobMatchingAgent._transform_api_response in E.
  apply try_except_Ret_inv in E as [E | (e & _ & E)].
  - right. apply transform_dict_inv; exact E.
  - left. injection E as <-. reflexivity.
Qed.

Lemma default_analysis_dict_round_trip :
  JobMatchingAgent.MatchAnalysis_of
    (Models.MatchAnalysis_dict
       (estimated_analysis (4 # 5) (3 # 4)
          "Analysis estimated - Please check results manually"
          "Analysis was estimated due to processing limitations - Results may not be fully accurate"))
  = Ret (estimated_analysis (4 # 5) (3 # 4)
           "Analysis estimated - Please check results manually"
           "Analysis was estimated due to processing limitations - Results may not be fully accurate").
Proof. reflexivity. Qed.

Lemma transform_of_other_values (raw_data : value) :
  no_dict_no_str raw_data = true ->
  JobMatchingAgent._transform_api_response raw_data
  = Ret (Models.MatchAnalysis_dict
           (estimated_analysis (4 # 5) (3 # 4)
              "Analysis estimated - Please check results manually"
              "Analysis was estimated due to processing limitations - Results may not be fully accurate")).
Proof.
  intros N. unfold JobMatchingAgent._transform_api_response.
  destruct raw_data as [| | | | |items|[|kv more]]; try discriminate N;
    rewrite create_default_analysis_eq; reflexivity.
Qed.

(** X8.  A reply that decodes to a list, a number, a boolean, [null] or
    the empty [dict] is reported by [match_job] as the default analysis:
    0.80 overall and 0.75 for each section. *)
Theorem match_job_of_other_values (content text : string) (raw_data : value) :
  json_loads text = inl raw_data ->
  no_dict_no_str raw_data = true ->
  JobMatchingAgent.match_job (Ret content) (fun _ => Ret (Some text))
  = Ret (estimated_analysis (4 # 5) (3 # 4)
           "Analysis estimated - Please check results manually"
           "Analysis was estimated due to processing limitations - Results may not be fully accurate").
Proof.
  intros L N. unfold JobMatchingAgent.match_job. cbn [bind].
  cbn [JobMatchingAgent.clean_completion].
  rewrite (job_valid_response_unchanged text raw_data L). cbn [bind].
  unfold loads_result. rewrite L. cbn [bind].
  rewrite (transform_of_other_values raw_data N). cbn [bind].
  rewrite default_analysis_dict_round_trip. reflexivity.
Qed.

End Transform.

Lemma match_job_of_other_values_witness :
  @JobMatchingAgent.match_job Reference.lib (Ret EmptyString) (fun _ => Ret (Some "[1, 2]"))
  = Ret (estimated_analysis (4 # 5) (3 # 4)
           "Analysis estimated - Please check results manually"
           "Analysis was estimated due to processing limitations - Results may not be fully accurate").
Proof.
  exact (@match_job_of_other_values Reference.lib EmptyString "[1, 2]"
           (JArr [JInt 1; JInt 2]) ltac:(vm_compute; reflexivity) ltac:(reflexivity)).
Defined.

Lemma transform_api_response_of_dict_witness :
  @JobMatchingAgent._transform_api_response Reference.lib
    (JObj [("match_score", JStr "high")])
  = Ret (JObj [("overall_match_score", JFloat (Fin (4 # 5)));
               ("skills_match", empty_section);
               ("experience_match", empty_section);
               ("education_match", empty_section);
               ("additional_insights", JArr [JStr "No additional insights available"])])
  /\ (JObj [("overall_match_score", JFloat (Fin (4 # 5)));
            ("skills_match", empty_section);
            ("experience_match", empty_section);
            ("education_match", empty_section);
            ("additional_insights", JArr [JStr "No additional insights available"])]
      = estimated_on_error
      \/ exists skills experience education insights,
           JObj [("overall_match_score", JFloat (Fin (4 # 5)));
                 ("skills_match", empty_section);
                 ("experience_match", empty_section);
                 ("education_match", empty_section);
                 ("additional_insights", JArr [JStr "No additional insights available"])]
           = JObj [("overall_match_score",
                    JFloat (@overall_of Reference.lib [("match_score", JStr "high")]));
                   ("skills_match", skills);
                   ("experience_match", experience);
                   ("education_match", education);
                   ("additional_insights", JArr insights)]
           /\ insights <> []
           /\ (Json.get "analysis" [("match_score", JStr "high")] = None ->
               skills = empty_section /\ experience = empty_section
               /\ education = empty_section)).
Proof.
  split; [vm_compute; reflexivity|].
  exact (@transform_api_response_of_dict Reference.lib [("match_score", JStr "high")] _
           ltac:(discriminate) ltac:(vm_compute; reflexivity)).
Defined.

(** ** The scores read off the text of a reply *)

Lemma span_length (p : ascii -> bool) (s : string) :
  String.length (fst (Re.span p s)) + String.length (snd (Re.span p s))
  = String.length s.
Proof.
  induction s as [|c s IH]; simpl; [reflexivity|].
  destruct (p c); simpl; [|reflexivity].
  destruct (Re.span p s); simpl in *. now rewrite IH.
Qed.

Lemma span_fst_length (p : ascii -> bool) (s a b : string) :
  Re.span p s = (a, b) -> String.length a <= String.length s.
Proof. intros E. pose proof (span_length p s) as L. rewrite E in L; simpl in L. lia. Qed.

Lemma span_snd_length (p : ascii -> bool) (s a b : string) :
  Re.span p s = (a, b) -> String.length b <= String.length s.
Proof. intros E. pose proof (span_length p s) as L. rewrite E in L; simpl in L. lia. Qed.

Lemma drop_length (k : nat) (s : string) : String.length (Str.drop k s) <= String.length s.
Proof.
  revert s; induction k as [|k IH]; intros s; destruct s as [|c s]; simpl; auto.
Qed.

Lemma literal_length (pre s r : string) :
  Re.literal pre s = Some r -> String.length r <= String.length s.
Proof.
  unfold Re.literal. destruct (String.prefix pre s); [|discriminate].
  intros E; injection E as <-. apply drop_length.
Qed.

Lemma head_is_length (c : ascii) (s r : string) :
  Re.head_is c s = Some r -> String.length r <= String.length s.
Proof. intros E. apply head_is_some in E. subst s. simpl; lia. Qed.

Lemma prefix_number_at_length (pre s digits : string) (n : nat) :
  Re.prefix_number_at pre s = Some (digits, n) ->
  String.length digits <= String.length s.
Proof.
  unfold Re.prefix_number_at.
  destruct (Re.literal pre s) as [s1|] eqn:L; [|discriminate].
  destruct (Re.span Char.isspace s1) as [ws s2] eqn:W.
  destruct (Re.span Char.isdigit s2) as [d rest] eqn:D.
  apply literal_length in L. apply span_snd_length in W. apply span_fst_length in D.
  destruct d; [discriminate|]. intros E; injection E as <- _. lia.
Qed.

Lemma key_number_at_length (key s digits : string) (n : nat) :
  Re.key_number_at key s = Some (digits, n) ->
  String.length digits <= String.length s.
Proof.
  unfold Re.key_number_at.
  destruct (Re.literal key s) as [s1|] eqn:L; [|discriminate].
  destruct (Re.span Char.isspace s1) as [ws s2] eqn:W.
  destruct (Re.prefix_number_at ":" s2) as [[d k]|] eqn:P; [|discriminate].
  apply literal_length in L. apply span_snd_length in W.
  apply prefix_number_at_length in P.
  intros E; injection E as <- _. lia.
Qed.

Lemma section_score_at_length (key s digits : string) (n : nat) :
  Re.section_score_at key s = Some (digits, n) ->
  String.length digits <= String.length s.
Proof.
  unfold Re.section_score_at.
  destruct (Re.literal key s) as [s1|] eqn:L; [|discriminate].
  destruct (Re.span Char.isspace s1) as [ws1 s2] eqn:W1.
  destruct (Re.head_is ":" s2) as [s3|] eqn:H3; [|discriminate].
  destruct (Re.span Char.isspace s3) as [ws2 s4] eqn:W2.
  destruct (Re.head_is "{" s4) as [s5|] eqn:H5; [|discriminate].
  destruct (Re.span Char.isspace s5) as [ws3 s6] eqn:W3.
  destruct (Re.key_number_at (jq "$score$") s6) as [[d k]|] eqn:K; [|discriminate].
  apply literal_length in L. apply span_snd_length in W1, W2, W3.
  apply head_is_length in H3, H5. apply key_number_at_length in K.
  intros E; injection E as <- _. lia.
Qed.

Lemma search_length (m : Re.matcher string) :
  (forall s d n, m s = Some (d, n) -> String.length d <= String.length s) ->
  forall text d, Re.search m text = Some d -> String.length d <= String.length text.
Proof.
  intros M text. induction text as [|c text IH]; intros d; simpl.
  - destruct (m EmptyString) as [[a n]|] eqn:E; [|discriminate].
    intros F; injection F as <-. exact (M _ _ _ E).
  - destruct (m (String c text)) as [[a n]|] eqn:E.
    + intros F; injection F as <-. exact (M _ _ _ E).
    + intros F. apply IH in F. simpl; lia.
Qed.

Section Extraction.

Context `{PyLib}.

Lemma py_int_within_limit (text digits : string) :
  within_int_limit text ->
  String.length digits <= String.length text ->
  py_int digits = Ret (Json.digits_value digits).
Proof.
  unfold within_int_limit, py_int. destruct int_max_str_digits as [limit|]; auto.
  intros A B. destruct (limit <? String.length digits) eqn:C; auto.
  apply Nat.ltb_lt in C. lia.
Qed.

Lemma extract_one_found (pattern : Re.matcher string) assign (text : string)
    (scores : JobMatchingAgent.Scores) :
  (forall s d n, pattern s = Some (d, n) -> String.length d <= String.length s) ->
  within_int_limit text ->
  JobMatchingAgent.extract_one pattern assign text scores
  = inl (match Re.search pattern text with
         | Some digits => assign (Json.digits_value digits) scores
         | None => scores
         end).
Proof.
  intros M W. unfold JobMatchingAgent.extract_one.
  destruct (Re.search pattern text) as [digits|] eqn:S; [|reflexivity].
  rewrite (py_int_within_limit text digits W (search_length pattern M text digits S)).
  reflexivity.
Qed.

(** X9.  On a text no longer than the longest number [int] converts,
    [extract_valid_json_scores] reads each of its five scores on its own:
    the first number the field's pattern finds, or the field's default
    (80, 80, 75, 85, 70). *)
Theorem extract_valid_json_scores_fieldwise (text : string) :
  within_int_limit text ->
  JobMatchingAgent.extract_valid_json_scores (Some text)
  = {| JobMatchingAgent.match_score :=
         found_or JobMatchingAgent.match_pattern text 80;
       JobMatchingAgent.skills_score :=
         found_or JobMatchingAgent.skills_pattern text 80;
       JobMatchingAgent.experience_score :=
         found_or JobMatchingAgent.experience_pattern text 75;
       JobMatchingAgent.education_score :=
         found_or JobMatchingAgent.education_pattern text 85;
       JobMatchingAgent.additional_score :=
         found_or JobMatchingAgent.additional_pattern text 70 |}.
Proof.
  intros W. unfold JobMatchingAgent.extract_valid_json_scores.
  rewrite (extract_one_found JobMatchingAgent.match_pattern); auto;
    [|intros s d n; apply key_number_at_length].
  cbn [JobMatchingAgent.and_then].
  rewrite (extract_one_found JobMatchingAgent.skills_pattern); auto;
    [|intros s d n; apply section_score_at_length].
  cbn [JobMatchingAgent.and_then].
  rewrite (extract_one_found JobMatchingAgent.experience_pattern); auto;
    [|intros s d n; apply section_score_at_length].
  cbn [JobMatchingAgent.and_then].
  rewrite (extract_one_found JobMatchingAgent.education_pattern); auto;
    [|intros s d n; apply section_score_at_length].
  cbn [JobMatchingAgent.and_then].
  rewrite (extract_one_found JobMatchingAgent.additional_pattern); auto;
    [|intros s d n; apply section_score_at_length].
  cbn [JobMatchingAgent.either]. unfold found_or.
  destruct (Re.search JobMatchingAgent.match_pattern text);
    destruct (Re.search JobMatchingAgent.skills_pattern text);
    destruct (Re.search JobMatchingAgent.experience_pattern text);
    destruct (Re.search JobMatchingAgent.education_pattern text);
    destruct (Re.search JobMatchingAgent.additional_pattern text); reflexivity.
Qed.

(** X10.  When the overall score is found and [int] refuses it, the
    extraction ends there: the five defaults are returned, whatever the
    rest of the text holds. *)
Theorem extraction_ends_at_refused_number (text digits : string) (e : exn) :
  Re.search JobMatchingAgent.match_pattern text = Some digits ->
  py_int digits = Raise e ->
  JobMatchingAgent.extract_valid_json_scores (Some text)
  = JobMatchingAgent.default_scores.
Proof.
  intros S R. unfold JobMatchingAgent.extract_valid_json_scores.
  unfold JobMatchingAgent.extract_one. rewrite S, R. reflexivity.
Qed.

End Extraction.

Lemma extract_valid_json_scores_fieldwise_witness :
  @JobMatchingAgent.extract_valid_json_scores Reference.lib (Some string_sub_score)
  = {| JobMatchingAgent.match_score := 90;
       JobMatchingAgent.skills_score := 80;
       JobMatchingAgent.experience_score := 75;
       JobMatchingAgent.education_score := 85;
       JobMatchingAgent.additional_score := 70 |}.
Proof.
  pose proof (@extract_valid_json_scores_fieldwise Reference.lib string_sub_score
                ltac:(unfold within_int_limit; simpl int_max_str_digits;
                      apply Nat.leb_le; vm_compute; reflexivity)) as T.
  exact T.
Defined.

Lemma extraction_ends_at_refused_number_witness :
  @JobMatchingAgent.extract_valid_json_scores Reference.lib (Some endless_score)
  = JobMatchingAgent.default_scores.
Proof.
  exact (@extraction_ends_at_refused_number Reference.lib endless_score
           (String.concat EmptyString (repeat "1" 4301)) ValueError
           ltac:(vm_compute; reflexivity) ltac:(vm_compute; reflexivity)).
Defined.

(** ** The validators once more *)

Lemma validate_score_values (f : pyfloat) :
  Models.validate_score f = Fin (0 # 1)
  \/ Models.validate_score f = Fin (1 # 1)
  \/ exists q, f = Fin q /\ Models.validate_score f = Fin q
               /\ Flt.Qltb q (1 # 1) = true /\ Flt.Qltb (0 # 1) q = true.
Proof.
  destruct f as [q| | |]; try (vm_compute; auto; fail).
  rewrite validate_score_cases.
  destruct (Flt.Qltb q (1 # 1)) eqn:A; auto.
  destruct (Flt.Qltb (0 # 1) q) eqn:B; auto.
  right; right. exists q. repeat split; auto.
Qed.

Lemma validate_score_idempotent (f : pyfloat) :
  Models.validate_score (Models.validate_score f) = Models.validate_score f.
Proof.
  destruct (validate_score_values f) as [-> | [-> | (q & -> & E & A & B)]];
    try reflexivity.
  rewrite E, validate_score_cases, A, B. reflexivity.
Qed.

(** X11.  Validating a validated value changes nothing, for each of the
    three validators, and a larger confidence never validates to a smaller
    one. *)
Theorem validators_idempotent_monotone (v w : Z) (f : pyfloat) :
  (v <= w)%Z ->
  Models.validate_confidence (Models.validate_confidence v)
  = Models.validate_confidence v
  /\ Models.validate_score (Models.validate_score f) = Models.validate_score f
  /\ Models.validate_overall_score (Models.validate_overall_score f)
     = Models.validate_overall_score f
  /\ (Models.validate_confidence v <= Models.validate_confidence w)%Z.
Proof.
  intros L. split; [unfold Models.validate_confidence; lia|].
  split; [apply validate_score_idempotent|].
  split; [rewrite !validate_overall_score_eq; apply validate_score_idempotent|].
  unfold Models.validate_confidence; lia.
Qed.

Lemma validators_idempotent_monotone_witness :
  Models.validate_confidence (Models.validate_confidence 250)
  = Models.validate_confidence 250
  /\ Models.validate_score (Models.validate_score NaN) = Models.validate_score NaN
  /\ Models.validate_overall_score (Models.validate_overall_score NaN)
     = Models.validate_overall_score NaN
  /\ (Models.validate_confidence 250 <= Models.validate_confidence 300)%Z.
Proof. exact (validators_idempotent_monotone 250 300 NaN ltac:(lia)). Defined.

(** ** A record, its [dict] and the record again *)

Section RoundTrip.

Context `{PyLib}.

Lemma validate_each_strs (l : list string) :
  Models.validate_each Models.validate_str (map JStr l) = Ret l.
Proof. induction l as [|x l IH]; simpl; [reflexivity | now rewrite IH]. Qed.

Lemma validate_list_str_strs (l : list string) :
  Models.validate_list_str (Models.strs l) = Ret l.
Proof. apply validate_each_strs. Qed.

Lemma breakdown_round_trip (b : AnalysisBreakdown) :
  Models.validate_score (score b) = score b ->
  Models.model Models.AnalysisBreakdown_init (Models.AnalysisBreakdown_dict b) = Ret b.
Proof.
  intros S. destruct b as [s d]; simpl in *.
  unfold Models.AnalysisBreakdown_init, Models.field; simpl.
  rewrite S. change (JArr (map JStr d)) with (Models.strs d).
  unfold Models.strs. rewrite validate_each_strs. reflexivity.
Qed.

Lemma breakdown_init_stable kw (b : AnalysisBreakdown) :
  Models.AnalysisBreakdown_init kw = Ret b ->
  Models.validate_score (score b) = score b.
Proof.
  unfold Models.AnalysisBreakdown_init. intros E.
  apply bind_Ret_inv in E as (s & Es & E).
  apply bind_Ret_inv in E as (d & _ & E).
  injection E as <-; simpl.
  apply field_inv in Es as [(v & _ & Ev) | (_ & ->)].
  - apply bind_Ret_inv in Ev as (f & _ & Ef). injection Ef as <-.
    apply validate_score_idempotent.
  - reflexivity.
Qed.

Lemma breakdown_field_stable kw key (d b : AnalysisBreakdown) :
  Models.validate_score (score d) = score d ->
  Models.field kw key (Models.model Models.AnalysisBreakdown_init) d = Ret b ->
  Models.validate_score (score b) = score b.
Proof.
  intros D E. apply field_inv in E as [(v & _ & Ev) | (_ & ->)]; auto.
  apply model_inv in Ev as (kw' & _ & Ev). eapply breakdown_init_stable; eauto.
Qed.

Lemma MatchAnalysis_round_trip_stable (m : MatchAnalysis) :
  Models.validate_score (overall_match_score m) = overall_match_score m ->
  Models.validate_score (score (skills_match m)) = score (skills_match m) ->
  Models.validate_score (score (experience_match m)) = score (experience_match m) ->
  Models.validate_score (score (education_match m)) = score (education_match m) ->
  JobMatchingAgent.MatchAnalysis_of (Models.MatchAnalysis_dict m) = Ret m.
Proof.
  intros O S X D. destruct m as [o s x d a q]; simpl in *.
  unfold Models.MatchAnalysis_init, Models.field; simpl Json.get.
  cbn [Models.validate_float bind]. rewrite validate_overall_score_eq, O.
  rewrite !breakdown_round_trip by assumption. cbn [bind].
  rewrite (validate_list_str_strs a). cbn [bind].
  destruct q as [q|].
  - unfold Models.strs. cbn [bind Models.validate_optional Models.validate_list_str].
    rewrite (validate_each_strs q). reflexivity.
  - reflexivity.
Qed.

(** X12.  A [MatchAnalysis] the model has built is given back by the model
    when it is turned into a [dict] and passed in again, as
    [_transform_api_response] and [match_job] do with the default
    analysis. *)
Theorem MatchAnalysis_dict_round_trip kw (m : MatchAnalysis) :
  Models.MatchAnalysis_init kw = Ret m ->
  JobMatchingAgent.MatchAnalysis_of (Models.MatchAnalysis_dict m) = Ret m.
Proof.
  intros E. apply MatchAnalysis_round_trip_stable;
    unfold Models.MatchAnalysis_init in E;
    apply bind_Ret_inv in E as (o & Eo & E);
    apply bind_Ret_inv in E as (s & Es & E);
    apply bind_Ret_inv in E as (x & Ex & E);
    apply bind_Ret_inv in E as (d & Ed & E);
    apply bind_Ret_inv in E as (a & _ & E);
    apply bind_Ret_inv in E as (q & _ & E);
    injection E as <-; simpl.
  - apply field_inv in Eo as [(v & _ & Ev) | (_ & ->)]; [|reflexivity].
    apply bind_Ret_inv in Ev as (f & _ & Ef). injection Ef as <-.
    exact (validate_score_idempotent f).
  - eapply breakdown_field_stable; [|exact Es]. apply validate_score_idempotent.
  - eapply breakdown_field_stable; [|exact Ex]. apply validate_score_idempotent.
  - eapply breakdown_field_stable; [|exact Ed]. apply validate_score_idempotent.
Qed.

End RoundTrip.

Lemma MatchAnalysis_dict_round_trip_witness :
  @JobMatchingAgent.MatchAnalysis_of Reference.lib
    (Models.MatchAnalysis_dict
       {| overall_match_score := Fin (1 # 1);
          skills_match := {| score := Fin (1 # 2); details := ["a"] |};
          experience_match := {| score := Fin (0 # 1); details := ["Experience analysis not yet performed"] |};
          education_match := {| score := Fin (0 # 1); details := ["Education analysis not yet performed"] |};
          additional_insights := [];
          recommended_interview_questions := None |})
  = Ret {| overall_match_score := Fin (1 # 1);
           skills_match := {| score := Fin (1 # 2); details := ["a"] |};
           experience_match := {| score := Fin (0 # 1); details := ["Experience analysis not yet performed"] |};
           education_match := {| score := Fin (0 # 1); details := ["Education analysis not yet performed"] |};
           additional_insights := [];
           recommended_interview_questions := None |}.
Proof.
  exact (@MatchAnalysis_dict_round_trip Reference.lib
           [("overall_match_score", JInt 3);
            ("skills_match", JObj [("score", JFloat (Fin (1 # 2))); ("details", Models.strs ["a"])]);
            ("additional_insights", JArr []);
            ("recommended_interview_questions", JNull)] _
           ltac:(vm_compute; reflexivity)).
Defined.

(** ** The resume parser *)

Lemma lstrip_blank (s : string) :
  all_chars Char.isspace s = true -> Str.lstrip s = EmptyString.
Proof.
  induction s as [|c s IH]; simpl; [reflexivity|].
  intros A. apply andb_true_iff in A as [C A]. rewrite C. auto.
Qed.

Lemma strip_blank (s : string) :
  all_chars Char.isspace s = true -> Str.strip s = EmptyString.
Proof. intros A. unfold Str.strip. rewrite lstrip_blank by exact A. reflexivity. Qed.

(** X13.  A resume text that is empty, or holds nothing but whitespace, is
    answered with the empty structure; the provider is not asked. *)
Theorem parse_resume_blank (complete : string -> result (option string))
    (convert_template_to_json : string -> result ParsedResume) (resume_text : string) :
  all_chars Char.isspace resume_text = true ->
  ResumeParsingAgent.parse_resume complete convert_template_to_json resume_text
  = Ret ResumeParsingAgent.create_empty_structure
  /\ ResumeParsingAgent.parse_resume (fun _ => Raise TypeError) convert_template_to_json
       resume_text
     = ResumeParsingAgent.parse_resume complete convert_template_to_json resume_text.
Proof.
  intros A. unfold ResumeParsingAgent.parse_resume.
  rewrite (strip_blank resume_text A). rewrite orb_true_r. split; reflexivity.
Qed.

Lemma parse_resume_blank_witness :
  ResumeParsingAgent.parse_resume (fun _ => Ret (Some "Name: Ann")) (fun _ => Raise ValueError)
    (String Char.newline "  ")
  = Ret ResumeParsingAgent.create_empty_structure.
Proof.
  exact (proj1 (parse_resume_blank (fun _ => Ret (Some "Name: Ann"))
                  (fun _ => Raise ValueError) (String Char.newline "  ")
                  ltac:(vm_compute; reflexivity))).
Defined.

(** X14.  [parse_resume] returns the empty structure, or what
    [convert_template_to_json] made of a completion that is a [str]. *)
Theorem parse_resume_empty_or_converted (complete : string -> result (option string))
    (convert_template_to_json : string -> result ParsedResume) (resume_text : string) :
  exists r,
    ResumeParsingAgent.parse_resume complete convert_template_to_json resume_text = Ret r
    /\ (r = ResumeParsingAgent.create_empty_structure
        \/ exists template_output,
             complete resume_text = Ret (Some template_output)
             /\ convert_template_to_json template_output = Ret r).
Proof.
  destruct (parse_resume_returns complete convert_template_to_json resume_text) as [r E].
  exists r; split; [exact E|].
  unfold ResumeParsingAgent.parse_resume in E.
  apply try_except_Ret_inv in E as [E | (e & _ & E)].
  - destruct (_ || _); [discriminate|].
    apply bind_Ret_inv in E as (completion & C & E).
    destruct completion as [template_output|]; [|discriminate].
    right; eauto.
  - injection E as <-; auto.
Qed.

(** ** A decision that decodes *)

Section Decisions.

Context `{PyLib}.

Lemma generate_decision_valid_reply (content text : string) kw (d : DecisionFeedback) :
  json_loads text = inl (JObj kw) ->
  Models.DecisionFeedback_init kw = Ret d ->
  DecisionFeedbackAgent.generate_decision (Ret content) (fun _ => Ret (Some text)) = Ret d.
Proof.
  intros L V. unfold DecisionFeedbackAgent.generate_decision. cbn [bind].
  cbn [DecisionFeedbackAgent.loads_completion]. unfold loads_result. rewrite L.
  cbn [bind DecisionFeedbackAgent.DecisionFeedback_of]. rewrite V. reflexivity.
Qed.

(** X15.  A reply that decodes to a [dict] with none of the five sections
    of a decision is taken for a decision: nothing is cleaned and no
    default is built by the agent; the record holds the defaults the model
    declares, the status [HOLD] with confidence 30 among them. *)
Theorem generate_decision_of_unrelated_dict (content text : string) kw :
  json_loads text = inl (JObj kw) ->
  Json.get "decision" kw = None ->
  Json.get "rationale" kw = None ->
  Json.get "recommendations" kw = None ->
  Json.get "hiring_manager_notes" kw = None ->
  Json.get "next_steps" kw = None ->
  DecisionFeedbackAgent.generate_decision (Ret content) (fun _ => Ret (Some text))
  = Ret Models.DecisionFeedback_default
  /\ Models.DecisionFeedback_default <> default_decision.
Proof.
  intros L D R C N S. split; [|discriminate].
  apply (generate_decision_valid_reply content text kw); [exact L|].
  unfold Models.DecisionFeedback_init, Models.field. rewrite D, R, C, N, S. reflexivity.
Qed.

End Decisions.

Lemma generate_decision_of_unrelated_dict_witness :
  @DecisionFeedbackAgent.generate_decision Reference.lib (Ret EmptyString)
    (fun _ => Ret (Some string_match_score))
  = Ret Models.DecisionFeedback_default.
Proof.
  exact (proj1 (@generate_decision_of_unrelated_dict Reference.lib EmptyString
                  string_match_score [("match_score", JStr "92")]
                  ltac:(vm_compute; reflexivity) ltac:(reflexivity) ltac:(reflexivity)
                  ltac:(reflexivity) ltac:(reflexivity) ltac:(reflexivity))).
Defined.

(** ** The completion of a response *)

Lemma contains_in_one_char (p : string) (c : ascii) :
  2 <= String.length p -> Str.contains p (String c EmptyString) = false.
Proof.
  destruct p as [|a [|b p]]; simpl; try lia. intros _.
  destruct (ascii_dec a c); reflexivity.
Qed.

Lemma get_completion_eq (response : value) :
  OpenRouterConfig.get_completion response
  = match completion_of response with
    | Some completion => Ret completion
    | None => Raise OpenRouterConfig.extraction_error
    end.
Proof.
  unfold OpenRouterConfig.get_completion, completion_of.
  destruct response as [| | | | | |fields]; try reflexivity.
  cbn [OpenRouterConfig.contains_key bind].
  destruct (Json.get "choices" fields) as [choices|] eqn:C; [|reflexivity].
  cbn [OpenRouterConfig.item bind]. rewrite C. cbn [bind].
  destruct choices as [| | | |s|items|more]; try reflexivity.
  - (* a str under [choices] *)
    destruct s as [|c s]; [reflexivity|].
    cbn [OpenRouterConfig.py_len OpenRouterConfig.first_item bind String.length Nat.ltb Nat.leb].
    cbn [OpenRouterConfig.contains_key bind].
    rewrite !contains_in_one_char by (simpl; lia). reflexivity.
  - (* a list under [choices] *)
    destruct items as [|choice rest]; [reflexivity|].
    cbn [OpenRouterConfig.py_len OpenRouterConfig.first_item bind List.length Nat.ltb Nat.leb].
    destruct choice as [| | | |s|items|choice]; try reflexivity.
    + cbn [OpenRouterConfig.contains_key bind].
      destruct (Str.contains "message" s); [reflexivity|]. cbn [bind].
      destruct (Str.contains "text" s); reflexivity.
    + cbn [OpenRouterConfig.contains_key bind].
      destruct (existsb _ items); [reflexivity|]. cbn [bind].
      destruct (existsb _ items); reflexivity.
    + unfold message_content, no_message_content.
      cbn [OpenRouterConfig.contains_key OpenRouterConfig.item bind].
      destruct (Json.get "message" choice) as [message|] eqn:M; cbn [bind].
      * destruct message as [| | | |s|items|message];
          cbn [OpenRouterConfig.contains_key OpenRouterConfig.item bind try_except is_Exception];
          try reflexivity.
        -- destruct (Str.contains "content" s); cbn [bind negb]; [reflexivity|].
           destruct (Json.get "text" choice); reflexivity.
        -- destruct (existsb _ items); cbn [bind negb]; [reflexivity|].
           destruct (Json.get "text" choice); reflexivity.
        -- destruct (Json.get "content" message) as [content|] eqn:K; cbn [bind].
           ++ reflexivity.
           ++ destruct (Json.get "text" choice); reflexivity.
      * destruct (Json.get "text" choice); reflexivity.
  - (* a dict under [choices] *)
    cbn [OpenRouterConfig.py_len bind].
    destruct (0 <? List.length more); reflexivity.
Qed.

(** X16.  [get_completion] answers from the first choice only, and only
    when that choice is a [dict]: with its [message.content], else with its
    [text].  Every other response, whatever goes wrong on the way, ends in
    the one exception the function raises itself. *)
Theorem get_completion_answers (response completion : value) :
  (OpenRouterConfig.get_completion response = Ret completion
   <-> exists fields choice rest,
         response = JObj fields
         /\ Json.get "choices" fields = Some (JArr (JObj choice :: rest))
         /\ (message_content choice = Some completion
             \/ (message_content choice = None
                 /\ no_message_content choice = true
                 /\ Json.get "text" choice = Some completion)))
  /\ (OpenRouterConfig.get_completion response = Raise OpenRouterConfig.extraction_error
      \/ exists answer, OpenRouterConfig.get_completion response = Ret answer).
Proof.
  rewrite get_completion_eq. split.
  - unfold completion_of. split.
    + intros E.
      destruct response as [| | | | | |fields]; try discriminate.
      destruct (Json.get "choices" fields) as [choices|] eqn:C; [|discriminate].
      destruct choices as [| | | | |items|]; try discriminate.
      destruct items as [|choice rest]; [discriminate|].
      destruct choice as [| | | | | |choice]; try discriminate.
      exists fields, choice, rest. split; [reflexivity|]. split; [exact C|].
      destruct (message_content choice) as [content|] eqn:M.
      * injection E as <-; auto.
      * destruct (no_message_content choice) eqn:N; [|discriminate].
        destruct (Json.get "text" choice) as [text|]; [|discriminate].
        injection E as <-; auto.
    + intros (fields & choice & rest & -> & C & [M | (M & N & T)]); rewrite C.
      * rewrite M; reflexivity.
      * rewrite M, N, T; reflexivity.
  - destruct (completion_of response); eauto.
Qed.

(** X17.  When the first choice carries both [message.content] and
    [text], the content is the completion; the later choices are not
    looked at. *)
Theorem get_completion_prefers_message (fields choice message : list (string * value))
    (rest : list value) (content : value) :
  Json.get "choices" fields = Some (JArr (JObj choice :: rest)) ->
  Json.get "message" choice = Some (JObj message) ->
  Json.get "content" message = Some content ->
  OpenRouterConfig.get_completion (JObj fields) = Ret content.
Proof.
  intros C M K. rewrite get_completion_eq. unfold completion_of, message_content.
  rewrite C, M, K. reflexivity.
Qed.

Lemma get_completion_prefers_message_witness :
  OpenRouterConfig.get_completion
    (JObj [("id", JStr "r1");
           ("choices",
            JArr [JObj [("text", JStr "from text");
                        ("message", JObj [("role", JStr "assistant");
                                          ("content", JStr "from message")])];
                  JObj [("text", JStr "second choice")]])])
  = Ret (JStr "from message").
Proof.
  exact (get_completion_prefers_message
           [("id", JStr "r1");
            ("choices",
             JArr [JObj [("text", JStr "from text");
                         ("message", JObj [("role", JStr "assistant");
                                           ("content", JStr "from message")])];
                   JObj [("text", JStr "second choice")]])]
           [("text", JStr "from text");
            ("message", JObj [("role", JStr "assistant");
                              ("content", JStr "from message")])]
           [("role", JStr "assistant"); ("content", JStr "from message")]
           [JObj [("text", JStr "second choice")]]
           (JStr "from message")
           ltac:(reflexivity) ltac:(reflexivity) ltac:(reflexivity)).
Defined.

Section Exchange.

Context `{PyLib}.

Lemma complete_unusable (make_request : string -> result value) (content : string) :
  (forall response, make_request content = Ret response -> completion_of response = None) ->
  exists e, OpenRouterConfig.complete make_request content = Raise e.
Proof.
  intros U. unfold OpenRouterConfig.complete.
  destruct (make_request content) as [response|e] eqn:R; [|eexists; reflexivity].
  cbn [bind]. rewrite get_completion_eq, (U response eq_refl). eexists; reflexivity.
Qed.

(** X18.  When the request fails, or the response holds no completion,
    each agent answers with its placeholder: the default decision, the
    analysis of the outermost handler, the empty resume. *)
Theorem agents_on_unusable_response (make_request : string -> result value)
    (content : string) (convert_template_to_json : string -> result ParsedResume) :
  (forall response, make_request content = Ret response -> completion_of response = None) ->
  DecisionFeedbackAgent.generate_decision (Ret content)
    (OpenRouterConfig.complete make_request) = Ret default_decision
  /\ JobMatchingAgent.match_job (Ret content) (OpenRouterConfig.complete make_request)
     = Ret error_match_analysis
  /\ ResumeParsingAgent.parse_resume (OpenRouterConfig.complete make_request)
       convert_template_to_json content
     = Ret ResumeParsingAgent.create_empty_structure.
Proof.
  intros U. destruct (complete_unusable make_request content U) as [e E].
  split; [|split].
  - unfold DecisionFeedbackAgent.generate_decision. cbn [bind]. rewrite E.
    rewrite create_default_decision_eq. reflexivity.
  - unfold JobMatchingAgent.match_job. cbn [bind]. rewrite E.
    cbn [bind try_except is_Exception]. apply error_analysis_eq.
  - unfold ResumeParsingAgent.parse_resume.
    destruct (_ || _); [reflexivity|]. rewrite E. reflexivity.
Qed.

End Exchange.

Lemma agents_on_unusable_response_witness :
  @DecisionFeedbackAgent.generate_decision Reference.lib (Ret "profile")
    (OpenRouterConfig.complete (fun _ => Ret (JObj [("choices", JArr [])])))
  = Ret default_decision.
Proof.
  exact (proj1 (@agents_on_unusable_response Reference.lib
                  (fun _ => Ret (JObj [("choices", JArr [])])) "profile"
                  (fun _ => Raise ValueError)
                  ltac:(intros response E; injection E as <-; reflexivity))).
Defined.

(** ** The text cleaner *)

Lemma all_chars_app (p : ascii -> bool) (a b : string) :
  all_chars p (a ++ b) = all_chars p a && all_chars p b.
Proof. induction a as [|c a IH]; simpl; [reflexivity | now rewrite IH, andb_assoc]. Qed.

Lemma all_chars_sub_from (p : ascii -> bool) (m : Re.matcher string) :
  (forall t repl n, m t = Some (repl, n) -> all_chars p repl = true) ->
  forall s skip, all_chars p s = true -> all_chars p (Re.sub_from m skip s) = true.
Proof.
  intros M s. induction s as [|c s IH]; intros skip A; simpl; [reflexivity|].
  simpl in A. apply andb_true_iff in A as [C A].
  destruct skip as [|k]; [|auto].
  destruct (m (String c s)) as [[repl n]|] eqn:E.
  - rewrite all_chars_app, (M _ _ _ E), IH; auto.
  - simpl. rewrite C, IH; auto.
Qed.

Lemma all_chars_lstrip (p : ascii -> bool) (s : string) :
  all_chars p s = true -> all_chars p (Str.lstrip s) = true.
Proof.
  induction s as [|c s IH]; simpl; auto. intros A.
  destruct (Char.isspace c); [|exact A].
  apply andb_true_iff in A as [_ A]; auto.
Qed.

Lemma all_chars_rstrip (p : ascii -> bool) (s : string) :
  all_chars p s = true -> all_chars p (Str.rstrip s) = true.
Proof.
  induction s as [|c s IH]; simpl; auto. intros A.
  apply andb_true_iff in A as [C A]. specialize (IH A).
  destruct (Str.rstrip s) as [|d r].
  - destruct (Char.isspace c); simpl; [reflexivity | now rewrite C].
  - simpl in *. now rewrite C, IH.
Qed.

(** Whitespace other than the space is gone after the first substitution. *)

Lemma space_runs_collapsed (s : string) (skip : nat) :
  all_chars one_space_only (Re.sub_from (Re.space_run_at " ") skip s) = true.
Proof.
  revert skip. induction s as [|c s IH]; intros skip; simpl; [reflexivity|].
  destruct skip as [|k]; [|auto].
  unfold Re.space_run_at at 1. simpl Re.span.
  destruct (Char.isspace c) eqn:C.
  - destruct (Re.span Char.isspace s) as [a b]. simpl. apply IH.
  - simpl. unfold one_space_only at 1. rewrite C. simpl. apply IH.
Qed.

Lemma space_runs_replaced (s : string) :
  all_chars one_space_only (Re.sub (Re.space_run_at " ") s) = true.
Proof. apply space_runs_collapsed. Qed.

Lemma one_space_only_not_newline (c : ascii) :
  one_space_only c = true -> Ascii.eqb c Char.newline = false.
Proof.
  intros Q. destruct (Ascii.eqb c Char.newline) eqn:E; [|reflexivity].
  apply Ascii.eqb_eq in E. subst c. discriminate Q.
Qed.

Lemma blank_lines_never_found (s : string) :
  all_chars one_space_only s = true -> Re.sub Re.blank_lines_at s = s.
Proof.
  unfold Re.sub. induction s as [|c s IH]; simpl; [reflexivity|].
  intros A. apply andb_true_iff in A as [C A].
  unfold Re.blank_lines_at at 1. simpl Re.head_is.
  rewrite (one_space_only_not_newline c C). now rewrite IH.
Qed.

Lemma special_chars_removed (p : ascii -> bool) (s : string) (skip : nat) :
  all_chars p s = true ->
  all_chars (fun c => Re.is_kept c && p c) (Re.sub_from Re.special_char_at skip s) = true.
Proof.
  revert skip. induction s as [|c s IH]; intros skip A; simpl; [reflexivity|].
  simpl in A. apply andb_true_iff in A as [C A].
  destruct skip as [|k]; [|auto].
  destruct (Re.is_kept c) eqn:K; simpl; [rewrite K, C; simpl|]; auto.
Qed.

Lemma kept_one_space_is_clean (c : ascii) :
  Re.is_kept c && one_space_only c = true -> is_clean c = true.
Proof.
  unfold Re.is_kept, one_space_only, is_clean.
  destruct (Char.isword c), (Char.isspace c), (Re.is_punctuation c), (Ascii.eqb c " ");
    simpl; auto.
Qed.

Lemma all_chars_weaken (p q : ascii -> bool) (s : string) :
  (forall c, p c = true -> q c = true) -> all_chars p s = true -> all_chars q s = true.
Proof.
  intros W. induction s as [|c s IH]; simpl; auto. intros A.
  apply andb_true_iff in A as [C A]. now rewrite (W c C), IH.
Qed.

Lemma period_run_at_repl (t repl : string) (n : nat) :
  Re.period_run_at t = Some (repl, n) -> repl = ".".
Proof.
  unfold Re.period_run_at. destruct (Re.span _ t) as [[|d dots] rest]; [discriminate|].
  intros E; injection E as <- _; reflexivity.
Qed.

(** The head of a stripped text, and its end. *)

Lemma lstrip_head (s : string) :
  Str.lstrip s = EmptyString
  \/ exists c r, Str.lstrip s = String c r /\ Char.isspace c = false.
Proof.
  induction s as [|c s IH]; simpl; auto.
  destruct (Char.isspace c) eqn:C; eauto.
Qed.

Lemma rstrip_idempotent (s : string) : Str.rstrip (Str.rstrip s) = Str.rstrip s.
Proof.
  induction s as [|c s IH]; simpl; [reflexivity|].
  destruct (Str.rstrip s) as [|d r] eqn:R.
  - destruct (Char.isspace c) eqn:C; simpl; [reflexivity | now rewrite C].
  - change (Str.rstrip (String c (String d r))) with
      (match Str.rstrip (String d r) with
       | EmptyString => if Char.isspace c then EmptyString else String c EmptyString
       | r0 => String c r0
       end).
    rewrite IH. reflexivity.
Qed.

Lemma rstrip_keeps_head (c : ascii) (s : string) :
  Char.isspace c = false -> exists r, Str.rstrip (String c s) = String c r.
Proof.
  intros C. simpl. destruct (Str.rstrip s); [rewrite C|]; eauto.
Qed.

Lemma strip_is_stripped (s : string) :
  Str.lstrip (Str.strip s) = Str.strip s /\ Str.rstrip (Str.strip s) = Str.strip s.
Proof.
  unfold Str.strip. split; [|apply rstrip_idempotent].
  destruct (lstrip_head s) as [-> | (c & r & -> & C)]; [reflexivity|].
  destruct (rstrip_keeps_head c r C) as [r' ->]. simpl. now rewrite C.
Qed.

Lemma clean_text_is_clean (text : string) :
  all_chars is_clean (TextPreprocessor.clean_text text) = true.
Proof.
  unfold TextPreprocessor.clean_text, Str.strip. cbv zeta.
  apply all_chars_rstrip, all_chars_lstrip.
  apply all_chars_sub_from.
  { intros t repl n E. apply period_run_at_repl in E. subst repl. reflexivity. }
  rewrite (blank_lines_never_found _ (space_runs_replaced text)).
  eapply all_chars_weaken; [exact kept_one_space_is_clean|].
  apply special_chars_removed. apply space_runs_replaced.
Qed.

(** X19.  The text [clean_text] returns holds nothing but word characters,
    spaces and the nine punctuation marks [.,;:!?()-], so neither a tab nor
    a newline; it neither begins nor ends with whitespace. *)
Theorem clean_text_alphabet (text : string) :
  all_chars is_clean (TextPreprocessor.clean_text text) = true
  /\ Str.lstrip (TextPreprocessor.clean_text text) = TextPreprocessor.clean_text text
  /\ Str.rstrip (TextPreprocessor.clean_text text) = TextPreprocessor.clean_text text.
Proof.
  split; [apply clean_text_is_clean | apply strip_is_stripped].
Qed.

(** X20.  The second substitution of [clean_text], the one for runs of
    newlines, never changes the text: the first one has left no newline. *)
Theorem clean_text_newline_step_idle (text : string) :
  Re.sub Re.blank_lines_at (Re.sub (Re.space_run_at " ") text)
  = Re.sub (Re.space_run_at " ") text
  /\ TextPreprocessor.clean_text text
     = Str.strip
         (Re.sub Re.period_run_at
            (Re.sub Re.special_char_at (Re.sub (Re.space_run_at " ") text)))
  /\ Str.count Char.newline (TextPreprocessor.clean_text text) = 0.
Proof.
  pose proof (blank_lines_never_found _ (space_runs_replaced text)) as B.
  split; [exact B|]. split.
  - unfold TextPreprocessor.clean_text. cbv zeta. rewrite B. reflexivity.
  - pose proof (clean_text_is_clean text) as A.
    revert A. generalize (TextPreprocessor.clean_text text) as r.
    induction r as [|c r IH]; simpl; [reflexivity|].
    intros A. apply andb_true_iff in A as [C A]. rewrite (IH A).
    destruct (Ascii.eqb c Char.newline) eqn:E; [|reflexivity].
    apply Ascii.eqb_eq in E. subst c. discriminate C.
Qed.

(** Runs of periods. *)

Lemma sub_from_skip (m : Re.matcher string) (k : nat) (s : string) :
  Re.sub_from m k s = Re.sub_from m 0 (Str.drop k s).
Proof.
  revert k. induction s as [|c s IH]; intros [|k]; try reflexivity.
  simpl. apply IH.
Qed.

Lemma span_rest (p : ascii -> bool) (s : string) :
  snd (Re.span p s) = Str.drop (String.length (fst (Re.span p s))) s
  /\ match snd (Re.span p s) with
     | String c _ => p c = false
     | EmptyString => True
     end.
Proof.
  induction s as [|c s IH]; simpl; [auto|].
  destruct (p c) eqn:C; simpl; [|auto].
  destruct (Re.span p s) as [a b]; simpl in *. exact IH.
Qed.

Lemma prefix_cons (a b : ascii) (p s : string) :
  String.prefix (String a p) (String b s)
  = if ascii_dec a b then String.prefix p s else false.
Proof. reflexivity. Qed.

Lemma prefix_empty (s : string) : String.prefix EmptyString s = true.
Proof. destruct s; reflexivity. Qed.

Lemma contains_two_periods (c : ascii) (r : string) :
  Str.contains ".." (String c r)
  = (Ascii.eqb c "." && starts_with_period r) || Str.contains ".." r.
Proof.
  change (Str.contains ".." (String c r))
    with (String.prefix ".." (String c r) || Str.contains ".." r).
  f_equal. rewrite prefix_cons. destruct (ascii_dec "." c) as [<-|N].
  - change (Ascii.eqb "." ".") with true. cbn [andb].
    destruct r as [|d r]; [reflexivity|].
    rewrite prefix_cons. cbn [starts_with_period].
    destruct (ascii_dec "." d) as [<-|N]; [rewrite prefix_empty; reflexivity|].
    symmetry. apply Ascii.eqb_neq. congruence.
  - replace (Ascii.eqb c ".") with false; [reflexivity|].
    symmetry. apply Ascii.eqb_neq. congruence.
Qed.

Lemma period_run_at_cons (c : ascii) (s : string) :
  Re.period_run_at (String c s)
  = if Ascii.eqb c "."
    then Some (".", S (String.length (fst (Re.span (fun c => Ascii.eqb c ".") s))))
    else None.
Proof.
  unfold Re.period_run_at. simpl Re.span. destruct (Ascii.eqb c "."); [|reflexivity].
  destruct (Re.span _ s); reflexivity.
Qed.

Lemma period_runs_collapsed (n : nat) (s : string) :
  String.length s <= n ->
  Str.contains ".." (Re.sub Re.period_run_at s) = false
  /\ (starts_with_period s = false ->
      starts_with_period (Re.sub Re.period_run_at s) = false).
Proof.
  revert s. induction n as [|n IH]; intros s L.
  { destruct s; [split; reflexivity | simpl in L; lia]. }
  destruct s as [|c s]; [split; reflexivity|].
  simpl in L. unfold Re.sub. simpl Re.sub_from. rewrite period_run_at_cons.
  destruct (Ascii.eqb c ".") eqn:C.
  - pose proof (span_rest (fun c => Ascii.eqb c ".") s) as [D N].
    pose proof (span_length (fun c => Ascii.eqb c ".") s) as SL.
    destruct (Re.span (fun c => Ascii.eqb c ".") s) as [a b]; simpl in D, N, SL.
    simpl fst. replace (S (String.length a) - 1) with (String.length a) by lia.
    rewrite sub_from_skip, <- D.
    destruct (IH b ltac:(lia)) as [IH1 IH2].
    change (Re.sub_from Re.period_run_at 0 b) with (Re.sub Re.period_run_at b).
    assert (B : starts_with_period b = false).
    { destruct b; [reflexivity | exact N]. }
    split; [|intros F; simpl in F; congruence].
    simpl append. rewrite contains_two_periods, IH1, (IH2 B). reflexivity.
  - destruct (IH s ltac:(lia)) as [IH1 IH2].
    change (Re.sub_from Re.period_run_at 0 s) with (Re.sub Re.period_run_at s).
    split; [|intros _; simpl; exact C].
    rewrite contains_two_periods, C, IH1. reflexivity.
Qed.

Lemma prefix_app (p a b : string) :
  String.prefix p a = true -> String.prefix p (a ++ b) = true.
Proof.
  revert a. induction p as [|x p IH]; intros a; [intros _; apply prefix_empty|].
  destruct a as [|y a]; [discriminate|].
  change (String y a ++ b) with (String y (a ++ b)). rewrite !prefix_cons.
  destruct (ascii_dec x y); [apply IH | discriminate].
Qed.

Lemma contains_cons (p : string) (c : ascii) (s : string) :
  Str.contains p (String c s) = String.prefix p (String c s) || Str.contains p s.
Proof. reflexivity. Qed.

Lemma contains_app_left (p a b : string) :
  Str.contains p a = true -> Str.contains p (a ++ b) = true.
Proof.
  induction a as [|c a IH].
  - destruct p as [|x p]; [|discriminate]. intros _.
    destruct b; reflexivity.
  - rewrite contains_cons. change (String c a ++ b) with (String c (a ++ b)).
    rewrite contains_cons. intros P. apply orb_true_iff in P as [P | P].
    + change (String c (a ++ b)) with (String c a ++ b).
      rewrite (prefix_app _ _ _ P). reflexivity.
    + rewrite (IH P). apply orb_true_r.
Qed.

Lemma contains_app_right (p a b : string) :
  Str.contains p b = true -> Str.contains p (a ++ b) = true.
Proof.
  intros P. induction a as [|c a IH]; [exact P|].
  change (String c a ++ b) with (String c (a ++ b)).
  rewrite contains_cons, IH. apply orb_true_r.
Qed.

Lemma lstrip_suffix (s : string) : exists w, s = w ++ Str.lstrip s.
Proof.
  induction s as [|c s [w IH]]; simpl; [exists EmptyString; reflexivity|].
  destruct (Char.isspace c).
  - exists (String c w). simpl. now rewrite <- IH.
  - exists EmptyString. reflexivity.
Qed.

Lemma rstrip_prefix (s : string) : exists w, s = Str.rstrip s ++ w.
Proof.
  induction s as [|c s [w IH]]; simpl; [exists EmptyString; reflexivity|].
  destruct (Str.rstrip s) as [|d r].
  - destruct (Char.isspace c).
    + exists (String c s). reflexivity.
    + exists w. simpl in *. now rewrite IH at 1.
  - exists w. simpl in *. now rewrite IH at 1.
Qed.

Lemma contains_strip (p s : string) :
  Str.contains p s = false -> Str.contains p (Str.strip s) = false.
Proof.
  intros N. unfold Str.strip.
  destruct (Str.contains p (Str.rstrip (Str.lstrip s))) eqn:C; [|reflexivity].
  destruct (rstrip_prefix (Str.lstrip s)) as [w1 E1].
  destruct (lstrip_suffix s) as [w2 E2].
  assert (T : Str.contains p (w2 ++ (Str.rstrip (Str.lstrip s) ++ w1)) = true)
    by (apply contains_app_right, contains_app_left; exact C).
  rewrite <- E1, <- E2 in T. congruence.
Qed.

(** X21.  The text [clean_text] returns never holds two periods in a row,
    although the characters between two periods may have been removed. *)
Theorem clean_text_no_double_period (text : string) :
  Str.contains ".." (TextPreprocessor.clean_text text) = false.
Proof.
  unfold TextPreprocessor.clean_text. cbv zeta.
  apply contains_strip.
  eapply proj1, period_runs_collapsed. apply Nat.le_refl.
Qed.

(** Texts of nothing but whitespace. *)

Lemma span_all (p : ascii -> bool) (s : string) :
  all_chars p s = true -> Re.span p s = (s, EmptyString).
Proof.
  induction s as [|c s IH]; simpl; [reflexivity|].
  intros A. apply andb_true_iff in A as [C A]. now rewrite C, (IH A).
Qed.

Lemma drop_all (s : string) : Str.drop (String.length s) s = EmptyString.
Proof. induction s as [|c s IH]; simpl; auto. Qed.

Lemma clean_text_blank (text : string) :
  all_chars Char.isspace text = true -> TextPreprocessor.clean_text text = EmptyString.
Proof.
  intros A. destruct text as [|c s]; [reflexivity|].
  assert (E : Re.sub (Re.space_run_at " ") (String c s) = " ").
  { unfold Re.sub. simpl Re.sub_from. unfold Re.space_run_at at 1.
    rewrite (span_all _ _ A).
    replace (String.length (String c s) - 1) with (String.length s) by (simpl; lia).
    rewrite sub_from_skip, drop_all. reflexivity. }
  unfold TextPreprocessor.clean_text. cbv zeta. rewrite E. reflexivity.
Qed.

(** X22.  A text of nothing but whitespace is cleaned to the empty text,
    and the resume parser answers the cleaned text with the empty
    structure. *)
Theorem blank_text_cleaned_and_parsed (complete : string -> result (option string))
    (convert_template_to_json : string -> result ParsedResume) (text : string) :
  all_chars Char.isspace text = true ->
  TextPreprocessor.clean_text text = EmptyString
  /\ ResumeParsingAgent.parse_resume complete convert_template_to_json
       (TextPreprocessor.clean_text text)
     = Ret ResumeParsingAgent.create_empty_structure.
Proof.
  intros A. rewrite (clean_text_blank text A). split; reflexivity.
Qed.

Lemma blank_text_cleaned_and_parsed_witness :
  TextPreprocessor.clean_text (String Char.newline "  ") = EmptyString.
Proof.
  exact (proj1 (blank_text_cleaned_and_parsed (fun _ => Raise TypeError)
                  (fun _ => Raise TypeError) (String Char.newline "  ")
                  ltac:(vm_compute; reflexivity))).
Defined.

(** ** The metrics of the summary page *)


(** ** The object kept from a reply *)




(** ** The rating of skills *)

Lemma label_of_assign_same (key label : string) (result : list (string * string)) :
  ResumeHighlight.label_of key (ResumeHighlight.assign key label result) = Some label.
Proof.
  induction result as [|[k v] r IH]; simpl.
  - now rewrite String.eqb_refl.
  - destruct (String.eqb k key) eqn:E; simpl; [now rewrite String.eqb_refl|].
    now rewrite E.
Qed.

Lemma label_of_assign_other (key other label : string) (result : list (string * string)) :
  other <> key ->
  ResumeHighlight.label_of key (ResumeHighlight.assign other label result)
  = ResumeHighlight.label_of key result.
Proof.
  intros N. assert (F : String.eqb other key = false) by (apply String.eqb_neq; exact N).
  induction result as [|[k v] r IH]; simpl.
  - now rewrite F.
  - destruct (String.eqb k other) eqn:E; simpl.
    + apply String.eqb_eq in E; subst k. now rewrite F.
    + destruct (String.eqb k key); auto.
Qed.

Lemma label_of_fold (f : string -> string) (skills : list string)
    (result : list (string * string)) (key : string) :
  ResumeHighlight.label_of key
    (fold_left (fun result skill => ResumeHighlight.assign skill (f skill) result)
       skills result)
  = if in_dec string_dec key skills then Some (f key)
    else ResumeHighlight.label_of key result.
Proof.
  revert result. induction skills as [|s rest IH]; intros result; [reflexivity|].
  simpl fold_left. rewrite IH.
  destruct (in_dec string_dec key rest) as [I|N];
    destruct (in_dec string_dec key (s :: rest)) as [I'|N']; try reflexivity.
  - exfalso; apply N'; right; exact I.
  - destruct I' as [<-|I']; [|contradiction]. apply label_of_assign_same.
  - apply label_of_assign_other. intros ->. apply N'; left; reflexivity.
Qed.

Lemma label_of_rated (f : string -> string) (skills : list string) (skill : string) :
  In skill skills ->
  ResumeHighlight.label_of skill
    (fold_left (fun result skill => ResumeHighlight.assign skill (f skill) result)
       skills [])
  = Some (f skill).
Proof.
  intros I. rewrite label_of_fold.
  destruct (in_dec string_dec skill skills); [reflexivity | contradiction].
Qed.

Lemma analyze_skills_label (skills : list string) (analysis : MatchAnalysis)
    (skill : string) :
  In skill skills ->
  ResumeHighlight.label_of skill (ResumeHighlight.analyze_skills skills (Some analysis))
  = Some (ResumeHighlight.rate
            (ResumeHighlight.matched_skills (details (skills_match analysis)))
            (ResumeHighlight.missing_skills (details (skills_match analysis)))
            skill).
Proof.
  intros I. unfold ResumeHighlight.analyze_skills.
  destruct skills as [|s rest]; [contradiction|].
  cbv zeta. apply (label_of_rated _ (s :: rest) skill I).
Qed.

(** X25.  Every skill handed to [analyze_skills] gets one label: [neutral]
    when there is no analysis; otherwise [good], [needs_improvement] or
    [average], and [good] exactly when a matched item holds the skill or
    is held by it, whatever the gaps say. *)
Theorem analyze_skills_labels (skills : list string) (analysis : MatchAnalysis)
    (skill : string) :
  In skill skills ->
  ResumeHighlight.label_of skill (ResumeHighlight.analyze_skills skills None)
  = Some "neutral"
  /\ exists label,
       ResumeHighlight.label_of skill
         (ResumeHighlight.analyze_skills skills (Some analysis)) = Some label
       /\ (label = "good" \/ label = "needs_improvement" \/ label = "average")
       /\ (label = "good"
           <-> existsb (ResumeHighlight.related (Str.lower skill))
                 (ResumeHighlight.matched_skills (details (skills_match analysis)))
               = true).
Proof.
  intros I. split.
  - unfold ResumeHighlight.analyze_skills.
    apply (label_of_rated (fun _ => "neutral") skills skill I).
  - eexists. split; [apply analyze_skills_label; exact I|].
    unfold ResumeHighlight.rate. cbv zeta.
    destruct (existsb _ (ResumeHighlight.matched_skills _)).
    + split; [auto|]. split; auto.
    + destruct (existsb _ (ResumeHighlight.missing_skills _));
        (split; [auto|]); split; discriminate.
Qed.

Lemma analyze_skills_labels_witness :
  ResumeHighlight.label_of "SQL"
    (ResumeHighlight.analyze_skills ["Python"; "SQL"] None) = Some "neutral".
Proof.
  exact (proj1 (analyze_skills_labels ["Python"; "SQL"] error_match_analysis "SQL"
                  ltac:(simpl; auto))).
Defined.

Lemma unmarked_details_give_nothing (details : list string) :
  forallb unmarked details = true ->
  ResumeHighlight.matched_skills details = []
  /\ ResumeHighlight.missing_skills details = [].
Proof.
  unfold ResumeHighlight.matched_skills, ResumeHighlight.missing_skills.
  induction details as [|d r IH]; simpl; [auto|].
  intros A. apply andb_true_iff in A as [U A]. destruct (IH A) as [M G].
  unfold unmarked in U. apply andb_true_iff in U as [P Q].
  apply negb_true_iff in P, Q. rewrite P, Q. simpl. auto.
Qed.

(** X26.  When no detail of the skills section carries a mark, as in the
    placeholder records the agents build and in a section without matches
    and gaps, every skill is rated [average]. *)
Theorem unmarked_details_rate_average (skills : list string) (analysis : MatchAnalysis)
    (skill : string) :
  forallb unmarked (details (skills_match analysis)) = true ->
  In skill skills ->
  ResumeHighlight.label_of skill (ResumeHighlight.analyze_skills skills (Some analysis))
  = Some "average".
Proof.
  intros U I. rewrite (analyze_skills_label skills analysis skill I).
  destruct (unmarked_details_give_nothing _ U) as [-> ->]. reflexivity.
Qed.

Lemma unmarked_details_rate_average_witness :
  ResumeHighlight.label_of "Python"
    (ResumeHighlight.analyze_skills ["Python"; "SQL"] (Some error_match_analysis))
  = Some "average".
Proof.
  exact (unmarked_details_rate_average ["Python"; "SQL"] error_match_analysis "Python"
           ltac:(vm_compute; reflexivity) ltac:(simpl; auto)).
Defined.

Lemma lower_app (a b : string) : Str.lower (a ++ b) = Str.lower a ++ Str.lower b.
Proof. induction a as [|c a IH]; simpl; [reflexivity | now rewrite IH]. Qed.

Lemma marked_text_of_item (mark item : string) :
  String.length mark = 2 ->
  Str.contains_char ":" (Str.lower item) = false ->
  ResumeHighlight.marked_text (mark ++ item) = Str.lower item.
Proof.
  intros L C. unfold ResumeHighlight.marked_text.
  destruct mark as [|a [|b [|c m]]]; try discriminate L.
  simpl Str.drop. cbv zeta. now rewrite C.
Qed.

Lemma matched_of_listed (ms gs : list string) (m : string) :
  In m ms ->
  Str.contains_char ":" (Str.lower m) = false ->
  In (Str.lower m)
    (ResumeHighlight.matched_skills
       (listed "Matches:" "+ " ms ++ listed "Gaps:" "- " gs)%list).
Proof.
  intros I C. unfold ResumeHighlight.matched_skills.
  rewrite <- (marked_text_of_item "+ " m eq_refl C).
  apply in_map. apply filter_In. split; [|reflexivity].
  apply in_or_app. left. unfold listed.
  destruct ms as [|x r]; [contradiction|]. right.
  apply (in_map (fun x => "+ " ++ x)). exact I.
Qed.

(** X27.  On the details [_combine_matches_gaps] writes, a skill that
    holds a matched item, or is held by one, is rated [good]; the empty
    text is held by every skill, so one empty item among the matches rates
    every skill [good]. *)
Theorem matched_item_rates_good (skills ms gs : list string) (analysis : MatchAnalysis)
    (m skill : string) :
  details (skills_match analysis)
  = (listed "Matches:" "+ " ms ++ listed "Gaps:" "- " gs)%list ->
  In m ms ->
  Str.contains_char ":" (Str.lower m) = false ->
  ResumeHighlight.related (Str.lower skill) (Str.lower m) = true ->
  In skill skills ->
  ResumeHighlight.label_of skill (ResumeHighlight.analyze_skills skills (Some analysis))
  = Some "good"
  /\ ResumeHighlight.related (Str.lower skill) EmptyString = true.
Proof.
  intros D I C R S. split.
  - rewrite (analyze_skills_label skills analysis skill S), D.
    unfold ResumeHighlight.rate. cbv zeta.
    replace (existsb _ (ResumeHighlight.matched_skills _)) with true; [reflexivity|].
    symmetry. apply existsb_exists. exists (Str.lower m). split; [|exact R].
    apply matched_of_listed; assumption.
  - unfold ResumeHighlight.related. destruct (Str.lower skill); reflexivity.
Qed.

Lemma matched_item_rates_good_witness :
  ResumeHighlight.label_of "Rust"
    (ResumeHighlight.analyze_skills ["Rust"]
       (Some {| overall_match_score := Fin (1 # 2);
                skills_match :=
                  {| score := Fin (1 # 2);
                     details := ["Matches:"; "+ "; "Gaps:"; "- Rust"] |};
                experience_match := Models.AnalysisBreakdown_default;
                education_match := Models.AnalysisBreakdown_default;
                additional_insights := [];
                recommended_interview_questions := None |}))
  = Some "good".
Proof.
  exact (proj1 (matched_item_rates_good ["Rust"] [EmptyString] ["Rust"]
                  {| overall_match_score := Fin (1 # 2);
                     skills_match :=
                       {| score := Fin (1 # 2);
                          details := ["Matches:"; "+ "; "Gaps:"; "- Rust"] |};
                     experience_match := Models.AnalysisBreakdown_default;
                     education_match := Models.AnalysisBreakdown_default;
                     additional_insights := [];
                     recommended_interview_questions := None |}
                  EmptyString "Rust"
                  ltac:(reflexivity) ltac:(simpl; auto) ltac:(reflexivity)
                  ltac:(reflexivity) ltac:(simpl; auto))).
Defined.
